(* ===== verification/_CoqProject ===== *)
-Q . S2P
Prelude.v
PyFloat.v
Repr.v
Models.v
Validation.v
Fees.v
IdGen.v
Json.v
Protocol.v
Content.v
Deploy.v
Arbiter.v
Agents.v
Registry.v
Lifecycle.v
Oracle.v
Supercar.v
