(* ===== verification/Prelude.v ===== *)
(** * A verification development for the dexcrow escrow agents

    ** The program

    [src/escrow-system] is a set of Python "agents" (buyer, seller,
    oracle, arbiter) that talk through a chat protocol, plus a shared
    library:
    - [shared/models.py]: the enums ([EscrowState], [TradeType], ...) and
      dataclasses ([Asset], [EscrowTerms], [EscrowData], [DisputeRecord],
      ...) of the escrow domain;
    - [shared/utils.py]: validation of addresses, transaction hashes and
      escrow records, amount formatting and fee computation on Python
      floats, deadline arithmetic, and the dictionary-shaped message
      contents with their extractors;
    - [protocols/escrow_protocol.py]: the envelope catalog, the envelope
      constructors, [validate_message] and acknowledgements;
    - [agents/*.py]: per-role chat handlers (acknowledge first, then a
      keyword router over the lower-cased text), the arbiter's
      count-based [analyze_dispute] and the oracle's verification call;
    - [agent.py]: a fifth chat agent, a supercar expert backed by the
      same completion service as the oracle;
    - [deployment/deploy_agents.py]: a simulated deployment.
    The escrow registry that owns escrows and enforces the lifecycle is
    not under [src/]; it is modelled from the specification.

    ** Files, in dependency order

    - [Prelude]: Python string operations on Latin-1 strings
      ([py_lower], slicing with index normalisation, [in], [join]), the
      result monad [result] with its notation [x <- r ;; k] in
      [py_scope], the reflexive-transitive closure [star] of a step
      relation, the shared tactics and the [pyhints] hint database.
    - [PyFloat]: Python [float] as IEEE binary64 ([SpecFloat], precision
      53, [emax] 1024): [float(str)] as CPython parses it,
      [f"{x:.{d}f}"] ([format_fixed]) and [repr(x)] = [str(x)]
      ([float_repr], the shortest string that reads back).
    - [Repr]: facts about [float_repr]: its decimal exponent is
      [floor(log10 x)], and its digit search and trailing-zero loop end
      within their fuel.
    - [Models]: the enums and dataclasses of [models.py], each enum with
      its [.value] and the decoder [Enum(value)], Python values [pyval]
      and dictionaries as insertion-ordered association lists.
    - [Validation]: [validate_address], [validate_transaction_hash],
      [validate_escrow_data], [format_address] and the deadline functions
      of [utils.py], with CPython's [int(s, 16)] written out ([PyLong]).
    - [Fees]: [format_amount] and [calculate_fees] of [utils.py] on the
      binary64 model.
    - [IdGen]: [generate_escrow_id], [generate_dispute_id] and
      [generate_session_id] of [utils.py]: [int] and [str] of the two
      clock readings, with the MD5 hex digest a variable of the section.
    - [Json]: CPython's [json.dumps] and [json.loads] with their default
      arguments, as [log_agent_activity] and the oracle call them: the
      escaping encoder, and the decoder (number syntax, strict strings,
      [NaN] and [Infinity], the last value of a repeated key) on fuel.
    - [Protocol]: [protocols/escrow_protocol.py]: the catalog
      [EscrowMessageTypes], every [create_*_message], the readers,
      [validate_message], [EscrowProtocolConstants] and the seven
      [on_message] handlers ([Module Handlers]) with their log lines.
    - [Content]: the content constructors and extractors of [utils.py]
      ([Module Utils]), [parse_agent_message], the line
      [log_agent_activity] prints, and their comparison with the
      protocol.
    - [Deploy]: [deployment/deploy_agents.py] in ExtLib's monad
      [eitherT PyExc (state DeployState)]: the deployer object, the
      clock, standard output and the written files are the state, and an
      exception keeps the state reached when it was raised.
    - [Arbiter]: [analyze_dispute] of [arbiter_agent.py].
    - [Agents]: the [on_chat] handler shared by every agent, written once
      against the class [ChatRole], and one instance per escrow agent
      (its capability metadata and keyword router, and its [on_chat] as
      the shared handler at its role); [_text], [_metadata] and
      [on_ack].
    - [Registry]: the escrow registry of the specification (sections 4.1,
      4.5, 7) over the dataclasses, with [gmap]s of escrows and disputes,
      the guarded [transition] graph, the one-command [step], the
      all-or-nothing [handle] and the [reachable] states; the validation
      engine is the class [EscrowValidator], implemented by the
      validators of [utils.py].
    - [Lifecycle]: the lifecycle contract of section 4.1 as an abstract
      machine on the statuses of the escrows ([Module LifecycleSpec]),
      and the refinement of it by the registry ([Module Refinement]).
    - [Oracle]: [verify_transaction_with_ai] of [oracle_agent.py], for
      any JSON parser and with the decoder of [Json], and how its answer
      reads as the registry's [OracleVerdict].
    - [Supercar]: the supercar agent of [agent.py], one more [ChatRole].

    ** How the parts interact

    The agents receive chat messages; [on_chat] acknowledges each one and
    routes its texts to the role's handler.  The registry takes typed
    commands, checks them with the validators of [Validation] through
    [EscrowValidator], applies the status graph, and reads the oracle's
    answer ([Oracle.verdict_of]) with its confidence policy
    [sufficient].  [Protocol] and [Content] are the message formats the
    agents and the registry exchange; [Fees] and [Arbiter] are the
    arithmetic and the arbitration the specification puts in the core.

    ** What the theorems show

    - The lifecycle (Registry): a command the current status forbids is
      rejected with [InvalidStateError] and changes nothing; along any
      sequence of commands an escrow's status follows the graph and a
      finished escrow never changes; [create] succeeds exactly on a fresh
      id with no validation error; an on-chain deposit needs a valid
      proof and a verified, confident oracle verdict; a resolved dispute
      is never changed again; an escrow is DISPUTE_RAISED exactly when
      it names an open dispute record of its own, so every raised
      dispute can be resolved by either decision; with the validators
      of [utils.py], whether [create] succeeds does not depend on the
      fee percentages.  Invariants are proved by induction on
      [reachable] / [star].
    - Refinement (Lifecycle): from every reachable registry, [handle]
      is a step of the abstract contract, successes and errors alike,
      and every session of commands from the empty registry is a
      labelled run of the contract with the same answers.
    - Arbitration (Arbiter): the recommendation table of the
      specification, and what [len] does on other evidence shapes.
    - Agents: the acknowledgement comes first and alone; one reply per
      text; the routers' unreachable and unrecognised commands.
    - Validation: [validate_address] and [validate_transaction_hash]
      accept every well-formed input and what else [int(s, 16)] lets
      through; [validate_escrow_data] returns no error exactly on a valid
      record; the deadline split is exact.
    - Fees: the fixed number of decimals for every finite amount and
      precision; lemmas check the error path and scenario A.
    - Float printing (Repr, supporting lemmas of the model): the
      digit-count shortcut of [repr] equals [floor(log10 x)], and every
      digit integer of the search lies in [1 .. 10^17], which justifies
      the fuel of the trailing-zero loop.
    - Ids (IdGen): the timestamp and digest part read back from every
      generated id; lemmas give its length.
    - JSON (Json, supporting lemma [loads_dumps]): [json.loads] reads
      back every value [json.dumps] writes that has no float and no
      repeated key, by a nested induction on the value with one lemma
      per array and object; the oracle and the activity log use it.
    - Protocol and content: envelope round trips, the acknowledgement,
      extractor round trips, the flat dictionaries of [utils.py] that
      are no envelopes, and a logged line whose JSON reads back as the
      logged record.
    - Oracle and supercar agent: every outcome of the service call, and
      the service's JSON answer returned as written, unchecked.
    - Deployment: a full run for any clock, distinct addresses, and the
      partial failure on a stdout without UTF-8.

    ** Bounds and fuel

    [float_repr] searches 1 to 17 significant digits (17 always
    identify a binary64 number) and strips at most 18 trailing zeros;
    [Repr] proves that the digit integer is at most [10^17], so 18
    strips always suffice; [float_of_decimal] decides
    overflow and underflow from the digit count (10^309 and 10^-324)
    before any power is computed.  The JSON decoder [Json.scan_value]
    recurses on fuel, and [json_loads] gives it one step more than the
    text has characters: each nested value uses at least one character,
    which [Json] proves ([json_size] is at most the length of the
    text), so the fuel never runs out on a text [json.dumps] wrote.  No
    other definition uses fuel: the loops of the code are structural
    recursions on lists and strings.

    ** Not modelled

    Transport and hosting ([uagents], [Agent.run], [ctx.send] beyond the
    list of sent messages), the [ctx.logger] output, the HTTP client
    (an input of [Oracle] and [Supercar]), the prompt texts sent to the
    completion service, the JSON text of the deployment results file
    (written with [indent=2]; the dumped value is kept), the agents' construction and
    [agent.run()] ([uagents]), and MD5 itself (a variable of
    [IdGen]).

    ** Conventions

    A Python [str] is a Rocq [string] whose characters are the code
    points U+0000..U+00FF (Latin-1); [len] is [String.length].  Code
    points above U+00FF are not modelled, except in [Deploy], whose
    strings are UTF-8 bytes so that printing its emoji can fail.  Python
    [int] is [Z], [float] is [PyFloat.float].  Clock readings
    ([time.time()], [datetime.now()]) and fresh identifiers ([uuid4])
    are inputs of the definitions that use them. *)

From Stdlib Require Import String Ascii ZArith List Bool Lia.
Import ListNotations.

Declare Scope py_scope.
Delimit Scope py_scope with py.

(** ** Python strings over Latin-1 *)

Local Open Scope string_scope.

(** [str.lower] on U+0000..U+00FF: A-Z and the Latin-1 capitals
    (U+00C0..U+00DE except the multiplication sign U+00D7) move up by
    0x20; every other code point is its own lower case. *)
Definition py_lower_char (c : ascii) : ascii :=
  let n := nat_of_ascii c in
  if ((65 <=? n)%nat && (n <=? 90)%nat) || ((192 <=? n)%nat && (n <=? 222)%nat && negb (n =? 215)%nat)
  then ascii_of_nat (n + 32) else c.

Fixpoint py_lower (s : string) : string :=
  match s with
  | EmptyString => EmptyString
  | String c r => String (py_lower_char c) (py_lower r)
  end.

(** [needle in hay] on strings; the empty needle is in every string. *)
Fixpoint py_contains (needle hay : string) : bool :=
  prefix needle hay ||
  match hay with
  | EmptyString => false
  | String _ r => py_contains needle r
  end.

(** Slices by a natural index. *)
Fixpoint py_drop (n : nat) (s : string) : string :=
  match n, s with
  | O, _ => s
  | S _, EmptyString => EmptyString
  | S n', String _ r => py_drop n' r
  end.

Fixpoint py_take (n : nat) (s : string) : string :=
  match n, s with
  | O, _ => EmptyString
  | S _, EmptyString => EmptyString
  | S n', String c r => String c (py_take n' r)
  end.

(** Python's normalisation of a slice bound [n] against a length:
    negative bounds count from the end, and the result is clamped to
    [0..len]. *)
Definition py_index (n : Z) (len : nat) : nat :=
  if (n <? 0)%Z then Z.to_nat (Z.max 0 (Z.of_nat len + n))
  else Nat.min (Z.to_nat n) len.

(** [s[n:]] and [s[:n]] for any integer [n]. *)
Definition py_slice_from (n : Z) (s : string) : string :=
  py_drop (py_index n (String.length s)) s.

Definition py_slice_to (n : Z) (s : string) : string :=
  py_take (py_index n (String.length s)) s.

(** [" ".join(parts)] *)
Fixpoint py_join (sep : string) (parts : list string) : string :=
  match parts with
  | [] => EmptyString
  | [p] => p
  | p :: ps => p ++ sep ++ py_join sep ps
  end.

Notation "needle 'in_str' hay" := (py_contains needle hay)
  (at level 70, no associativity) : py_scope.

(** ** Results: the error values of the code as data *)

Inductive result (A E : Type) : Type :=
| Ok (a : A)
| Err (e : E).
Arguments Ok {A E} a.
Arguments Err {A E} e.

Definition result_bind {A B E} (r : result A E) (k : A -> result B E) : result B E :=
  match r with
  | Ok a => k a
  | Err e => Err e
  end.

Notation "x <- r ;; k" := (result_bind r (fun x => k))
  (at level 65, r at next level, right associativity) : py_scope.

Definition is_ok {A E} (r : result A E) : bool :=
  match r with Ok _ => true | Err _ => false end.

(** ** Tactics *)

(** Case on every boolean test of the goal, remembering its value. *)
Ltac bool_cases :=
  repeat match goal with
         | |- context [if ?b then _ else _] =>
             lazymatch b with
             | true => fail
             | false => fail
             | _ => destruct b eqn:?
             end
         end.

(** Invert a hypothesis and clean up. *)
Ltac inv H := inversion H; subst; clear H.

(** Split the booleans of a hypothesis [b1 && b2 = true]. *)
Ltac split_andb :=
  repeat match goal with
         | H : (_ && _)%bool = true |- _ => apply andb_prop in H as [? ?]
         end.

(** ** Generic lemmas on the string operations *)

(** [suffix_overlap n p] holds when a non-empty suffix of [p] starts
    [n]. *)
Fixpoint suffix_overlap (n p : string) : bool :=
  match p with
  | EmptyString => false
  | String _ r => prefix p n || suffix_overlap n r
  end.

(** ** Sequences of steps *)

Section StarDef.
Context {A : Type} (R : A -> A -> Prop).

(** Zero or more steps of [R]. *)
Inductive star : A -> A -> Prop :=
| star_refl a : star a a
| star_step a b c : R a b -> star b c -> star a c.

End StarDef.

Lemma length_py_drop n s : String.length (py_drop n s) = String.length s - n.
Proof. revert s; induction n; intros [|c s]; simpl; auto. Qed.

Lemma py_drop_append_length s t : py_drop (String.length s) (s ++ t) = t.
Proof. induction s; simpl; auto. Qed.

Lemma py_take_append_length s t : py_take (String.length s) (s ++ t) = s.
Proof. induction s; simpl; [destruct t|]; f_equal; auto. Qed.

Lemma length_py_take n s : String.length (py_take n s) = Nat.min n (String.length s).
Proof. revert s; induction n; intros [|c s]; simpl; auto. Qed.

Lemma append_assoc_str s t u : (s ++ t) ++ u = s ++ (t ++ u).
Proof. induction s; simpl; congruence. Qed.

Lemma length_append s t : String.length (s ++ t) = String.length s + String.length t.
Proof. induction s; simpl; auto. Qed.

Lemma prefix_append s t : prefix s (s ++ t) = true.
Proof.
  induction s as [|a s IH]; simpl; [destruct t; auto|].
  destruct (ascii_dec a a); congruence.
Qed.

Lemma prefix_split n s : prefix n s = true -> exists b, s = n ++ b.
Proof.
  revert s; induction n as [|a n IH]; intros [|c s]; simpl; try discriminate.
  - now exists "".
  - now exists (String c s).
  - destruct (ascii_dec a c) as [->|]; [|discriminate].
    intros (b & ->)%IH. now exists b.
Qed.

Lemma py_contains_prefix n s : prefix n s = true -> py_contains n s = true.
Proof. destruct s; simpl; intros ->; auto. Qed.

Lemma py_contains_append_r n s t : py_contains n t = true -> py_contains n (s ++ t) = true.
Proof. induction s; simpl; auto. intros H; rewrite IHs; auto using orb_true_r. Qed.

(** A needle occurs in [hay] exactly when [hay] splits around it. *)
Lemma py_contains_split n hay :
  py_contains n hay = true <-> exists a b, hay = a ++ n ++ b.
Proof.
  split.
  - induction hay as [|c r IH]; cbn [py_contains].
    + destruct n; simpl; [|discriminate]. intros _; now exists "", "".
    + intros [(b & Hb)%prefix_split|Hc]%orb_true_iff.
      * exists "", b. exact Hb.
      * destruct (IH Hc) as (a & b & ->). now exists (String c a), b.
  - intros (a & b & ->). apply py_contains_append_r, py_contains_prefix, prefix_append.
Qed.

Lemma py_contains_append_l n s t : py_contains n s = true -> py_contains n (s ++ t) = true.
Proof.
  intros (a & b & ->)%py_contains_split. apply py_contains_split.
  exists a, (b ++ t). now rewrite !append_assoc_str.
Qed.

(** Containment is transitive: a needle of a needle is a needle. *)
Lemma py_contains_trans a b c :
  py_contains a b = true -> py_contains b c = true -> py_contains a c = true.
Proof.
  intros (x & y & ->)%py_contains_split (u & v & ->)%py_contains_split.
  apply py_contains_split. exists (u ++ x), (y ++ v). now rewrite !append_assoc_str.
Qed.

(** ** A needle in a concatenation

    When no non-empty suffix of [p] starts [n] ([suffix_overlap]), [n]
    occurs in [p ++ s] only inside [p] or inside [s]. *)
Lemma prefix_app_cases n p s :
  prefix n (p ++ s) = true -> prefix n p = true \/ prefix p n = true.
Proof.
  revert n; induction p as [|c p IH]; intros n; [right; destruct n; reflexivity|].
  destruct n as [|a n]; [left; reflexivity|]. simpl.
  destruct (ascii_dec a c) as [->|]; [|discriminate].
  destruct (ascii_dec c c) as [_|]; [|congruence]. apply IH.
Qed.

Lemma py_contains_app_no_overlap n p s :
  suffix_overlap n p = false -> py_contains n (p ++ s) = py_contains n p || py_contains n s.
Proof.
  induction p as [|c p IH]; intros Hov.
  { simpl. destruct n; [destruct s; reflexivity | reflexivity]. }
  cbn [suffix_overlap] in Hov. apply orb_false_iff in Hov as [Hp Hr].
  replace (py_contains n (String c p ++ s))
    with (prefix n (String c p ++ s) || py_contains n (p ++ s)) by reflexivity.
  replace (py_contains n (String c p)) with (prefix n (String c p) || py_contains n p)
    by reflexivity.
  rewrite (IH Hr).
  destruct (prefix n (String c p ++ s)) eqn:Hn.
  - destruct (prefix_app_cases n (String c p) s Hn) as [H|H]; [|congruence].
    rewrite H. reflexivity.
  - destruct (prefix n (String c p)) eqn:Hn'; [|reflexivity].
    destruct (prefix_split _ _ Hn') as [b Hb]. rewrite Hb, append_assoc_str, prefix_append in Hn.
    discriminate.
Qed.

Lemma py_lower_app s t : py_lower (s ++ t) = py_lower s ++ py_lower t.
Proof. induction s; simpl; congruence. Qed.

(** ** Lemmas on sequences of steps *)

Section Star.
Context {A : Type} (R : A -> A -> Prop).

Lemma star_one a b : R a b -> star R a b.
Proof. eauto using star. Qed.

Lemma star_trans a b c : star R a b -> star R b c -> star R a c.
Proof. induction 1; eauto using star. Qed.

(** A property preserved by every step holds all along a sequence. *)
Lemma star_invariant (P : A -> Prop) :
  (forall a b, P a -> R a b -> P b) -> forall a b, star R a b -> P a -> P b.
Proof. intros Hstep a b Hs; induction Hs; eauto. Qed.

End Star.

Create HintDb pyhints discriminated.
Create Rewrite HintDb pyrw.
#[export] Hint Resolve prefix_append py_contains_prefix py_contains_append_l
  py_contains_append_r : pyhints.
#[export] Hint Rewrite length_py_drop py_drop_append_length py_take_append_length
  length_py_take length_append py_lower_app : pyrw.
