(* ===== verification/PyFloat.v ===== *)
(** * Python [float]: IEEE binary64 with [float(str)] and fixed formatting

    Python's [float] is an IEEE 754 binary64 number with
    round-to-nearest-even arithmetic.  It is modelled by the Standard
    Library's [SpecFloat] at precision 53 and maximal exponent 1024, which
    computes exactly what the hardware computes and needs no axiom.

    - [py_float_of_string] is [float(s)] on a [str] (CPython's
      [float_from_string_inner] after the underscore check of
      [_Py_string_to_number_with_underscores]): surrounding whitespace,
      one sign, [inf]/[infinity]/[nan] in any case, a decimal mantissa
      with an optional exponent, rounded correctly; [None] is the
      [ValueError].
    - [format_fixed d x] is [f"{x:.{d}f}"]: the exact binary value
      rounded half-to-even at [d] decimals, the sign kept on negative
      zero; [None] is the [ValueError] of a negative or oversized
      precision. *)

From Stdlib Require Import String Ascii ZArith List Bool Lia SpecFloat DecimalString.
From S2P Require Import Prelude.
Import ListNotations.

Local Open Scope Z_scope.

(** ** Binary64 *)

Definition prec : Z := 53.
Definition emax : Z := 1024.

Abbreviation float := spec_float.

Definition fadd (x y : float) : float := SFadd prec emax x y.
Definition fsub (x y : float) : float := SFsub prec emax x y.
Definition fmul (x y : float) : float := SFmul prec emax x y.
Definition fdiv (x y : float) : float := SFdiv prec emax x y.
Definition fltb (x y : float) : bool := SFltb x y.
Definition fleb (x y : float) : bool := SFleb x y.

(** The float nearest to the integer [z] (Python [float(z)]). *)
Definition float_of_Z (z : Z) : float := binary_normalize prec emax z 0 false.

(** [str(n)] for [n >= 0]. *)
Definition dec_string (n : Z) : string :=
  DecimalString.NilZero.string_of_uint (N.to_uint (Z.to_N n)).

(** [str(n)] of an [int], negative ones included. *)
Definition int_str (n : Z) : string :=
  if (n <? 0)%Z then "-" ++ dec_string (- n) else dec_string n.

(** The float nearest to [(-1)^neg * m * 10^e]: an integer is rounded
    directly, a fraction by the correctly rounded integer division of
    [SpecFloat].  Magnitudes beyond the binary64 range are decided
    without computing the power: [10^(nd+e-1) >= 10^309] overflows and
    [10^(nd+e) <= 10^-324] is below half the least subnormal. *)
Definition float_of_decimal (neg : bool) (m : Z) (e : Z) : float :=
  if m =? 0 then S754_zero neg
  else
    let nd := Z.of_nat (String.length (dec_string m)) in
    if 309 <=? nd + e - 1 then S754_infinity neg
    else if nd + e <=? -324 then S754_zero neg
    else if 0 <=? e then binary_round prec emax neg (Z.to_pos (m * 10 ^ e)) 0
    else
      let '(q, e', loc) := SFdiv_core_binary prec emax m 0 (10 ^ (- e)) 0 in
      binary_round_aux prec emax neg q e' loc.

(** ** Characters *)

Definition digit_of (c : ascii) : option Z :=
  let n := Z.of_nat (nat_of_ascii c) in
  if (48 <=? n) && (n <=? 57) then Some (n - 48) else None.

Definition is_digit (c : ascii) : bool :=
  match digit_of c with Some _ => true | None => false end.

(** [Py_ISSPACE] after [_PyUnicode_TransformDecimalAndSpaceToASCII]:
    the C whitespace 9..13 and 32, plus the non-ASCII white space
    U+0085 and U+00A0, which the transformation turns into spaces. *)
Definition py_space (c : ascii) : bool :=
  let n := nat_of_ascii c in
  ((9 <=? n)%nat && (n <=? 13)%nat) || (n =? 32)%nat || (n =? 133)%nat || (n =? 160)%nat.

Fixpoint lstrip (s : string) : string :=
  match s with
  | String c r => if py_space c then lstrip r else s
  | EmptyString => EmptyString
  end.

Definition strip (s : string) : string :=
  string_of_list_ascii (rev (list_ascii_of_string (lstrip
    (string_of_list_ascii (rev (list_ascii_of_string (lstrip s))))))).

(** ** [float(s)] *)

(** [_Py_string_to_number_with_underscores]: an underscore must sit
    between two digits; the underscores are then removed. *)
Fixpoint drop_underscores (prev : option ascii) (s : string) : option string :=
  match s with
  | EmptyString =>
      match prev with Some "_"%char => None | _ => Some EmptyString end
  | String c r =>
      if Ascii.eqb c "_" then
        match prev with
        | Some p => if is_digit p then drop_underscores (Some c) r else None
        | None => None
        end
      else
        match prev with
        | Some "_"%char =>
            if is_digit c then option_map (String c) (drop_underscores (Some c) r) else None
        | _ => option_map (String c) (drop_underscores (Some c) r)
        end
  end.

(** A run of digits, accumulated as an integer, with its length. *)
Fixpoint digit_run (acc : Z) (n : nat) (s : string) : Z * nat * string :=
  match s with
  | String c r =>
      match digit_of c with
      | Some d => digit_run (10 * acc + d) (S n) r
      | None => (acc, n, s)
      end
  | EmptyString => (acc, n, s)
  end.

(** The exponent part [e[+-]digits] of [_Py_dg_strtod]; a bare [e] is
    not consumed. *)
Definition exponent_part (s : string) : Z * string :=
  match s with
  | String c r =>
      if Ascii.eqb c "e" || Ascii.eqb c "E" then
        let '(neg, r') :=
          match r with
          | String "-"%char r' => (true, r')
          | String "+"%char r' => (false, r')
          | _ => (false, r)
          end in
        match digit_run 0 0 r' with
        | (_, O, _) => (0, s)
        | (v, _, rest) => (if neg then - v else v, rest)
        end
      else (0, s)
  | EmptyString => (0, s)
  end.

(** [_Py_dg_strtod] on an unsigned decimal: digits, an optional point
    and digits, at least one digit in all, then an optional exponent. *)
Definition unsigned_decimal (s : string) : option (Z * Z * string) :=
  let '(ip, ni, r1) := digit_run 0 0 s in
  let '(fp, nf, r2) :=
    match r1 with
    | String "."%char r => digit_run ip 0 r
    | _ => (ip, O, r1)
    end in
  if ((ni + nf)%nat =? 0)%nat then None
  else
    let '(e, r3) := exponent_part r2 in
    Some (fp, e - Z.of_nat nf, r3).

Definition special_value (neg : bool) (s : string) : option float :=
  let l := py_lower s in
  if String.eqb l "inf" || String.eqb l "infinity" then Some (S754_infinity neg)
  else if String.eqb l "nan" then Some S754_nan
  else None.

Definition float_from_string_inner (s : string) : option float :=
  let '(neg, body) :=
    match s with
    | String "-"%char r => (true, r)
    | String "+"%char r => (false, r)
    | _ => (false, s)
    end in
  match special_value neg body with
  | Some f => Some f
  | None =>
      match unsigned_decimal body with
      | Some (m, e, EmptyString) => Some (float_of_decimal neg m e)
      | _ => None
      end
  end.

Definition py_float_of_string (s : string) : option float :=
  match drop_underscores None s with
  | Some s' => float_from_string_inner (strip s')
  | None => None
  end.

(** ** [f"{x:.{d}f}"] *)

(** [n] (non-negative) printed with [d] decimals: zero-padded to at
    least [d + 1] digits, the point before the last [d]. *)
Definition fixed_digits (n : Z) (d : nat) : string :=
  let s := dec_string n in
  let padded := (String.concat "" (repeat "0" (S d - String.length s)) ++ s)%string in
  let k := (String.length padded - d)%nat in
  if (d =? 0)%nat then padded
  else (py_take k padded ++ "." ++ py_drop k padded)%string.

(** Round [num / 2^k] half to even. *)
Definition div_pow2_half_even (num : Z) (k : Z) : Z :=
  let q := Z.shiftr num k in
  let r := num - Z.shiftl q k in
  let half := Z.shiftl 1 (k - 1) in
  if r <? half then q
  else if half <? r then q + 1
  else if Z.even q then q else q + 1.

(** The exact value times [10^d], rounded half to even. *)
Definition scaled_round (m e : Z) (d : nat) : Z :=
  if 0 <=? e then m * 2 ^ e * 10 ^ Z.of_nat d
  else div_pow2_half_even (m * 10 ^ Z.of_nat d) (- e).

Definition sign_str (neg : bool) : string := if neg then "-" else "".

Definition max_precision : Z := 2147483647.

Definition format_fixed (d : Z) (x : float) : option string :=
  if (d <? 0) || (max_precision <? d) then None
  else Some
    match x with
    | S754_nan => "nan"%string
    | S754_infinity neg => (sign_str neg ++ "inf")%string
    | S754_zero neg => (sign_str neg ++ fixed_digits 0 (Z.to_nat d))%string
    | S754_finite neg m e =>
        (sign_str neg ++ fixed_digits (scaled_round (Z.pos m) e (Z.to_nat d)) (Z.to_nat d))%string
    end.

(** ** [repr(x)], which is also [str(x)]

    CPython's [float_repr] calls [PyOS_double_to_string(x, 'r', 0,
    Py_DTSF_ADD_DOT_0)]: [_Py_dg_dtoa] in mode 0 gives the shortest
    digit string that reads back as [x] (among the shortest, the
    nearest to [x]), and [format_float_short] lays it out, in exponent
    form when the decimal point position [decpt] is [<= -4] or [> 16].

    The shortest string is found by trying [p = 1, 2, ...] significant
    digits: any [p]-digit decimal that reads back as [x] lies in the
    rounding interval of [x], which contains [x], so one of the two
    [p]-digit decimals around [x] does too; both are tried.  Seventeen
    digits always identify a binary64 number, so the search succeeds
    within its 17 steps; the nearest 17-digit decimal is the fallback of
    the exhausted search. *)

Definition float_eqb (x y : float) : bool :=
  match x, y with
  | S754_zero a, S754_zero b => Bool.eqb a b
  | S754_infinity a, S754_infinity b => Bool.eqb a b
  | S754_nan, S754_nan => true
  | S754_finite a m e, S754_finite b n f => Bool.eqb a b && Pos.eqb m n && Z.eqb e f
  | _, _ => false
  end.

Definition ndigits (n : Z) : Z := Z.of_nat (String.length (dec_string n)).

(** [10^k <= num / den]. *)
Definition pow10_le (k num den : Z) : bool :=
  if 0 <=? k then den * 10 ^ k <=? num else den <=? num * 10 ^ (- k).

(** [floor (log10 (num / den))] for positive [num] and [den]: the
    difference of the digit counts, or one less. *)
Definition dec_exponent (num den : Z) : Z :=
  let k := ndigits num - ndigits den in
  if pow10_le k num den then k else k - 1.

(** [num / den * 10^s]: quotient, remainder and divisor. *)
Definition scale_div (num den s : Z) : Z * Z * Z :=
  let n' := if 0 <=? s then num * 10 ^ s else num in
  let d' := if 0 <=? s then den else den * 10 ^ (- s) in
  (n' / d', n' mod d', d').

(** The [p]-digit decimal [c * 10^(k-p+1)] that reads back as the
    positive float [m * 2^e] (of value [num / den] and decimal exponent
    [k]), the nearer of the two when both do, or [None]. *)
Definition repr_candidate (m e num den k p : Z) : option Z :=
  let '(q, r, d) := scale_div num den (p - 1 - k) in
  let ok c := float_eqb (float_of_decimal false c (k - p + 1)) (S754_finite false (Z.to_pos m) e) in
  let nearest := if 2 * r <? d then q else if d <? 2 * r then q + 1
                 else if Z.even q then q else q + 1 in
  if r =? 0 then (if ok q then Some q else None)
  else match ok q, ok (q + 1) with
       | true, true => Some nearest
       | true, false => Some q
       | false, true => Some (q + 1)
       | false, false => None
       end.

Fixpoint shortest_search (fuel : nat) (m e num den k p : Z) : Z * Z :=
  match fuel with
  | O =>
      let '(q, r, d) := scale_div num den (17 - 1 - k) in
      (if 2 * r <? d then q else if d <? 2 * r then q + 1
       else if Z.even q then q else q + 1, k - 17 + 1)
  | S fuel' =>
      match repr_candidate m e num den k p with
      | Some c => (c, k - p + 1)
      | None => shortest_search fuel' m e num den k (p + 1)
      end
  end.

(** Trailing zeros of the digit integer move into the exponent. *)
Fixpoint strip_zeros (fuel : nat) (c t : Z) : Z * Z :=
  match fuel with
  | O => (c, t)
  | S fuel' => if (c mod 10 =? 0) && (0 <? c) then strip_zeros fuel' (c / 10) (t + 1) else (c, t)
  end.

(** [_Py_dg_dtoa(x, 0, ...)] on a positive finite [m * 2^e]: the digit
    string and [decpt], the value being [0.digits * 10^decpt]. *)
Definition dtoa_shortest (m e : Z) : string * Z :=
  let '(num, den) := if 0 <=? e then (m * 2 ^ e, 1) else (m, 2 ^ (- e)) in
  let k := dec_exponent num den in
  let '(c, t) := shortest_search 17 m e num den k 1 in
  let '(c', t') := strip_zeros 18 c t in
  (dec_string c', ndigits c' + t').

Definition zeros (n : Z) : string := String.concat "" (repeat "0"%string (Z.to_nat n)).

(** [format_float_short] for the [repr] format. *)
Definition format_float_short (neg : bool) (ds : string) (decpt : Z) : string :=
  let n := Z.of_nat (String.length ds) in
  (sign_str neg ++
   if ((decpt <=? -4) || (16 <? decpt))%Z then
     let x := (decpt - 1)%Z in
     py_take 1 ds ++ (if (1 <? n)%Z then "." ++ py_drop 1 ds else "") ++ "e"
       ++ (if (x <? 0)%Z then "-" else "+") ++ (if (Z.abs x <? 10)%Z then "0" else "")
       ++ dec_string (Z.abs x)
   else if (decpt <=? 0)%Z then "0." ++ zeros (- decpt) ++ ds
   else if (decpt <? n)%Z then py_take (Z.to_nat decpt) ds ++ "." ++ py_drop (Z.to_nat decpt) ds
   else ds ++ zeros (decpt - n)%Z ++ ".0")%string.

Definition float_repr (x : float) : string :=
  match x with
  | S754_nan => "nan"
  | S754_infinity neg => sign_str neg ++ "inf"
  | S754_zero neg => sign_str neg ++ "0.0"
  | S754_finite neg m e => let '(ds, decpt) := dtoa_shortest (Z.pos m) e in format_float_short neg ds decpt
  end%string.
