(* ===== verification/Repr.v ===== *)
(** * Facts about [repr] of a float ([PyFloat.float_repr])

    CPython prints a float with [_Py_dg_dtoa] in its shortest mode;
    [PyFloat.dtoa_shortest] follows it in three steps: the decimal
    exponent [k = floor(log10 x)] from the digit counts of the
    numerator and denominator ([dec_exponent]), a search for the fewest
    significant digits that read back ([shortest_search], fuel 17), and
    the removal of trailing zeros ([strip_zeros], fuel 18).

    This file shows that the digit-count shortcut computes exactly
    [floor(log10 (num/den))], the largest [j] with [10^j <= num/den];
    that every digit integer the search proposes has between [p] and
    [p+1] digits, at most [10^17]; and therefore that the trailing-zero
    loop always stops because its condition fails, never because its
    fuel runs out: the digit string of [repr] has no trailing zero.
    The digit counts come from Stdlib's decimal conversion
    ([N.to_uint], [Pos.of_uint_acc]). *)

From Stdlib Require Import String ZArith List Bool Lia SpecFloat DecimalString DecimalPos DecimalN DecimalFacts.
From S2P Require Import Prelude PyFloat.

Local Open Scope Z_scope.

(** ** Digit counts *)

Lemma of_uint_acc_bounds d acc :
  Z.pos acc * 10 ^ Z.of_nat (Decimal.nb_digits d) <= Z.pos (Pos.of_uint_acc d acc) <
  (Z.pos acc + 1) * 10 ^ Z.of_nat (Decimal.nb_digits d).
Proof.
  revert acc; induction d; intros acc; cbn [Pos.of_uint_acc Decimal.nb_digits];
    [cbn; lia|..];
    match goal with |- context [Pos.of_uint_acc ?l ?a] => specialize (IHd a) end;
    rewrite Nat2Z.inj_succ, Z.pow_succ_r by lia;
    pose proof (Z.pow_pos_nonneg 10 (Z.of_nat (Decimal.nb_digits d)) ltac:(lia) ltac:(lia));
    nia.
Qed.

Lemma to_uint_head_nonzero p : forall l, Pos.to_uint p <> Decimal.D0 l.
Proof.
  intros l E.
  assert (Hn : N.to_uint (Npos p) = Decimal.unorm (Pos.to_uint p)).
  { rewrite <- (DecimalPos.Unsigned.of_to p) at 1. apply DecimalPos.Unsigned.to_of. }
  cbn in Hn. rewrite E in Hn. change (Decimal.unorm (Decimal.D0 l)) with (Decimal.unorm l) in Hn.
  assert (Hl : l <> Decimal.Nil)
    by (intros ->; apply (DecimalPos.Unsigned.to_uint_nonzero p); rewrite E; reflexivity).
  pose proof (nb_digits_unorm l Hl) as Hle.
  apply (f_equal Decimal.nb_digits) in Hn. cbn [Decimal.nb_digits] in Hn. lia.
Qed.

(** A positive number has [nb] digits: [10^(nb-1) <= p < 10^nb]. *)
Lemma pos_digits_bounds p :
  10 ^ (Z.of_nat (Decimal.nb_digits (Pos.to_uint p)) - 1) <= Z.pos p <
  10 ^ Z.of_nat (Decimal.nb_digits (Pos.to_uint p)).
Proof.
  pose proof (DecimalPos.Unsigned.of_to p) as Hof. pose proof (to_uint_head_nonzero p) as Hh.
  pose proof (DecimalPos.Unsigned.to_uint_nonnil p) as Hnn.
  destruct (Pos.to_uint p) as [|l|l|l|l|l|l|l|l|l|l]; [congruence|now destruct (Hh l)|..];
    cbn [Pos.of_uint] in Hof; injection Hof as <-;
    pose proof (of_uint_acc_bounds l) as Hb; cbn [Decimal.nb_digits];
    rewrite Nat2Z.inj_succ, Z.pow_succ_r, <- Z.add_1_r, Z.add_simpl_r by lia;
    match goal with |- context [Pos.of_uint_acc l ?a] => specialize (Hb a) end;
    pose proof (Z.pow_pos_nonneg 10 (Z.of_nat (Decimal.nb_digits l)) ltac:(lia) ltac:(lia)); nia.
Qed.

Lemma length_string_of_uint d : String.length (NilEmpty.string_of_uint d) = Decimal.nb_digits d.
Proof. induction d; cbn; auto. Qed.

Lemma ndigits_pos n : 0 < n -> ndigits n = Z.of_nat (Decimal.nb_digits (Pos.to_uint (Z.to_pos n))).
Proof.
  intros Hn. unfold ndigits, dec_string. destruct n as [|p|p]; try lia. cbn [Z.to_N N.to_uint Z.to_pos].
  pose proof (DecimalPos.Unsigned.to_uint_nonnil p) as Hnn.
  unfold NilZero.string_of_uint. destruct (Pos.to_uint p); [congruence|..]; cbn [String.length NilEmpty.string_of_uint];
    rewrite length_string_of_uint; reflexivity.
Qed.

Lemma ndigits_bounds n : 0 < n -> 1 <= ndigits n /\ 10 ^ (ndigits n - 1) <= n < 10 ^ ndigits n.
Proof.
  intros Hn. rewrite ndigits_pos by exact Hn. destruct n as [|p|p]; try lia. cbn [Z.to_pos].
  pose proof (pos_digits_bounds p) as Hb. split; [|exact Hb].
  destruct (Decimal.nb_digits (Pos.to_uint p)) eqn:E; [cbn in Hb; lia|lia].
Qed.

Lemma pow10_le_cross j num den :
  pow10_le j num den = true <-> den * 10 ^ Z.max j 0 <= num * 10 ^ Z.max (- j) 0.
Proof.
  unfold pow10_le. destruct (Z.leb_spec 0 j).
  - rewrite Z.max_l, Z.max_r, Z.pow_0_r, Z.mul_1_r by lia. apply Z.leb_le.
  - rewrite Z.max_r, Z.max_l, Z.pow_0_r, Z.mul_1_r by lia. apply Z.leb_le.
Qed.

Lemma pow10_le_mono j j' num den : 0 < num -> 0 < den -> j' <= j ->
  pow10_le j num den = true -> pow10_le j' num den = true.
Proof.
  rewrite !pow10_le_cross. intros Hn Hd Hj H.
  assert (10 ^ Z.max j' 0 <= 10 ^ Z.max j 0) by (apply Z.pow_le_mono_r; lia).
  assert (10 ^ Z.max (- j) 0 <= 10 ^ Z.max (- j') 0) by (apply Z.pow_le_mono_r; lia).
  nia.
Qed.

(** ** Comparisons with powers of ten *)

(** [10^(a-1) <= num < 10^a] and [10^(b-1) <= den < 10^b] put [num/den]
    between [10^(a-b-1)] and [10^(a-b+1)]. *)
Lemma pow10_le_window a b num den :
  1 <= a -> 1 <= b -> 10 ^ (a - 1) <= num < 10 ^ a -> 10 ^ (b - 1) <= den < 10 ^ b ->
  pow10_le (a - b - 1) num den = true /\ pow10_le (a - b + 1) num den = false.
Proof.
  intros Ha Hb [Hn1 Hn2] [Hd1 Hd2]. split.
  - apply pow10_le_cross.
    set (A := Z.max (a - b - 1) 0). set (B := Z.max (- (a - b - 1)) 0).
    assert (E : b + A = a - 1 + B) by lia.
    assert (10 ^ b * 10 ^ A = 10 ^ (a - 1) * 10 ^ B) by (rewrite <- !Z.pow_add_r, E by lia; reflexivity).
    assert (0 < 10 ^ A) by (apply Z.pow_pos_nonneg; lia). assert (0 < 10 ^ B) by (apply Z.pow_pos_nonneg; lia).
    nia.
  - apply Bool.not_true_iff_false. rewrite pow10_le_cross.
    set (A := Z.max (a - b + 1) 0). set (B := Z.max (- (a - b + 1)) 0).
    assert (E : b - 1 + A = a + B) by lia.
    assert (10 ^ (b - 1) * 10 ^ A = 10 ^ a * 10 ^ B) by (rewrite <- !Z.pow_add_r, E by lia; reflexivity).
    assert (0 < 10 ^ A) by (apply Z.pow_pos_nonneg; lia). assert (0 < 10 ^ B) by (apply Z.pow_pos_nonneg; lia).
    nia.
Qed.

(** Cross-multiplied comparisons of powers of ten are invariant under a
    common shift of the exponents. *)
Lemma cross_shift x y a b a' b' : 0 <= a -> 0 <= b -> 0 <= a' -> 0 <= b' -> a - b = a' - b' ->
  (x * 10 ^ a <= y * 10 ^ b <-> x * 10 ^ a' <= y * 10 ^ b').
Proof.
  intros Ha Hb Ha' Hb' E.
  assert (Hshift : forall u v t, 0 <= u -> 0 <= v -> 0 <= t ->
            (x * 10 ^ u <= y * 10 ^ v <-> x * 10 ^ (u + t) <= y * 10 ^ (v + t))).
  { intros u v t Hu Hv Ht. rewrite !Z.pow_add_r by lia.
    assert (0 < 10 ^ t) by (apply Z.pow_pos_nonneg; lia).
    rewrite !Z.mul_assoc. apply Z.mul_le_mono_pos_r. assumption. }
  destruct (Z.le_gt_cases a a').
  - replace a' with (a + (a' - a)) by lia. replace b' with (b + (a' - a)) by lia. apply Hshift; lia.
  - replace a with (a' + (a - a')) by lia. replace b with (b' + (a - a')) by lia.
    symmetry. apply Hshift; lia.
Qed.

(** ** The trailing-zero loop *)

Lemma strip_zeros_spec fuel c t : 0 < c -> c < 10 ^ Z.of_nat fuel ->
  let '(c', t') := strip_zeros fuel c t in
  0 < c' /\ c' mod 10 <> 0 /\ t <= t' /\ c = c' * 10 ^ (t' - t).
Proof.
  revert c t. induction fuel as [|fuel IH]; intros c t Hc Hlt; [cbn in Hlt; lia|].
  cbn [strip_zeros]. destruct (Z.eqb_spec (c mod 10) 0) as [H0|H0]; cbn [andb].
  - destruct (Z.ltb_spec 0 c); [|lia].
    assert (Hc10 : c = 10 * (c / 10)) by (pose proof (Z.div_mod c 10); lia).
    rewrite Nat2Z.inj_succ, Z.pow_succ_r in Hlt by lia.
    specialize (IH (c / 10) (t + 1) ltac:(lia) ltac:(lia)).
    destruct (strip_zeros fuel (c / 10) (t + 1)) as [c' t']. destruct IH as (? & ? & ? & Hq).
    repeat split; try lia. rewrite Hc10, Hq.
    replace (t' - t) with (Z.succ (t' - (t + 1))) by lia. rewrite Z.pow_succ_r by lia. ring.
  - repeat split; try lia. rewrite Z.sub_diag, Z.pow_0_r. ring.
Qed.


(** [dec_exponent] brackets [num/den] between consecutive powers of
    ten. *)
Lemma dec_exponent_spec num den : 0 < num -> 0 < den ->
  pow10_le (dec_exponent num den) num den = true /\
  pow10_le (dec_exponent num den + 1) num den = false.
Proof.
  intros Hn Hd.
  destruct (ndigits_bounds num Hn) as [Ha Hba]. destruct (ndigits_bounds den Hd) as [Hb Hbb].
  destruct (pow10_le_window _ _ num den Ha Hb Hba Hbb) as [Hlo Hhi].
  unfold dec_exponent. destruct (pow10_le (ndigits num - ndigits den) num den) eqn:Hk.
  - split; [exact Hk|replace (_ + 1) with (ndigits num - ndigits den + 1) by lia; exact Hhi].
  - split; [replace (_ - 1) with (ndigits num - ndigits den - 1) by lia; exact Hlo|].
    replace (_ - 1 + 1) with (ndigits num - ndigits den) by lia. exact Hk.
Qed.

(** ** The digit search *)

Lemma scale_div_bounds num den k p : 0 < num -> 0 < den -> 1 <= p ->
  pow10_le k num den = true -> pow10_le (k + 1) num den = false ->
  let '(q, r, d) := scale_div num den (p - 1 - k) in
  10 ^ (p - 1) <= q < 10 ^ p /\ 0 <= r < d /\ 0 < d.
Proof.
  intros Hn Hd Hp Hlo Hhi. set (s := p - 1 - k).
  set (N := num * 10 ^ Z.max s 0). set (D := den * 10 ^ Z.max (- s) 0).
  assert (HD : 0 < D) by (unfold D; pose proof (Z.pow_pos_nonneg 10 (Z.max (- s) 0)); nia).
  assert (Hsd : scale_div num den s = (N / D, N mod D, D)).
  { unfold scale_div, N, D. destruct (Z.leb_spec 0 s).
    - rewrite (Z.max_r (- s) 0), (Z.max_l s 0), Z.pow_0_r, Z.mul_1_r by lia. reflexivity.
    - rewrite (Z.max_l (- s) 0), (Z.max_r s 0), Z.pow_0_r, Z.mul_1_r by lia. reflexivity. }
  rewrite Hsd. apply pow10_le_cross in Hlo. rewrite <- Bool.not_true_iff_false, pow10_le_cross in Hhi.
  assert (Hl : 10 ^ (p - 1) * D <= N).
  { unfold N, D. rewrite Z.mul_comm, <- Z.mul_assoc, <- Z.pow_add_r by lia.
    apply (cross_shift den num (Z.max k 0) (Z.max (- k) 0)); lia. }
  assert (Hu : N < D * 10 ^ p).
  { unfold N, D. rewrite <- Z.mul_assoc, <- Z.pow_add_r by lia. apply Z.nle_gt. intros Hc.
    apply Hhi. apply (cross_shift den num _ _ (Z.max (- s) 0 + p) (Z.max s 0)); lia. }
  split; [split|split; [apply Z.mod_pos_bound; exact HD|exact HD]].
  - apply Z.div_le_lower_bound; lia.
  - apply Z.div_lt_upper_bound; lia.
Qed.

(** The rounding of the search picks [q] or [q + 1]. *)
Lemma nearest_bounds (q r d : Z) :
  let n := if 2 * r <? d then q else if d <? 2 * r then q + 1 else if Z.even q then q else q + 1 in
  q <= n <= q + 1.
Proof. cbv zeta. destruct (2 * r <? d), (d <? 2 * r), (Z.even q); lia. Qed.

Lemma repr_candidate_bounds m e num den k p c : 0 < num -> 0 < den -> 1 <= p ->
  pow10_le k num den = true -> pow10_le (k + 1) num den = false ->
  repr_candidate m e num den k p = Some c -> 10 ^ (p - 1) <= c <= 10 ^ p.
Proof.
  intros Hn Hd Hp Hlo Hhi. pose proof (scale_div_bounds num den k p Hn Hd Hp Hlo Hhi) as Hb.
  unfold repr_candidate. destruct (scale_div num den (p - 1 - k)) as [[q r] d]. cbv zeta.
  repeat match goal with
         | |- context [match ?b with true => _ | false => _ end] => destruct b
         end; intros H; (injection H as <- || discriminate H); lia.
Qed.

Lemma shortest_search_bounds fuel m e num den k p : 0 < num -> 0 < den -> 1 <= p ->
  p + Z.of_nat fuel <= 18 ->
  pow10_le k num den = true -> pow10_le (k + 1) num den = false ->
  1 <= fst (shortest_search fuel m e num den k p) <= 10 ^ 17.
Proof.
  intros Hn Hd. revert p. induction fuel as [|fuel IH]; intros p Hp Hf Hlo Hhi; cbn [shortest_search].
  - pose proof (scale_div_bounds num den k 17 Hn Hd ltac:(lia) Hlo Hhi) as Hb.
    destruct (scale_div num den (17 - 1 - k)) as [[q r] d].
    pose proof (nearest_bounds q r d) as Hnr. cbv zeta in Hnr. cbn [fst].
    assert (0 < 10 ^ (17 - 1)) by (apply Z.pow_pos_nonneg; lia). lia.
  - destruct (repr_candidate m e num den k p) as [c|] eqn:Hc.
    + apply (repr_candidate_bounds m e num den k p c Hn Hd Hp Hlo Hhi) in Hc. cbn [fst].
      assert (0 < 10 ^ (p - 1)) by (apply Z.pow_pos_nonneg; lia).
      assert (10 ^ p <= 10 ^ 17) by (apply Z.pow_le_mono_r; lia). lia.
    + apply IH; first [assumption | lia].
Qed.

(** The digit integer [dtoa_shortest] prints. *)
Lemma dtoa_shortest_digits (m : positive) (e : Z) :
  exists c', fst (dtoa_shortest (Z.pos m) e) = dec_string c' /\ 0 < c' <= 10 ^ 17 /\ c' mod 10 <> 0.
Proof.
  unfold dtoa_shortest.
  assert (Hnd : let '(num, den) := if 0 <=? e then (Z.pos m * 2 ^ e, 1) else (Z.pos m, 2 ^ (- e)) in
                0 < num /\ 0 < den).
  { destruct (Z.leb_spec 0 e); split; try lia; apply Z.mul_pos_pos || idtac;
      try apply Z.pow_pos_nonneg; lia. }
  destruct (if 0 <=? e then _ else _) as [num den]. destruct Hnd as [Hn Hd].
  destruct (dec_exponent_spec num den Hn Hd) as [Hlo Hhi].
  pose proof (shortest_search_bounds 17 (Z.pos m) e num den (dec_exponent num den) 1
                Hn Hd ltac:(lia) ltac:(lia) Hlo Hhi) as Hb.
  destruct (shortest_search 17 _ _ _ _ _ _) as [c t]. cbn [fst] in Hb.
  pose proof (strip_zeros_spec 18 c t ltac:(lia) ltac:(cbn; lia)) as Hs.
  destruct (strip_zeros 18 c t) as [c' t']. destruct Hs as (Hc' & Hm & Ht & Hc).
  exists c'. split; [reflexivity|]. split; [|exact Hm]. split; [exact Hc'|].
  assert (1 <= 10 ^ (t' - t)) by (pose proof (Z.pow_pos_nonneg 10 (t' - t)); lia). nia.
Qed.

(** ** Properties *)

(** The digit-count shortcut of [dtoa] is [floor(log10 (num/den))]:
    for positive [num] and [den], [10^j <= num/den] holds exactly for
    the [j] up to [dec_exponent num den], so it is the largest such
    [j]. *)
Theorem dec_exponent_floor_log10 num den : 0 < num -> 0 < den ->
  forall j, pow10_le j num den = true <-> j <= dec_exponent num den.
Proof.
  intros Hn Hd. destruct (dec_exponent_spec num den Hn Hd) as [H1 H2]. intros j. split.
  - intros Hj. destruct (Z.le_gt_cases j (dec_exponent num den)) as [|Hgt]; [assumption|].
    rewrite (pow10_le_mono j (dec_exponent num den + 1) num den Hn Hd ltac:(lia) Hj) in H2. discriminate.
  - intros Hj. exact (pow10_le_mono _ j num den Hn Hd Hj H1).
Qed.

Lemma dec_exponent_floor_log10_witness :
  0 < 5 /\ 0 < 1000 /\ (pow10_le (-3) 5 1000 = true <-> -3 <= dec_exponent 5 1000).
Proof.
  split; [lia|split; [lia|]]. exact (dec_exponent_floor_log10 5 1000 ltac:(lia) ltac:(lia) (-3)).
Defined.

(** The loops of [repr] end within their fuel: for every finite
    non-zero float, the search yields a digit integer between 1 and
    [10^17], and the trailing-zero loop stops on its condition, not on
    its fuel, so [repr] prints the decimal of a positive integer that
    does not end in 0. *)
Theorem float_repr_digits_terminate (neg : bool) (m : positive) (e : Z) :
  exists c' decpt, float_repr (S754_finite neg m e) = format_float_short neg (dec_string c') decpt /\
    0 < c' <= 10 ^ 17 /\ c' mod 10 <> 0.
Proof.
  destruct (dtoa_shortest_digits m e) as (c' & Hds & Hb).
  cbn [float_repr]. destruct (dtoa_shortest (Z.pos m) e) as [ds decpt]. cbn [fst] in Hds. subst ds.
  exists c', decpt. split; [reflexivity|exact Hb].
Qed.
