(* ===== verification/Models.v ===== *)
(** * The data model of [shared/models.py]

    Each [Enum] is an inductive type with the source's members, its
    [.value] as a function and [Enum(value)] as a partial inverse
    ([None] is the [ValueError]).  Each [@dataclass] is a record in a
    module of the same name, so that a field reads as in Python
    ([Asset.amount a] for [a.amount]); fields typed [Optional[...]] are
    [option], [float] fields are binary64 ([PyFloat]), and [Dict[str, Any]]
    / [List[Dict[str, Any]]] fields hold Python values [pyval]. *)

From Stdlib Require Import String Ascii ZArith List Bool Lia.
From S2P Require Import Prelude PyFloat.
Import ListNotations.

Local Open Scope string_scope.

(** ** Python values

    The [Any] of the dictionaries exchanged by the agents: JSON-like
    values, a [dict] being the list of its items in insertion order with
    distinct keys. *)
#[warnings="-register-all"]
Inductive pyval : Type :=
| PNone
| PBool (b : bool)
| PInt (z : Z)
| PFloat (f : float)
| PStr (s : string)
| PList (l : list pyval)
| PDict (d : list (string * pyval)).

Definition dict := list (string * pyval).

(** [d.get(k, default)] and [k in d]. *)
Fixpoint dict_get (d : dict) (k : string) : option pyval :=
  match d with
  | [] => None
  | (k', v) :: d' => if String.eqb k k' then Some v else dict_get d' k
  end.

Definition dict_get_default (d : dict) (k : string) (default : pyval) : pyval :=
  match dict_get d k with Some v => v | None => default end.

Definition dict_has (d : dict) (k : string) : bool :=
  match dict_get d k with Some _ => true | None => false end.

(** [d[k] = v]: an existing key keeps its place, a new one goes last. *)
Fixpoint dict_set (d : dict) (k : string) (v : pyval) : dict :=
  match d with
  | [] => [(k, v)]
  | (k', v') :: d' => if String.eqb k k' then (k, v) :: d' else (k', v') :: dict_set d' k v
  end.

(** [len(v)]: strings count code points, lists items, dicts keys; any
    other value raises [TypeError] ([None]). *)
Definition py_len (v : pyval) : option Z :=
  match v with
  | PStr s => Some (Z.of_nat (String.length s))
  | PList l => Some (Z.of_nat (length l))
  | PDict d => Some (Z.of_nat (length d))
  | _ => None
  end.

(** ** Enums *)

Inductive EscrowState : Type :=
| AWAITING_DEPOSIT
| AWAITING_FULFILLMENT
| DISPUTE_RAISED
| COMPLETED
| CANCELED.

Definition EscrowState_value (s : EscrowState) : Z :=
  match s with
  | AWAITING_DEPOSIT => 0
  | AWAITING_FULFILLMENT => 1
  | DISPUTE_RAISED => 2
  | COMPLETED => 3
  | CANCELED => 4
  end%Z.

Definition EscrowState_of_value (v : Z) : option EscrowState :=
  match v with
  | 0 => Some AWAITING_DEPOSIT
  | 1 => Some AWAITING_FULFILLMENT
  | 2 => Some DISPUTE_RAISED
  | 3 => Some COMPLETED
  | 4 => Some CANCELED
  | _ => None
  end%Z.

Definition EscrowState_eq_dec (s t : EscrowState) : {s = t} + {s <> t}.
Proof. decide equality. Defined.

Definition EscrowState_eqb (s t : EscrowState) : bool :=
  if EscrowState_eq_dec s t then true else false.

Inductive TradeType : Type := CRYPTO | FIAT_P2P | CROSS_CHAIN.

Definition TradeType_value (t : TradeType) : string :=
  match t with
  | CRYPTO => "crypto"
  | FIAT_P2P => "fiat_p2p"
  | CROSS_CHAIN => "cross_chain"
  end.

Definition TradeType_of_value (v : string) : option TradeType :=
  if String.eqb v "crypto" then Some CRYPTO
  else if String.eqb v "fiat_p2p" then Some FIAT_P2P
  else if String.eqb v "cross_chain" then Some CROSS_CHAIN
  else None.

Inductive AssetType : Type := ETH | ERC20 | ERC721 | ERC1155 | BTC | FIAT.

Definition AssetType_value (a : AssetType) : string :=
  match a with
  | ETH => "ETH" | ERC20 => "ERC20" | ERC721 => "ERC721"
  | ERC1155 => "ERC1155" | BTC => "BTC" | FIAT => "FIAT"
  end.

Inductive ChainType : Type := ETHEREUM | BASE | CELO | OPTIMISM | BSC | BITCOIN.

Definition ChainType_value (c : ChainType) : string :=
  match c with
  | ETHEREUM => "ethereum" | BASE => "base" | CELO => "celo"
  | OPTIMISM => "optimism" | BSC => "bsc" | BITCOIN => "bitcoin"
  end.

Inductive UserRole : Type := BUYER | SELLER | ARBITER | ORACLE | VIEWER.

Definition UserRole_value (r : UserRole) : string :=
  match r with
  | BUYER => "Buyer" | SELLER => "Seller" | ARBITER => "Arbiter"
  | ORACLE => "Oracle" | VIEWER => "Viewer"
  end.

(** ** Dataclasses *)

Module Asset.
Record Asset : Type := mk {
  type_ : AssetType;
  address : option string;
  amount : string;
  chain : ChainType;
  symbol : option string;
  decimals : Z;
  name : option string
}.
(** [Asset(type)] with the declared defaults. *)
Definition default (t : AssetType) : Asset :=
  mk t None "0" ETHEREUM None 18%Z None.
End Asset.

Module EscrowTerms.
Record EscrowTerms : Type := mk {
  description : string;
  deadline : Z;
  auto_release_hours : option Z;
  dispute_window_hours : Z;
  arbiter_fee_percentage : float;
  platform_fee_percentage : float
}.
Definition default (description : string) (deadline : Z) : EscrowTerms :=
  mk description deadline None 24%Z (float_of_decimal false 10 (-1)) (float_of_decimal false 5 (-1)).
End EscrowTerms.

Module DisputeEvidence.
Record DisputeEvidence : Type := mk {
  type_ : string;
  description : string;
  data : string;
  timestamp : Z;
  submitted_by : string
}.
End DisputeEvidence.

Module EscrowData.
Record EscrowData : Type := mk {
  escrow_id : string;
  contract_address : option string;
  status : EscrowState;
  trade_type : TradeType;
  buyer_address : string;
  seller_address : string;
  arbiter_address : string;
  creator_agent : string;
  asset_a : option Asset.Asset;
  asset_b : option Asset.Asset;
  terms : option EscrowTerms.EscrowTerms;
  created_at : Z;
  updated_at : Z;
  deposit_tx_hash : option string;
  fulfillment_tx_hash : option string;
  release_tx_hash : option string;
  refund_tx_hash : option string;
  dispute_id : option string;
  dispute_reason : option string;
  dispute_evidence : list pyval;
  frontend_callback_url : option string;
  frontend_session_id : option string;
  metadata : dict
}.
(** [EscrowData(escrow_id)] after [__post_init__]: every field at its
    default, the evidence list and the metadata empty. *)
Definition default (escrow_id : string) : EscrowData :=
  mk escrow_id None AWAITING_DEPOSIT CRYPTO "" "" "" "" None None None 0%Z 0%Z
     None None None None None None [] None None [].
End EscrowData.

Module DisputeRecord.
Record DisputeRecord : Type := mk {
  dispute_id : string;
  escrow_id : string;
  disputing_party : string;
  reason : string;
  evidence : list DisputeEvidence.DisputeEvidence;
  status : string;
  arbiter_address : string;
  created_at : Z;
  resolved_at : option Z;
  decision : option string;
  arbiter_reasoning : option string
}.
End DisputeRecord.

Module AgentMessage.
Record AgentMessage : Type := mk {
  timestamp : string;
  msg_id : string;
  content : list dict;
  sender : option string;
  recipient : option string
}.
End AgentMessage.

Module CreateEscrowRequest.
Record CreateEscrowRequest : Type := mk {
  escrow_id : string;
  trade_type : TradeType;
  buyer_address : string;
  seller_address : string;
  arbiter_address : string;
  asset_a : Asset.Asset;
  asset_b : Asset.Asset;
  terms : EscrowTerms.EscrowTerms;
  frontend_callback_url : option string
}.
End CreateEscrowRequest.

Module DepositRequest.
Record DepositRequest : Type := mk {
  escrow_id : string;
  asset : Asset.Asset;
  transaction_hash : option string;
  confirmation_blocks : Z
}.
End DepositRequest.

Module DisputeRequest.
Record DisputeRequest : Type := mk {
  escrow_id : string;
  dispute_reason : string;
  evidence : list DisputeEvidence.DisputeEvidence;
  requesting_party : string
}.
End DisputeRequest.

Module OracleVerificationResponse.
Record OracleVerificationResponse : Type := mk {
  verified : bool;
  escrow_id : string;
  actual_amount : option string;
  block_number : option Z;
  confidence_score : option float;
  error_message : option string
}.
End OracleVerificationResponse.

(** ** The other dataclasses

    Records of the classes no modelled operation builds; a
    [__post_init__] that replaces a [None] default by an empty dict is
    the [make] of its module. *)

Module AgentCapabilities.
Record AgentCapabilities : Type := mk {
  agent_address : string;
  agent_type : string;
  supported_chains : list ChainType;
  supported_assets : list AssetType;
  supported_escrow_types : list TradeType;
  max_escrow_value : option string;
  fee_structure : list (string * float);
  is_active : bool;
  last_heartbeat : Z
}.
Definition make (agent_address agent_type : string) (chains : list ChainType) (assets : list AssetType)
  (types : list TradeType) (max_escrow_value : option string)
  (fee_structure : option (list (string * float))) (is_active : bool) (last_heartbeat : Z) : AgentCapabilities :=
  mk agent_address agent_type chains assets types max_escrow_value
     (match fee_structure with Some f => f | None => [] end) is_active last_heartbeat.
End AgentCapabilities.

Module EscrowMetrics.
Record EscrowMetrics : Type := mk {
  total_escrows : Z;
  active_escrows : Z;
  completed_escrows : Z;
  disputed_escrows : Z;
  total_volume : string;
  success_rate : float;
  average_settlement_time_hours : float
}.
Definition default : EscrowMetrics := mk 0 0 0 0 "0" (float_of_Z 0) (float_of_Z 0).
End EscrowMetrics.

Module FrontendSession.
Record FrontendSession : Type := mk {
  session_id : string;
  user_address : string;
  role : UserRole;
  escrow_id : option string;
  created_at : Z;
  last_activity : Z;
  metadata : dict
}.
Definition make (session_id user_address : string) (role : UserRole) (escrow_id : option string)
  (created_at last_activity : Z) (metadata : option dict) : FrontendSession :=
  mk session_id user_address role escrow_id created_at last_activity
     (match metadata with Some m => m | None => [] end).
End FrontendSession.

Module CreateEscrowResponse.
Record CreateEscrowResponse : Type := mk {
  success : bool; escrow_id : string; contract_address : option string; error_message : option string
}.
End CreateEscrowResponse.

Module DepositConfirmation.
Record DepositConfirmation : Type := mk {
  success : bool; escrow_id : string; transaction_hash : option string;
  block_number : option Z; error_message : option string
}.
End DepositConfirmation.

Module FulfillmentRequest.
Record FulfillmentRequest : Type := mk {
  escrow_id : string; fulfillment_type : string; transaction_hash : option string;
  fiat_payment_proof : option string; cross_chain_proof : option string
}.
End FulfillmentRequest.

Module FulfillmentConfirmation.
Record FulfillmentConfirmation : Type := mk {
  success : bool; escrow_id : string; verification_data : option dict; error_message : option string
}.
End FulfillmentConfirmation.

Module ReleaseRequest.
Record ReleaseRequest : Type := mk { escrow_id : string; reason : string; arbiter_signature : option string }.
End ReleaseRequest.

Module RefundRequest.
Record RefundRequest : Type := mk { escrow_id : string; reason : string; arbiter_signature : option string }.
End RefundRequest.

Module ReleaseConfirmation.
Record ReleaseConfirmation : Type := mk {
  success : bool; escrow_id : string; transaction_hash : option string; error_message : option string
}.
End ReleaseConfirmation.

Module DisputeResponse.
Record DisputeResponse : Type := mk {
  success : bool; escrow_id : string; dispute_id : string; arbiter_assigned : string;
  status : string; error_message : option string
}.
End DisputeResponse.

Module ArbiterDecision.
Record ArbiterDecision : Type := mk {
  escrow_id : string; dispute_id : string; decision : string; reasoning : string;
  evidence_required : option (list string)
}.
End ArbiterDecision.

Module OracleVerificationRequest.
Record OracleVerificationRequest : Type := mk {
  escrow_id : string; transaction_hash : string; expected_amount : string;
  expected_token : string; chain_id : Z
}.
End OracleVerificationRequest.

Module FrontendNotification.
Record FrontendNotification : Type := mk {
  escrow_id : string; status : string; message : string; action_required : option string;
  frontend_callback_url : string
}.
End FrontendNotification.

Module FrontendCallback.
Record FrontendCallback : Type := mk {
  action : string; escrow_id : string; user_data : dict; frontend_session_id : string
}.
End FrontendCallback.

Module EscrowStatusUpdate.
Record EscrowStatusUpdate : Type := mk {
  escrow_id : string; new_status : EscrowState; previous_status : EscrowState;
  update_reason : string; metadata : dict
}.
Definition make (escrow_id : string) (new_status previous_status : EscrowState) (update_reason : string)
  (metadata : option dict) : EscrowStatusUpdate :=
  mk escrow_id new_status previous_status update_reason (match metadata with Some m => m | None => [] end).
End EscrowStatusUpdate.

(** [type(v).__name__]. *)
Definition type_name (v : pyval) : string :=
  match v with
  | PNone => "NoneType" | PBool _ => "bool" | PInt _ => "int" | PFloat _ => "float"
  | PStr _ => "str" | PList _ => "list" | PDict _ => "dict"
  end.

(** ** Dictionary lemmas *)

Lemma dict_get_set_eq d k v : dict_get (dict_set d k v) k = Some v.
Proof.
  induction d as [|[k' v'] d IH]; simpl; [now rewrite String.eqb_refl|].
  destruct (String.eqb_spec k k'); simpl; [now rewrite String.eqb_refl|].
  destruct (String.eqb_spec k k'); [contradiction|exact IH].
Qed.

Lemma dict_get_set_ne d k k2 v : k2 <> k -> dict_get (dict_set d k v) k2 = dict_get d k2.
Proof.
  intros Hne. induction d as [|[k' v'] d IH]; simpl.
  - now destruct (String.eqb_spec k2 k).
  - destruct (String.eqb_spec k k'); simpl.
    + subst k'. destruct (String.eqb_spec k2 k); [contradiction|reflexivity].
    + destruct (String.eqb_spec k2 k'); [reflexivity|exact IH].
Qed.

Lemma length_dict_set_in d k v : dict_has d k = true -> length (dict_set d k v) = length d.
Proof.
  unfold dict_has. induction d as [|[k' v'] d IH]; simpl; [discriminate|].
  destruct (String.eqb_spec k k'); simpl; [reflexivity|]. intros H; f_equal; auto.
Qed.

Create Rewrite HintDb dictrw.
#[export] Hint Rewrite dict_get_set_eq : dictrw.
#[export] Hint Rewrite dict_get_set_ne using discriminate : dictrw.

(** ** Enum encodings *)

(** The stored [.value] of an escrow state decodes back to it, and
    only the five values 0..4 decode. *)
Lemma EscrowState_value_roundtrip s : EscrowState_of_value (EscrowState_value s) = Some s.
Proof. destruct s; reflexivity. Qed.

Lemma EscrowState_of_value_inv v s :
  EscrowState_of_value v = Some s -> EscrowState_value s = v.
Proof.
  unfold EscrowState_of_value.
  destruct v as [|p|p]; try discriminate; [now intros [= <-]|].
  repeat (destruct p as [p|p|]; try discriminate); now intros [= <-].
Qed.

Lemma TradeType_value_roundtrip t : TradeType_of_value (TradeType_value t) = Some t.
Proof. destruct t; reflexivity. Qed.

Lemma EscrowState_eqb_spec s t : EscrowState_eqb s t = true <-> s = t.
Proof. unfold EscrowState_eqb. destruct (EscrowState_eq_dec s t); split; congruence. Qed.
