(* ===== verification/Validation.v ===== *)
(** * Validation and deadline arithmetic of [shared/utils.py]

    - [PyLong]: CPython's [int(s, 16)] on a [str] ([PyLong_FromUnicodeObject]
      and [PyLong_FromString] with base 16), the parser behind the
      address and hash checks.
    - [validate_address], [validate_transaction_hash]: the [0x] prefix,
      the length and [int(s[2:], 16)].
    - [validate_escrow_data]: the ordered list of error messages.
    - [format_address], [calculate_time_remaining],
      [format_time_remaining].
    The clock [int(time.time())] is the argument [now]. *)

From Stdlib Require Import String Ascii ZArith List Bool Lia.
From S2P Require Import Prelude PyFloat Models.
Import ListNotations.

Local Open Scope string_scope.

Module PyLong.

(** [_PyLong_DigitValue]: digits 0-9, letters a-z / A-Z as 10..35,
    every other character 37 (no digit in any base). *)
Definition digit_value (c : ascii) : Z :=
  let n := Z.of_nat (nat_of_ascii c) in
  if (48 <=? n)%Z && (n <=? 57)%Z then n - 48
  else if (97 <=? n)%Z && (n <=? 122)%Z then n - 87
  else if (65 <=? n)%Z && (n <=? 90)%Z then n - 55
  else 37.

Definition hex_digit (c : ascii) : option Z :=
  let v := digit_value c in if (v <? 16)%Z then Some v else None.

(** The scanning loop of [long_from_string_base]: digits and single
    underscores, no underscore twice in a row nor at the end of the
    run; the run stops at the first other character. *)
Fixpoint hex_run (prev_us : bool) (acc : Z) (s : string) : option (Z * string) :=
  match s with
  | String c r =>
      if Ascii.eqb c "_" then
        if prev_us then None else hex_run true acc r
      else
        match hex_digit c with
        | Some d => hex_run false (16 * acc + d) r
        | None => if prev_us then None else Some (acc, s)
        end
  | EmptyString => if prev_us then None else Some (acc, EmptyString)
  end.

Fixpoint all_space (s : string) : bool :=
  match s with
  | String c r => py_space c && all_space r
  | EmptyString => true
  end.

Definition strip_sign (s : string) : bool * string :=
  match s with
  | String "+"%char r => (false, r)
  | String "-"%char r => (true, r)
  | _ => (false, s)
  end.

(** The optional [0x]/[0X] prefix of base 16, and one underscore
    after it. *)
Definition strip_hex_prefix (s : string) : string :=
  match s with
  | String "0"%char (String x r) =>
      if Ascii.eqb x "x" || Ascii.eqb x "X" then
        match r with
        | String "_"%char r' => r'
        | _ => r
        end
      else s
  | _ => s
  end.

(** [long_from_string_base] and the trailing check: a run that starts
    with a digit, then white space only. *)
Definition digits_part (neg : bool) (s3 : string) : option Z :=
  match s3 with
  | String c _ =>
      match hex_digit c with
      | Some _ =>
          match hex_run false 0 s3 with
          | Some (v, rest) => if all_space rest then Some (if neg then - v else v)%Z else None
          | None => None
          end
      | None => None
      end
  | EmptyString => None
  end.

(** [int(s, 16)]: leading white space, a sign, the prefix, then the
    digits.  [None] is the [ValueError]. *)
Definition int_base16 (s : string) : option Z :=
  let '(neg, s2) := strip_sign (lstrip s) in
  digits_part neg (strip_hex_prefix s2).

End PyLong.

(** ** Address and hash checks *)

(** [validate_address]: [not address] rejects the empty string; the
    [isinstance] guard is the type of the argument. *)
Definition validate_address (address : string) : bool :=
  if String.eqb address "" then false
  else if prefix "0x" address && (String.length address =? 42)%nat then
    match PyLong.int_base16 (py_slice_from 2 address) with
    | Some _ => true
    | None => false
    end
  else false.

Definition validate_transaction_hash (tx_hash : string) : bool :=
  if String.eqb tx_hash "" then false
  else if prefix "0x" tx_hash && (String.length tx_hash =? 66)%nat then
    match PyLong.int_base16 (py_slice_from 2 tx_hash) with
    | Some _ => true
    | None => false
    end
  else false.

(** ** [validate_escrow_data] *)

(** [errors.append(m)] *)
Definition push (errs : list string) (m : string) : list string := (errs ++ [m])%list.

Definition validate_escrow_data (e : EscrowData.EscrowData) (now : Z) : list string :=
  let errs : list string := [] in
  let errs := if negb (validate_address (EscrowData.buyer_address e))
              then push errs "Invalid buyer address" else errs in
  let errs := if negb (validate_address (EscrowData.seller_address e))
              then push errs "Invalid seller address" else errs in
  let errs := if negb (validate_address (EscrowData.arbiter_address e))
              then push errs "Invalid arbiter address" else errs in
  let errs := if String.eqb (EscrowData.escrow_id e) ""
                 || (String.length (EscrowData.escrow_id e) <? 10)%nat
              then push errs "Invalid escrow ID" else errs in
  let errs := match EscrowData.asset_a e with
              | None => push errs "Asset A is required"
              | Some a => if String.eqb (Asset.amount a) "" then push errs "Asset A is required" else errs
              end in
  let errs := match EscrowData.asset_b e with
              | None => push errs "Asset B is required"
              | Some a => if String.eqb (Asset.amount a) "" then push errs "Asset B is required" else errs
              end in
  let errs := match EscrowData.terms e with
              | None => push errs "Escrow description is required"
              | Some t => if String.eqb (EscrowTerms.description t) ""
                          then push errs "Escrow description is required" else errs
              end in
  let errs := match EscrowData.terms e with
              | Some t => if (EscrowTerms.deadline t <=? now)%Z
                          then push errs "Deadline must be in the future" else errs
              | None => errs
              end in
  errs.

(** ** Display helpers *)

(** [format_address(address, length)]. *)
Definition format_address (address : string) (length : Z) : string :=
  if String.eqb address "" || (Z.of_nat (String.length address) <? length * 2 + 2)%Z
  then address
  else py_slice_to length address ++ "..." ++ py_slice_from (- length) address.

Record TimeRemaining : Type := mkTimeRemaining {
  total_seconds : Z;
  days : Z;
  hours : Z;
  minutes : Z;
  seconds : Z;
  expired : bool
}.

Definition calculate_time_remaining (deadline now : Z) : TimeRemaining :=
  let remaining := (deadline - now)%Z in
  if (remaining <=? 0)%Z then mkTimeRemaining 0 0 0 0 0 true
  else mkTimeRemaining remaining
         (remaining / (24 * 60 * 60))
         ((remaining mod (24 * 60 * 60)) / (60 * 60))
         ((remaining mod (60 * 60)) / 60)
         (remaining mod 60)
         false.

Definition format_time_remaining (deadline now : Z) : string :=
  let t := calculate_time_remaining deadline now in
  if expired t then "Expired"
  else
    let parts : list string := [] in
    let parts := if (0 <? days t)%Z then push parts (dec_string (days t) ++ "d") else parts in
    let parts := if (0 <? hours t)%Z then push parts (dec_string (hours t) ++ "h") else parts in
    let parts := if (0 <? minutes t)%Z then push parts (dec_string (minutes t) ++ "m") else parts in
    let parts := if (0 <? seconds t)%Z then push parts (dec_string (seconds t) ++ "s") else parts in
    match parts with
    | [] => "0s"
    | _ => py_join " " parts
    end.

(** ** The validators' contract

    The specification's reading of an address: the literal [0x] and
    exactly [n] hexadecimal digits. *)

Definition is_hex_char (c : ascii) : bool :=
  match PyLong.hex_digit c with Some _ => true | None => false end.

Fixpoint all_hex (s : string) : bool :=
  match s with
  | String c r => is_hex_char c && all_hex r
  | EmptyString => true
  end.

(** The value of a run of hex digits, most significant first. *)
Fixpoint hex_value_acc (acc : Z) (s : string) : Z :=
  match s with
  | String c r =>
      match PyLong.hex_digit c with
      | Some d => hex_value_acc (16 * acc + d) r
      | None => acc
      end
  | EmptyString => acc
  end.

Definition strict_prefixed_hex (n : nat) (s : string) : bool :=
  prefix "0x" s && (String.length s =? n + 2)%nat && all_hex (py_drop 2 s).

(** The shape shared by the two checks: [0x], the length, then
    [int(s[2:], 16)]. *)
Definition prefixed_int16 (n : nat) (s : string) : bool :=
  if String.eqb s "" then false
  else if prefix "0x" s && (String.length s =? n + 2)%nat then
    match PyLong.int_base16 (py_slice_from 2 s) with Some _ => true | None => false end
  else false.

(** The characters [int(s, 16)] can consume: digits, underscores, one
    sign, the [x] of a prefix and white space. *)
Definition int16_char (c : ascii) : bool :=
  is_hex_char c || py_space c || Ascii.eqb c "_" || Ascii.eqb c "+" || Ascii.eqb c "-"
  || Ascii.eqb c "x" || Ascii.eqb c "X".

Fixpoint all_int16 (s : string) : bool :=
  match s with
  | String c r => int16_char c && all_int16 r
  | EmptyString => true
  end.

(** The record fields the checks require, as the specification states
    them: three valid addresses, an id of at least ten characters, two
    assets with an amount, and terms with a description and a deadline
    in the future. *)
Definition escrow_fields_valid (e : EscrowData.EscrowData) (now : Z) : Prop :=
  validate_address (EscrowData.buyer_address e) = true /\
  validate_address (EscrowData.seller_address e) = true /\
  validate_address (EscrowData.arbiter_address e) = true /\
  (10 <= String.length (EscrowData.escrow_id e))%nat /\
  (exists a, EscrowData.asset_a e = Some a /\ Asset.amount a <> "") /\
  (exists b, EscrowData.asset_b e = Some b /\ Asset.amount b <> "") /\
  (exists t, EscrowData.terms e = Some t /\ EscrowTerms.description t <> "" /\
             (now < EscrowTerms.deadline t)%Z).

(** ** Lemmas on the parser *)

Lemma hex_char_not_space c : is_hex_char c = true -> py_space c = false.
Proof.
  unfold is_hex_char, PyLong.hex_digit, PyLong.digit_value, py_space.
  destruct c as [[] [] [] [] [] [] [] []]; vm_compute; congruence.
Qed.

Lemma hex_char_not_underscore c : is_hex_char c = true -> Ascii.eqb c "_" = false.
Proof. destruct c as [[] [] [] [] [] [] [] []]; vm_compute; congruence. Qed.

Lemma hex_char_not_x c : is_hex_char c = true -> (Ascii.eqb c "x" || Ascii.eqb c "X") = false.
Proof. destruct c as [[] [] [] [] [] [] [] []]; vm_compute; congruence. Qed.

Lemma hex_char_not_sign c : is_hex_char c = true -> c <> "+"%char /\ c <> "-"%char.
Proof. destruct c as [[] [] [] [] [] [] [] []]; vm_compute; split; congruence. Qed.

Lemma is_hex_char_digit c : is_hex_char c = true -> exists d, PyLong.hex_digit c = Some d.
Proof. unfold is_hex_char. destruct (PyLong.hex_digit c); eauto; discriminate. Qed.

(** A run of hex digits is consumed whole, with its value. *)
Lemma hex_run_all_hex s acc :
  all_hex s = true -> PyLong.hex_run false acc s = Some (hex_value_acc acc s, EmptyString).
Proof.
  revert acc; induction s as [|c s IH]; intros acc; simpl; [reflexivity|].
  intros [Hc Hs]%andb_prop.
  rewrite (hex_char_not_underscore c Hc).
  destruct (is_hex_char_digit c Hc) as [d ->]. now apply IH.
Qed.

Lemma lstrip_hex c s : is_hex_char c = true -> lstrip (String c s) = String c s.
Proof. intros H; simpl; now rewrite (hex_char_not_space c H). Qed.

Lemma strip_sign_hex c s : is_hex_char c = true -> PyLong.strip_sign (String c s) = (false, String c s).
Proof.
  intros H; destruct (hex_char_not_sign c H) as [Hp Hm].
  destruct c as [[] [] [] [] [] [] [] []]; simpl; congruence.
Qed.

Lemma strip_hex_prefix_hex c c' s :
  is_hex_char c' = true -> PyLong.strip_hex_prefix (String c (String c' s)) = String c (String c' s).
Proof.
  intros H. unfold PyLong.strip_hex_prefix. rewrite (hex_char_not_x c' H).
  destruct c as [[] [] [] [] [] [] [] []]; reflexivity.
Qed.

Lemma strip_hex_prefix_one c : PyLong.strip_hex_prefix (String c EmptyString) = String c EmptyString.
Proof. destruct c as [[] [] [] [] [] [] [] []]; reflexivity. Qed.

Lemma strip_hex_prefix_all_hex s : all_hex s = true -> PyLong.strip_hex_prefix s = s.
Proof.
  destruct s as [|c [|c' s]]; [reflexivity|now rewrite strip_hex_prefix_one|].
  intros Hs. simpl in Hs. apply andb_prop in Hs as [_ Hs]. apply andb_prop in Hs as [Hc' _].
  now rewrite strip_hex_prefix_hex.
Qed.

Lemma digits_part_all_hex neg s :
  s <> EmptyString -> all_hex s = true ->
  PyLong.digits_part neg s = Some (if neg then - hex_value_acc 0 s else hex_value_acc 0 s)%Z.
Proof.
  destruct s as [|c r]; [congruence|]. intros _ Hall.
  pose proof Hall as Hc. simpl in Hc. apply andb_prop in Hc as [Hc _].
  unfold PyLong.digits_part.
  destruct (is_hex_char_digit c Hc) as [d ->].
  now rewrite (hex_run_all_hex (String c r) 0 Hall).
Qed.

(** [int(h, 16)] of a non-empty run of hex digits is its value. *)
Lemma int_base16_all_hex s :
  s <> EmptyString -> all_hex s = true -> PyLong.int_base16 s = Some (hex_value_acc 0 s).
Proof.
  intros Hne Hall. destruct s as [|c r]; [congruence|].
  pose proof Hall as Hc. simpl in Hc. apply andb_prop in Hc as [Hc _].
  unfold PyLong.int_base16. rewrite (lstrip_hex c r Hc), (strip_sign_hex c r Hc).
  rewrite strip_hex_prefix_all_hex by exact Hall.
  now apply (digits_part_all_hex false).
Qed.

Lemma py_slice_from_2 s : (2 <= String.length s)%nat -> py_slice_from 2 s = py_drop 2 s.
Proof.
  intros H. destruct s as [|a [|b s]]; simpl in *; [lia | lia | reflexivity].
Qed.

Lemma prefix_0x_split s : prefix "0x" s = true -> s = ("0x" ++ py_drop 2 s)%string.
Proof.
  intros (b & ->)%prefix_split. reflexivity.
Qed.

Lemma validate_address_prefixed s : validate_address s = prefixed_int16 40 s.
Proof. reflexivity. Qed.

Lemma validate_transaction_hash_prefixed s : validate_transaction_hash s = prefixed_int16 64 s.
Proof. reflexivity. Qed.

Lemma prefixed_int16_strict n s :
  strict_prefixed_hex (S n) s = true -> prefixed_int16 (S n) s = true.
Proof.
  unfold strict_prefixed_hex, prefixed_int16.
  intros H; split_andb. rewrite H, H1. simpl andb.
  apply Nat.eqb_eq in H1.
  destruct (String.eqb_spec s "") as [->|_]; [discriminate|].
  rewrite py_slice_from_2 by lia.
  rewrite int_base16_all_hex; auto.
  intros Hnil. apply (f_equal String.length) in Hnil.
  rewrite length_py_drop in Hnil. simpl in Hnil. lia.
Qed.

Lemma py_slice_from_0x t : py_slice_from 2 ("0x" ++ t) = t.
Proof. apply (py_drop_append_length "0x"). Qed.

(** On a string that starts with [0x], the checks are the length test
    and [int] of the rest. *)
Lemma prefixed_int16_0x n t :
  prefixed_int16 n ("0x" ++ t) =
  (String.length t =? n)%nat && match PyLong.int_base16 t with Some _ => true | None => false end.
Proof.
  unfold prefixed_int16. rewrite py_slice_from_0x.
  change (String.eqb ("0x" ++ t) "") with false.
  rewrite prefix_append. cbn [andb String.length append].
  rewrite Nat.add_comm. simpl Nat.eqb.
  destruct (String.length t =? n)%nat; reflexivity.
Qed.

Lemma all_int16_app s t : all_int16 (s ++ t) = all_int16 s && all_int16 t.
Proof. induction s; simpl; [reflexivity|]. rewrite IHs. apply andb_assoc. Qed.

Lemma all_space_int16 s : PyLong.all_space s = true -> all_int16 s = true.
Proof.
  induction s as [|c s IH]; simpl; auto.
  intros [Hc Hs]%andb_prop. rewrite IH by exact Hs.
  unfold int16_char. now rewrite Hc, orb_true_r.
Qed.

Lemma lstrip_split s : exists w, s = (w ++ lstrip s)%string /\ PyLong.all_space w = true.
Proof.
  induction s as [|c s (w & Hw & Hs)]; simpl; [now exists ""%string|].
  destruct (py_space c) eqn:Hc.
  - exists (String c w). simpl. rewrite Hc, Hs. split; [congruence|reflexivity].
  - now exists ""%string.
Qed.

Lemma strip_sign_split s :
  all_int16 (snd (PyLong.strip_sign s)) = true -> all_int16 s = true.
Proof.
  destruct s as [|c r]; [auto|].
  unfold PyLong.strip_sign.
  destruct c as [[] [] [] [] [] [] [] []]; simpl; try (intros ->; reflexivity); auto.
Qed.

(** The prefix step with its pattern matching spelt as equality tests. *)
Lemma strip_hex_prefix_eqb s :
  PyLong.strip_hex_prefix s =
  match s with
  | String c (String x r) =>
      if Ascii.eqb c "0" && (Ascii.eqb x "x" || Ascii.eqb x "X") then
        match r with
        | String u r' => if Ascii.eqb u "_" then r' else r
        | EmptyString => r
        end
      else s
  | _ => s
  end.
Proof.
  destruct s as [|c [|x r]]; [reflexivity| |].
  - destruct c as [[] [] [] [] [] [] [] []]; reflexivity.
  - unfold PyLong.strip_hex_prefix.
    destruct (Ascii.eqb x "x" || Ascii.eqb x "X").
    + destruct c as [[] [] [] [] [] [] [] []]; try reflexivity.
      destruct r as [|u r]; [reflexivity|].
      destruct u as [[] [] [] [] [] [] [] []]; reflexivity.
    + rewrite andb_false_r. destruct c as [[] [] [] [] [] [] [] []]; reflexivity.
Qed.

Lemma strip_hex_prefix_split s :
  all_int16 (PyLong.strip_hex_prefix s) = true -> all_int16 s = true.
Proof.
  rewrite strip_hex_prefix_eqb.
  destruct s as [|c [|x r]]; auto.
  destruct (Ascii.eqb c "0" && (Ascii.eqb x "x" || Ascii.eqb x "X")) eqn:Hcx; auto.
  apply andb_prop in Hcx as [Hc Hx]. apply Ascii.eqb_eq in Hc; subst c.
  assert (Hxc : int16_char x = true)
    by (unfold int16_char; apply orb_true_iff in Hx as [-> | ->]; now rewrite ?orb_true_r).
  intros H. simpl. rewrite Hxc.
  destruct r as [|u r']; [reflexivity|].
  destruct (Ascii.eqb u "_") eqn:Hu; [|exact H].
  apply Ascii.eqb_eq in Hu; subst u. exact H.
Qed.

Lemma hex_run_chars prev acc s v rest :
  PyLong.hex_run prev acc s = Some (v, rest) -> PyLong.all_space rest = true ->
  all_int16 s = true.
Proof.
  revert prev acc; induction s as [|c s IH]; intros prev acc; simpl.
  - auto.
  - destruct (Ascii.eqb c "_") eqn:Hu.
    + destruct prev; [discriminate|]. intros H Hr.
      rewrite (IH _ _ H Hr). apply Ascii.eqb_eq in Hu; subst; reflexivity.
    + destruct (PyLong.hex_digit c) eqn:Hd.
      * intros H Hr. rewrite (IH _ _ H Hr).
        unfold int16_char, is_hex_char. now rewrite Hd.
      * destruct prev; [discriminate|]. intros [= _ <-] Hr.
        now apply all_space_int16 in Hr; simpl in Hr.
Qed.

(** Whatever [int(s, 16)] accepts is made of those characters only. *)
Lemma int_base16_chars s v : PyLong.int_base16 s = Some v -> all_int16 s = true.
Proof.
  unfold PyLong.int_base16, PyLong.digits_part.
  destruct (lstrip_split s) as (w & Hw & Hsp).
  destruct (PyLong.strip_sign (lstrip s)) as [neg s2] eqn:Hsign.
  destruct (PyLong.strip_hex_prefix s2) as [|c r] eqn:Hs3; [discriminate|].
  destruct (PyLong.hex_digit c); [|discriminate].
  destruct (PyLong.hex_run false 0 (String c r)) as [[v' rest]|] eqn:Hrun; [|discriminate].
  destruct (PyLong.all_space rest) eqn:Hrest; [|discriminate]. intros _.
  rewrite Hw, all_int16_app, (all_space_int16 w Hsp). simpl.
  apply strip_sign_split. rewrite Hsign. simpl.
  apply strip_hex_prefix_split. rewrite Hs3.
  exact (hex_run_chars _ _ _ _ _ Hrun Hrest).
Qed.

(** C18: An accepted address has the [0x] prefix and 42 characters, and
    after the prefix only hexadecimal digits, underscores, signs, [x]/[X]
    and white space: a string with any other character there, or of
    another length, is rejected. *)
Theorem validate_address_sound s :
  validate_address s = true ->
  prefix "0x" s = true /\ String.length s = 42%nat /\ all_int16 (py_drop 2 s) = true.
Proof.
  rewrite validate_address_prefixed. unfold prefixed_int16.
  destruct (String.eqb s ""); [discriminate|].
  destruct (prefix "0x" s) eqn:Hp; [|discriminate].
  destruct (String.length s =? 40 + 2)%nat eqn:Hl; [|discriminate]. simpl.
  apply Nat.eqb_eq in Hl. rewrite py_slice_from_2 by lia.
  destruct (PyLong.int_base16 (py_drop 2 s)) eqn:Hi; [|discriminate].
  intros _. repeat split; auto. eapply int_base16_chars; eauto.
Qed.

(** C12: Every string the specification calls an address, the literal
    [0x] and exactly 40 hexadecimal digits, passes [validate_address]. *)
Theorem validate_address_complete s :
  strict_prefixed_hex 40 s = true -> validate_address s = true.
Proof. intros H. rewrite validate_address_prefixed. now apply prefixed_int16_strict. Qed.

Lemma validate_address_sound_witness :
  validate_address "0x5aAeb6053F3E94C9b9A09f33669435E7Ef1BeAed" = true /\
  prefix "0x" "0x5aAeb6053F3E94C9b9A09f33669435E7Ef1BeAed" = true /\ String.length "0x5aAeb6053F3E94C9b9A09f33669435E7Ef1BeAed" = 42%nat /\
  all_int16 (py_drop 2 "0x5aAeb6053F3E94C9b9A09f33669435E7Ef1BeAed") = true.
Proof. split; [vm_compute; reflexivity|]. apply validate_address_sound. vm_compute. reflexivity. Defined.

Lemma validate_address_complete_witness :
  strict_prefixed_hex 40 "0x5aAeb6053F3E94C9b9A09f33669435E7Ef1BeAed" = true /\ validate_address "0x5aAeb6053F3E94C9b9A09f33669435E7Ef1BeAed" = true.
Proof. split; [vm_compute; reflexivity|]. apply validate_address_complete. vm_compute. reflexivity. Defined.

(** Every [0x] followed by exactly 64 hexadecimal digits passes
    [validate_transaction_hash]. *)
Theorem validate_transaction_hash_complete s :
  strict_prefixed_hex 64 s = true -> validate_transaction_hash s = true.
Proof. intros H. rewrite validate_transaction_hash_prefixed. now apply prefixed_int16_strict. Qed.

Lemma validate_transaction_hash_complete_witness :
  strict_prefixed_hex 64 "0x88df016429689c079f3b2f6ad39fa052532c56795b733da78a91ebe6a713944b" = true /\ validate_transaction_hash "0x88df016429689c079f3b2f6ad39fa052532c56795b733da78a91ebe6a713944b" = true.
Proof. split; [vm_compute; reflexivity|]. apply validate_transaction_hash_complete. vm_compute. reflexivity. Defined.

(** ** What [int(s[2:], 16)] accepts beyond the specification *)

Lemma int_base16_space c s : py_space c = true -> PyLong.int_base16 (String c s) = PyLong.int_base16 s.
Proof. intros H. unfold PyLong.int_base16. simpl. now rewrite H. Qed.

Lemma int_base16_signed (neg : bool) s :
  s <> EmptyString -> all_hex s = true ->
  PyLong.int_base16 (String (if neg then "-" else "+") s) =
  Some (if neg then - hex_value_acc 0 s else hex_value_acc 0 s)%Z.
Proof.
  intros Hne Hall.
  transitivity (PyLong.digits_part neg (PyLong.strip_hex_prefix s)); [now destruct neg|].
  rewrite strip_hex_prefix_all_hex by exact Hall.
  now apply digits_part_all_hex.
Qed.

Lemma int_base16_prefixed s :
  s <> EmptyString -> all_hex s = true ->
  PyLong.int_base16 ("0x" ++ s) = Some (hex_value_acc 0 s).
Proof.
  intros Hne Hall.
  transitivity (PyLong.digits_part false (PyLong.strip_hex_prefix ("0x" ++ s))); [reflexivity|].
  rewrite strip_hex_prefix_eqb. simpl.
  destruct s as [|c r]; [congruence|].
  pose proof Hall as Hc; simpl in Hc; apply andb_prop in Hc as [Hc _].
  rewrite (hex_char_not_underscore c Hc).
  now apply (digits_part_all_hex false).
Qed.

Lemma strict_prefixed_hex_non_hex n c h :
  is_hex_char c = false -> strict_prefixed_hex n ("0x" ++ String c h) = false.
Proof. intros H. unfold strict_prefixed_hex. simpl. now rewrite H, !andb_false_r. Qed.

Lemma sign_or_space_not_hex c :
  (c = "+"%char \/ c = "-"%char \/ py_space c = true) -> is_hex_char c = false.
Proof.
  intros [->|[->|Hs]]; [reflexivity|reflexivity|].
  destruct (is_hex_char c) eqn:Hc; [|reflexivity].
  now rewrite (hex_char_not_space c Hc) in Hs.
Qed.

(** [validate_address] also accepts what the specification rejects:
    [0x], a sign or a white-space character, then 39 hexadecimal
    digits, because [int(s, 16)] skips surrounding white space and
    reads a sign. *)
Theorem validate_address_accepts_sign_or_space c h :
  (c = "+"%char \/ c = "-"%char \/ py_space c = true) ->
  all_hex h = true -> String.length h = 39%nat ->
  validate_address ("0x" ++ String c h) = true /\
  strict_prefixed_hex 40 ("0x" ++ String c h) = false.
Proof.
  intros Hc Hall Hlen.
  split; [|apply strict_prefixed_hex_non_hex, sign_or_space_not_hex, Hc].
  assert (Hne : h <> EmptyString) by (intros ->; discriminate).
  rewrite validate_address_prefixed, prefixed_int16_0x. simpl String.length. rewrite Hlen.
  destruct Hc as [->|[->|Hs]].
  - now rewrite (int_base16_signed false h Hne Hall).
  - now rewrite (int_base16_signed true h Hne Hall).
  - rewrite int_base16_space, int_base16_all_hex by assumption. reflexivity.
Qed.

Lemma validate_address_accepts_sign_or_space_witness :
  validate_address "0x-000000000000000000000000000000000000001" = true /\
  strict_prefixed_hex 40 "0x-000000000000000000000000000000000000001" = false.
Proof.
  exact (validate_address_accepts_sign_or_space "-" "000000000000000000000000000000000000001"
           (or_intror (or_introl eq_refl)) eq_refl eq_refl).
Defined.

(** C21: [validate_address] accepts a doubled prefix, [0x0x] and 38
    hexadecimal digits, which the specification rejects: [int(s, 16)]
    allows its own [0x] prefix. *)
Theorem validate_address_accepts_double_prefix h :
  all_hex h = true -> String.length h = 38%nat ->
  validate_address ("0x0x" ++ h) = true /\ strict_prefixed_hex 40 ("0x0x" ++ h) = false.
Proof.
  intros Hall Hlen.
  split; [|unfold strict_prefixed_hex; simpl; now rewrite andb_false_r].
  assert (Hne : h <> EmptyString) by (intros ->; discriminate).
  change ("0x0x" ++ h)%string with ("0x" ++ ("0x" ++ h))%string.
  rewrite validate_address_prefixed, (prefixed_int16_0x 40 ("0x" ++ h)).
  rewrite (int_base16_prefixed h Hne Hall). simpl. now rewrite Hlen.
Qed.

Lemma validate_address_accepts_double_prefix_witness :
  validate_address "0x0x00000000000000000000000000000000000000" = true /\
  strict_prefixed_hex 40 "0x0x00000000000000000000000000000000000000" = false.
Proof.
  exact (validate_address_accepts_double_prefix "00000000000000000000000000000000000000"
           eq_refl eq_refl).
Defined.

(** ** [validate_escrow_data] *)

Lemma push_if_nil (b : bool) errs m :
  (if b then push errs m else errs) = [] <-> b = false /\ errs = [].
Proof.
  destruct b; unfold push; split; try tauto.
  - intros H. destruct errs; discriminate.
  - intros [H _]; discriminate.
Qed.

Lemma string_eqb_false s t : String.eqb s t = false <-> s <> t.
Proof. apply String.eqb_neq. Qed.

Lemma push_nil_iff errs m : push errs m = [] <-> False.
Proof. unfold push. split; [|tauto]. intros H. destruct errs; discriminate. Qed.

Lemma ex_none_iff {A} (P : A -> Prop) : (exists x, None = Some x /\ P x) <-> False.
Proof. split; [intros (? & ? & _); discriminate | tauto]. Qed.

Lemma ex_some_iff {A} (a : A) (P : A -> Prop) : (exists x, Some a = Some x /\ P x) <-> P a.
Proof. split; [intros (? & [= <-] & ?); auto | eauto]. Qed.

Lemma id_length_iff (s : string) :
  s <> "" /\ (10 <= String.length s)%nat <-> (10 <= String.length s)%nat.
Proof. split; [tauto|]. intros H; split; auto. intros ->; simpl in H; lia. Qed.

(** C13: [validate_escrow_data] returns no error exactly when every field
    check passes. *)
Theorem validate_escrow_data_nil_iff e now :
  validate_escrow_data e now = [] <-> escrow_fields_valid e now.
Proof.
  unfold validate_escrow_data, escrow_fields_valid.
  destruct (EscrowData.asset_a e) as [a|], (EscrowData.asset_b e) as [b|],
    (EscrowData.terms e) as [t|];
  rewrite ?push_if_nil, ?push_nil_iff, ?negb_false_iff, ?orb_false_iff, ?string_eqb_false,
    ?Nat.ltb_ge, ?Z.leb_gt, ?ex_none_iff, ?ex_some_iff, ?id_length_iff; tauto.
Qed.

(** ** Deadline arithmetic *)

(** C19: Before the deadline, [calculate_time_remaining] splits the
    remaining seconds exactly into days, hours below 24, minutes and
    seconds below 60; at or after it, everything is zero and the
    deadline is expired. *)
Theorem calculate_time_remaining_spec deadline now :
  let t := calculate_time_remaining deadline now in
  if (now <? deadline)%Z then
    expired t = false /\ total_seconds t = (deadline - now)%Z /\
    (days t * 86400 + hours t * 3600 + minutes t * 60 + seconds t = deadline - now)%Z /\
    (0 <= hours t < 24)%Z /\ (0 <= minutes t < 60)%Z /\ (0 <= seconds t < 60)%Z
  else t = mkTimeRemaining 0 0 0 0 0 true.
Proof.
  cbv zeta. unfold calculate_time_remaining.
  change (24 * 60 * 60)%Z with 86400%Z. change (60 * 60)%Z with 3600%Z.
  destruct (Z.ltb_spec now deadline).
  - destruct (Z.leb_spec (deadline - now) 0); [lia|]. cbn [expired total_seconds days hours minutes seconds].
    set (r := (deadline - now)%Z).
    repeat split; try reflexivity;
      try (apply Z.div_pos; [apply Z.mod_pos_bound|]; lia).
    + pose proof (Z.div_mod r 86400 ltac:(lia)) as H1.
      pose proof (Z.div_mod (r mod 86400) 3600 ltac:(lia)) as H2.
      pose proof (Z.div_mod (r mod 3600) 60 ltac:(lia)) as H3.
      rewrite Z.mod_mod_divide in H2 by (exists 24%Z; reflexivity).
      rewrite Z.mod_mod_divide in H3 by (exists 60%Z; reflexivity).
      lia.
    + apply Z.div_lt_upper_bound; [lia|]. pose proof (Z.mod_pos_bound r 86400); lia.
    + apply Z.div_lt_upper_bound; [lia|]. pose proof (Z.mod_pos_bound r 3600); lia.
    + apply Z.mod_pos_bound; lia.
    + apply Z.mod_pos_bound; lia.
  - destruct (Z.leb_spec (deadline - now) 0); [reflexivity|lia].
Qed.
