(* ===== verification/Fees.v ===== *)
(** * Amount formatting and fee computation of [shared/utils.py]

    [format_amount] and [calculate_fees] on the binary64 model of
    [PyFloat]: [float(amount)], the three float operations of the fee
    split, [str] of each result ([float_repr]) and its fixed formatting
    at 18 decimals.  The dictionary returned by [calculate_fees] always
    has the same four keys; it is the record [Fees]. *)

From Stdlib Require Import String Ascii ZArith List Bool Lia SpecFloat DecimalString.
From S2P Require Import Prelude PyFloat.
Import ListNotations.

Local Open Scope string_scope.

(** [format_amount(amount, decimals)]: [ValueError] from [float] or
    from a negative or oversized precision gives ["0.0"]. *)
Definition format_amount (amount : string) (decimals : Z) : string :=
  match py_float_of_string amount with
  | Some amount_float =>
      match format_fixed decimals amount_float with Some s => s | None => "0.0" end
  | None => "0.0"
  end.

Record Fees : Type := mkFees {
  total : string;
  platform_fee : string;
  arbiter_fee : string;
  net_amount : string
}.

Definition zero_fees : Fees := mkFees "0.0" "0.0" "0.0" "0.0".

(** The literal [100] of [percentage / 100], promoted to a float. *)
Definition hundred : float := float_of_Z 100.

(** The default percentages [0.5] and [1.0]. *)
Definition default_platform_fee_percentage : float := float_of_decimal false 5 (-1).
Definition default_arbiter_fee_percentage : float := float_of_Z 1.

Definition calculate_fees (amount : string) (platform_fee_percentage arbiter_fee_percentage : float) : Fees :=
  match py_float_of_string amount with
  | Some amount_float =>
      let platform_fee := fmul amount_float (fdiv platform_fee_percentage hundred) in
      let arbiter_fee := fmul amount_float (fdiv arbiter_fee_percentage hundred) in
      let net_amount := fsub (fsub amount_float platform_fee) arbiter_fee in
      mkFees (format_amount (float_repr amount_float) 18)
             (format_amount (float_repr platform_fee) 18)
             (format_amount (float_repr arbiter_fee) 18)
             (format_amount (float_repr net_amount) 18)
  | None => zero_fees
  end.

(** ** Reading a fixed-point result back

    The value of a string [digits.digits] with 18 decimals, in units of
    [10^-18]: what the four strings of [calculate_fees] denote. *)
Definition units18 (s : string) : option Z :=
  match unsigned_decimal s with
  | Some (m, e, EmptyString) => if (e =? -18)%Z then Some m else None
  | _ => None
  end.

Definition all_digits (s : string) : bool := forallb is_digit (list_ascii_of_string s).

(** ** Digit strings *)

Lemma all_digits_app s t : all_digits (s ++ t) = all_digits s && all_digits t.
Proof.
  unfold all_digits. induction s as [|c s IH]; [reflexivity|].
  cbn. fold (list_ascii_of_string s). fold (list_ascii_of_string (s ++ t)).
  rewrite IH. apply andb_assoc.
Qed.

Lemma all_digits_take n s : all_digits s = true -> all_digits (py_take n s) = true.
Proof.
  unfold all_digits. revert s. induction n as [|n IH]; intros [|c s]; cbn; auto.
  intros H. apply andb_prop in H as [Hc Hs]. rewrite Hc. now apply IH.
Qed.

Lemma all_digits_drop n s : all_digits s = true -> all_digits (py_drop n s) = true.
Proof.
  unfold all_digits. revert s. induction n as [|n IH]; intros [|c s]; cbn; auto.
  intros H. apply andb_prop in H as [_ Hs]. now apply IH.
Qed.

Lemma all_digits_string_of_uint d : all_digits (NilEmpty.string_of_uint d) = true.
Proof. induction d; cbn; auto. Qed.

Lemma all_digits_dec_string n : all_digits (dec_string n) = true.
Proof.
  unfold dec_string, NilZero.string_of_uint.
  destruct (N.to_uint (Z.to_N n)); try reflexivity; apply all_digits_string_of_uint.
Qed.

Lemma all_digits_zeros k : all_digits (String.concat "" (repeat "0" k)) = true.
Proof.
  induction k as [|k IH]; [reflexivity|].
  destruct k; [reflexivity|]. cbn [repeat String.concat].
  change (all_digits ("0" ++ String.concat "" (repeat "0" (S k))) = true).
  rewrite all_digits_app. exact IH.
Qed.

Lemma length_concat_zeros k : String.length (String.concat "" (repeat "0" k)) = k.
Proof.
  induction k as [|k IH]; [reflexivity|].
  destruct k; [reflexivity|]. cbn [repeat String.concat].
  change (String.length ("0" ++ String.concat "" (repeat "0" (S k))) = S (S k)).
  rewrite length_append, IH. reflexivity.
Qed.

#[export] Hint Resolve all_digits_take all_digits_drop all_digits_dec_string all_digits_zeros : pyhints.

(** [fixed_digits n d] with [d > 0] is an integer part of at least one
    digit, a point and exactly [d] digits. *)
Lemma fixed_digits_shape n d : (0 < d)%nat ->
  exists a b, fixed_digits n d = a ++ "." ++ b /\ String.length b = d /\
    a <> "" /\ all_digits a = true /\ all_digits b = true.
Proof.
  intros Hd. unfold fixed_digits.
  set (padded := String.concat "" (repeat "0" (S d - String.length (dec_string n))) ++ dec_string n).
  assert (Hp : all_digits padded = true)
    by (unfold padded; now rewrite all_digits_app, all_digits_zeros, all_digits_dec_string).
  assert (Hl : (S d <= String.length padded)%nat)
    by (unfold padded; rewrite length_append, length_concat_zeros; lia).
  destruct (Nat.eqb_spec d 0) as [->|_]; [lia|].
  exists (py_take (String.length padded - d) padded), (py_drop (String.length padded - d) padded).
  rewrite length_py_drop. repeat split; auto with pyhints; [lia|].
  assert (Hk : (1 <= String.length padded - d)%nat) by lia.
  revert Hk Hl. generalize (String.length padded - d). clear.
  destruct padded as [|c s]; intros [|k] Hk Hl; cbn in *; [lia|lia|lia|discriminate].
Qed.

(** ** Properties *)

(** C14: [format_amount] renders every finite amount with exactly the
    caller's number of decimals: an optional minus sign, at least one
    integer digit, a point and [decimals] digits. *)
Theorem format_amount_fixed_decimals amount decimals x :
  (0 < decimals <= max_precision)%Z ->
  py_float_of_string amount = Some x ->
  (forall neg, x <> S754_infinity neg) -> x <> S754_nan ->
  exists sgn a b, format_amount amount decimals = sgn ++ a ++ "." ++ b /\
    (sgn = "" \/ sgn = "-") /\ String.length b = Z.to_nat decimals /\
    a <> "" /\ all_digits a = true /\ all_digits b = true.
Proof.
  intros Hd Hx Hinf Hnan. unfold format_amount, format_fixed. rewrite Hx.
  replace ((decimals <? 0)%Z || (max_precision <? decimals)%Z) with false
    by (symmetry; apply orb_false_iff; split; apply Z.ltb_ge; lia).
  assert (Hsgn : forall neg, sign_str neg = "" \/ sign_str neg = "-") by (intros []; auto).
  destruct x as [neg|neg| |neg m e]; [| now destruct (Hinf neg) | contradiction |];
    match goal with |- context [fixed_digits ?n ?d] =>
      destruct (fixed_digits_shape n d) as (a & b & Hf & Hl & Ha & Hda & Hdb); [lia|] end;
    exists (sign_str neg), a, b; rewrite Hf; auto 7.
Qed.

Lemma format_amount_fixed_decimals_witness :
  (0 < 18 <= max_precision)%Z /\ py_float_of_string "98.5" = Some (float_of_decimal false 985 (-1)) /\
  exists sgn a b, format_amount "98.5" 18 = sgn ++ a ++ "." ++ b /\
    (sgn = "" \/ sgn = "-") /\ String.length b = Z.to_nat 18 /\
    a <> "" /\ all_digits a = true /\ all_digits b = true.
Proof.
  split; [unfold max_precision; lia|]. split; [vm_compute; reflexivity|].
  apply (format_amount_fixed_decimals "98.5" 18 (float_of_decimal false 985 (-1)));
    [unfold max_precision; lia | vm_compute; reflexivity | intros neg; vm_compute; discriminate | vm_compute; discriminate].
Defined.

(** An amount that [float] rejects gives the all-zero result
    ["0.0"] in each of the four fields, whatever the percentages. *)
Theorem calculate_fees_invalid_amount amount pp ap :
  py_float_of_string amount = None -> calculate_fees amount pp ap = zero_fees.
Proof. intros H. unfold calculate_fees. now rewrite H. Qed.

Lemma calculate_fees_invalid_amount_witness :
  py_float_of_string "1,000" = None /\
  calculate_fees "1,000" default_platform_fee_percentage default_arbiter_fee_percentage = zero_fees.
Proof.
  split; [vm_compute; reflexivity|].
  apply calculate_fees_invalid_amount. vm_compute. reflexivity.
Defined.

(** Scenario A of the specification: the amount ["100"] with the
    default 0.5% platform and 1.0% arbiter fees gives a net amount of
    ["98.500000000000000000"]. *)
Example calculate_fees_scenario_A :
  calculate_fees "100" default_platform_fee_percentage default_arbiter_fee_percentage =
  mkFees "100.000000000000000000" "0.500000000000000000" "1.000000000000000000" "98.500000000000000000".
Proof. vm_compute. reflexivity. Qed.

