(* ===== verification/Json.v ===== *)
(** * JSON text of Python values ([json.dumps] and [json.loads])

    [shared/utils.py] prints [json.dumps(log_data)] in
    [log_agent_activity], the deployment script writes its results with
    [json.dump], and the specification's envelopes travel as JSON
    objects.  This file gives the text CPython's [json] module writes
    and reads for the values of [Models.pyval]:

    - [json_dumps]: [json.dumps(v)] with its defaults ([ensure_ascii],
      a comma and a space between items, a colon and a space after a
      key): [null], [true], [false], [int] digits, [float] by [repr]
      ([NaN], [Infinity], [-Infinity] for the special values), strings
      between double quotes with the escapes of [ESCAPE_ASCII] (a
      backslash before a double quote or a backslash, the short escapes
      of newline, carriage return, tab, backspace and form feed, and
      [\u00XX] in lower-case hex for the other characters outside
      space..tilde), lists and dictionaries in order;
    - [json_loads]: the scanner of [json.decoder]: white space (space,
      tab, newline, carriage return) around tokens, [NUMBER_RE] (an
      [int] without fraction or exponent, else [float(...)]), the
      literals, strings
      with their escapes (a [\u] escape beyond U+00FF is outside the
      Latin-1 model and fails), arrays, and objects built as
      [dict(pairs)] (a repeated key keeps its first place and its last
      value); anything else, or text after the value, is the
      [JSONDecodeError] [None].

    The decoder recurses on a fuel that [json_loads] sets to the length
    of its input plus one; the round trip shows that it is enough for
    every text [json_dumps] writes. *)

From Stdlib Require Import String Ascii ZArith List Bool Lia SpecFloat DecimalString.
From S2P Require Import Prelude PyFloat Repr Models Fees IdGen.
Import ListNotations.

Local Open Scope string_scope.

(** ** Encoder *)

Definition dq : ascii := ascii_of_nat 34.
Definition bsl : ascii := ascii_of_nat 92.

Definition hex_lower (n : nat) : ascii :=
  if (n <? 10)%nat then ascii_of_nat (48 + n) else ascii_of_nat (87 + n).

(** ['\\u{0:04x}'.format(n)] for [n < 256]. *)
Definition u_escape (n : nat) : string :=
  String bsl ("u00" ++ String (hex_lower (n / 16)) (String (hex_lower (n mod 16)) "")).

(** One character of [py_encode_basestring_ascii]. *)
Definition escape_char (c : ascii) : string :=
  let n := nat_of_ascii c in
  if (n =? 34)%nat then String bsl (String dq "")
  else if (n =? 92)%nat then String bsl (String bsl "")
  else if (n =? 10)%nat then String bsl "n"
  else if (n =? 13)%nat then String bsl "r"
  else if (n =? 9)%nat then String bsl "t"
  else if (n =? 8)%nat then String bsl "b"
  else if (n =? 12)%nat then String bsl "f"
  else if (n <? 32)%nat || (126 <? n)%nat then u_escape n
  else String c "".

Fixpoint escape (s : string) : string :=
  match s with
  | EmptyString => EmptyString
  | String c r => escape_char c ++ escape r
  end.

Definition json_string (s : string) : string := String dq (escape s ++ String dq "").

(** [floatstr]: [repr], or the names of the special values. *)
Definition float_json (x : float) : string :=
  match x with
  | S754_nan => "NaN"
  | S754_infinity false => "Infinity"
  | S754_infinity true => "-Infinity"
  | _ => float_repr x
  end.

Fixpoint json_dumps (v : pyval) : string :=
  match v with
  | PNone => "null"
  | PBool true => "true"
  | PBool false => "false"
  | PInt z => int_str z
  | PFloat x => float_json x
  | PStr s => json_string s
  | PList l => "[" ++ py_join ", " (map json_dumps l) ++ "]"
  | PDict d => "{" ++ py_join ", " (map (fun kv => json_string (fst kv) ++ ": " ++ json_dumps (snd kv)) d) ++ "}"
  end.

(** ** Decoder *)

Definition is_json_ws (c : ascii) : bool :=
  let n := nat_of_ascii c in (n =? 32)%nat || (n =? 9)%nat || (n =? 10)%nat || (n =? 13)%nat.

(** [_w(s, end).end()]: skip white space. *)
Fixpoint skip_ws (s : string) : string :=
  match s with
  | String c r => if is_json_ws c then skip_ws r else s
  | EmptyString => EmptyString
  end.

Definition hex_val (c : ascii) : option nat :=
  let n := nat_of_ascii c in
  if (48 <=? n)%nat && (n <=? 57)%nat then Some (n - 48)%nat
  else if (97 <=? n)%nat && (n <=? 102)%nat then Some (n - 87)%nat
  else if (65 <=? n)%nat && (n <=? 70)%nat then Some (n - 55)%nat
  else None.

(** The character of a short escape: a backslash followed by a double
    quote, a backslash, a slash, or one of [b f n r t]. *)
Definition short_escape (e : ascii) : option ascii :=
  let n := nat_of_ascii e in
  if (n =? 34)%nat then Some dq
  else if (n =? 92)%nat then Some bsl
  else if (n =? 47)%nat then Some e
  else if (n =? 98)%nat then Some (ascii_of_nat 8)
  else if (n =? 102)%nat then Some (ascii_of_nat 12)
  else if (n =? 110)%nat then Some (ascii_of_nat 10)
  else if (n =? 114)%nat then Some (ascii_of_nat 13)
  else if (n =? 116)%nat then Some (ascii_of_nat 9)
  else None.

(** [scanstring(s, end, strict=True)] after the opening quote: the
    string and the text after the closing quote. *)
Fixpoint scanstring (s : string) : option (string * string) :=
  match s with
  | EmptyString => None
  | String c r =>
      if Ascii.eqb c dq then Some (EmptyString, r)
      else if Ascii.eqb c bsl then
        match r with
        | String e r' =>
            if Ascii.eqb e "u" then
              match r' with
              | String h1 (String h2 (String h3 (String h4 r''))) =>
                  match hex_val h1, hex_val h2, hex_val h3, hex_val h4 with
                  | Some a, Some b, Some c', Some d =>
                      let code := (((a * 16 + b) * 16 + c') * 16 + d)%nat in
                      if (code <? 256)%nat then
                        match scanstring r'' with
                        | Some (t, rest) => Some (String (ascii_of_nat code) t, rest)
                        | None => None
                        end
                      else None
                  | _, _, _, _ => None
                  end
              | _ => None
              end
            else
              match short_escape e, scanstring r' with
              | Some x, Some (t, rest) => Some (String x t, rest)
              | _, _ => None
              end
        | EmptyString => None
        end
      else if (nat_of_ascii c <? 32)%nat then None
      else
        match scanstring r with
        | Some (t, rest) => Some (String c t, rest)
        | None => None
        end
  end.

(** The value of a run of decimal digits, [int(...)]. *)
Definition digits_value (ds : string) : option Z :=
  option_map (fun u => Z.of_N (N.of_uint u)) (NilZero.uint_of_string ds).

(** [NUMBER_RE]: an optional minus, then [0] or a non-zero digit and
    more digits, then an optional fraction (a point and digits) and an
    optional exponent ([e] or [E], a sign, digits): an [int] without
    fraction and exponent, else [float] of the matched text. *)
Definition scan_int_part (s : string) : option (string * string) :=
  match s with
  | String c r =>
      if Ascii.eqb c "0" then Some ("0", r)
      else if is_digit c then let '(ds, r') := split_digits r in Some (String c ds, r')
      else None
  | EmptyString => None
  end.

Definition scan_frac (s : string) : string * string :=
  match s with
  | String c r =>
      if Ascii.eqb c "." then
        match split_digits r with
        | (String d ds, r') => (String c (String d ds), r')
        | _ => (EmptyString, s)
        end
      else (EmptyString, s)
  | EmptyString => (EmptyString, s)
  end.

Definition scan_exp (s : string) : string * string :=
  match s with
  | String c r =>
      if Ascii.eqb c "e" || Ascii.eqb c "E" then
        let '(sign, r1) := match r with
                           | String x r1 => if Ascii.eqb x "+" || Ascii.eqb x "-" then (String x EmptyString, r1)
                                            else (EmptyString, r)
                           | EmptyString => (EmptyString, r)
                           end in
        match split_digits r1 with
        | (String d ds, r') => (String c (sign ++ String d ds), r')
        | _ => (EmptyString, s)
        end
      else (EmptyString, s)
  | EmptyString => (EmptyString, s)
  end.

Definition scan_number (s : string) : option (pyval * string) :=
  let '(neg, s1) := match s with
                    | String c r => if Ascii.eqb c "-" then (true, r) else (false, s)
                    | EmptyString => (false, s)
                    end in
  match scan_int_part s1 with
  | None => None
  | Some (int_part, r1) =>
      let '(frac, r2) := scan_frac r1 in
      let '(exp, r3) := scan_exp r2 in
      match frac, exp with
      | EmptyString, EmptyString =>
          match digits_value int_part with
          | Some z => Some (PInt (if neg then (- z)%Z else z), r3)
          | None => None
          end
      | _, _ =>
          match py_float_of_string ((if neg then "-" else "") ++ int_part ++ frac ++ exp) with
          | Some x => Some (PFloat x, r3)
          | None => None
          end
      end
  end.

(** [dict(pairs)]. *)
Definition dict_of_pairs (pairs : list (string * pyval)) : dict :=
  fold_left (fun d kv => dict_set d (fst kv) (snd kv)) pairs [].

(** [scan_once], [parse_array] and [parse_object], on a fuel. *)
Fixpoint scan_value (fuel : nat) (s : string) {struct fuel} : option (pyval * string) :=
  match fuel with
  | O => None
  | S f =>
      match s with
      | String c r =>
          if Ascii.eqb c dq then
            match scanstring r with Some (t, r') => Some (PStr t, r') | None => None end
          else if Ascii.eqb c "[" then
            match skip_ws r with
            | String x r' =>
                if Ascii.eqb x "]" then Some (PList [], r')
                else match scan_items f (String x r') with Some (l, r'') => Some (PList l, r'') | None => None end
            | EmptyString => None
            end
          else if Ascii.eqb c "{" then
            match skip_ws r with
            | String x r' =>
                if Ascii.eqb x "}" then Some (PDict [], r')
                else if Ascii.eqb x dq then
                  match scan_pairs f r' with Some (ps, r'') => Some (PDict (dict_of_pairs ps), r'') | None => None end
                else None
            | EmptyString => None
            end
          else if prefix "null" s then Some (PNone, py_drop 4 s)
          else if prefix "true" s then Some (PBool true, py_drop 4 s)
          else if prefix "false" s then Some (PBool false, py_drop 5 s)
          else
            match scan_number s with
            | Some res => Some res
            | None =>
                if prefix "NaN" s then Some (PFloat S754_nan, py_drop 3 s)
                else if prefix "Infinity" s then Some (PFloat (S754_infinity false), py_drop 8 s)
                else if prefix "-Infinity" s then Some (PFloat (S754_infinity true), py_drop 9 s)
                else None
            end
      | EmptyString => None
      end
  end
(** The items of an array, from the first one. *)
with scan_items (fuel : nat) (s : string) {struct fuel} : option (list pyval * string) :=
  match fuel with
  | O => None
  | S f =>
      match scan_value f s with
      | None => None
      | Some (v, r) =>
          match skip_ws r with
          | String c r' =>
              if Ascii.eqb c "]" then Some ([v], r')
              else if Ascii.eqb c "," then
                match scan_items f (skip_ws r') with Some (l, r'') => Some (v :: l, r'') | None => None end
              else None
          | EmptyString => None
          end
      end
  end
(** The pairs of an object, after the opening quote of the first key. *)
with scan_pairs (fuel : nat) (s : string) {struct fuel} : option (list (string * pyval) * string) :=
  match fuel with
  | O => None
  | S f =>
      match scanstring s with
      | None => None
      | Some (k, r) =>
          match skip_ws r with
          | String colon r1 =>
              if negb (Ascii.eqb colon ":") then None else
              match scan_value f (skip_ws r1) with
              | None => None
              | Some (v, r2) =>
                  match skip_ws r2 with
                  | String c r3 =>
                      if Ascii.eqb c "}" then Some ([(k, v)], r3)
                      else if Ascii.eqb c "," then
                        match skip_ws r3 with
                        | String x r4 =>
                            if Ascii.eqb x dq then
                              match scan_pairs f r4 with Some (ps, r5) => Some ((k, v) :: ps, r5) | None => None end
                            else None
                        | EmptyString => None
                        end
                      else None
                  | EmptyString => None
                  end
              end
          | EmptyString => None
          end
      end
  end.

(** [json.loads(s)]: one value between white space, nothing after it. *)
Definition json_loads (s : string) : option pyval :=
  match scan_value (S (String.length s)) (skip_ws s) with
  | Some (v, r) => match skip_ws r with EmptyString => Some v | _ => None end
  | None => None
  end.

(** A value [json_dumps] writes and [json_loads] reads back: no float
    (their text is [repr], whose round trip is CPython's own concern)
    and dictionaries with distinct keys, as Python's are. *)
Fixpoint keys_distinct (d : dict) : bool :=
  match d with
  | [] => true
  | (k, _) :: r => negb (dict_has r k) && keys_distinct r
  end.

Fixpoint json_plain (v : pyval) : bool :=
  match v with
  | PFloat _ => false
  | PList l => forallb json_plain l
  | PDict d => keys_distinct d && forallb (fun kv => json_plain (snd kv)) d
  | _ => true
  end.

(** The fuel the decoder needs for a value. *)
Fixpoint json_size (v : pyval) : nat :=
  match v with
  | PList l => S (list_sum (map (fun x => S (json_size x)) l))
  | PDict d => S (list_sum (map (fun kv => S (json_size (snd kv))) d))
  | _ => 1
  end.

(** One [key: value] item of a dictionary's text. *)
Definition pair_text (kv : string * pyval) : string :=
  json_string (fst kv) ++ ": " ++ json_dumps (snd kv).

(** What may follow a value inside the text [json_dumps] writes: the
    end, a comma, or a closing bracket or brace. *)
Definition stops (r : string) : Prop :=
  match r with
  | EmptyString => True
  | String c _ => c = ","%char \/ c = "]"%char \/ c = "}"%char
  end.

(** ** Lemmas *)

Lemma pyval_nested_ind (P : pyval -> Prop)
  (fnone : P PNone) (fbool : forall b, P (PBool b)) (fint : forall z, P (PInt z))
  (ffloat : forall x, P (PFloat x)) (fstr : forall s, P (PStr s))
  (flist : forall l, Forall P l -> P (PList l))
  (fdict : forall d, Forall (fun kv => P (snd kv)) d -> P (PDict d)) :
  forall v, P v.
Proof.
  fix IH 1. intros [| | | | |l|d].
  1-5: auto.
  - apply flist. induction l as [|x l IHl]; constructor; [apply IH|exact IHl].
  - apply fdict. induction d as [|[k x] d IHd]; constructor; [apply IH|exact IHd].
Qed.

Lemma scanstring_escape_char c t :
  scanstring (escape_char c ++ t) =
  match scanstring t with Some (x, r) => Some (String c x, r) | None => None end.
Proof. destruct c as [[] [] [] [] [] [] [] []]; reflexivity. Qed.

Lemma scanstring_escape s t : scanstring (escape s ++ String dq t) = Some (s, t).
Proof.
  induction s as [|c s IH]; [reflexivity|].
  cbn [escape]. rewrite append_assoc_str, scanstring_escape_char, IH. reflexivity.
Qed.

Lemma stops_scan r : stops r ->
  split_digits r = (EmptyString, r) /\ scan_frac r = (EmptyString, r) /\
  scan_exp r = (EmptyString, r) /\ skip_ws r = r.
Proof. destruct r as [|c r]; [repeat split|intros [->|[->| ->]]; repeat split]. Qed.

Lemma split_digits_stop d r : all_digits d = true -> stops r -> split_digits (d ++ r) = (d, r).
Proof.
  intros Hd Hr. induction d as [|c d IH]; [apply (stops_scan r Hr)|].
  unfold all_digits in Hd; cbn in Hd |- *. apply andb_prop in Hd as [Hc Hd].
  rewrite Hc, IH by exact Hd. reflexivity.
Qed.

(** The first digit of a positive number is not 0. *)
Lemma dec_string_head n : (0 < n)%Z ->
  exists c r, dec_string n = String c r /\ is_digit c = true /\ Ascii.eqb c "0" = false.
Proof.
  intros Hn. destruct n as [|p|p]; try lia. unfold dec_string. cbn [Z.to_N N.to_uint].
  pose proof (DecimalPos.Unsigned.to_uint_nonnil p) as Hnn. pose proof (to_uint_head_nonzero p) as Hh.
  destruct (Pos.to_uint p) as [|l|l|l|l|l|l|l|l|l|l].
  1: congruence.
  1: now destruct (Hh l).
  all: do 2 eexists; split; [reflexivity|split; reflexivity].
Qed.

(** [int(str(n))] for [n >= 0] is the decimal run of [dec_string]. *)
Lemma scan_nonneg_int n rest : (0 <= n)%Z -> stops rest ->
  exists ip, scan_int_part (dec_string n ++ rest) = Some (ip, rest) /\ digits_value ip = Some n.
Proof.
  intros Hn Hr. destruct (Z.eq_dec n 0) as [->|Hne].
  - exists "0". split; [cbn; reflexivity|reflexivity].
  - destruct (dec_string_head n ltac:(lia)) as (c & r & Hds & Hdig & H0).
    exists (dec_string n). split; [|exact (read_dec_string n Hn)].
    rewrite Hds. cbn [append scan_int_part]. rewrite H0, Hdig.
    pose proof (all_digits_dec_string n) as Ha. rewrite Hds in Ha.
    unfold all_digits in Ha; cbn in Ha. apply andb_prop in Ha as [_ Ha].
    rewrite split_digits_stop by assumption. reflexivity.
Qed.

Lemma scan_number_int z rest : stops rest -> scan_number (int_str z ++ rest) = Some (PInt z, rest).
Proof.
  intros Hr. destruct (stops_scan rest Hr) as (_ & Hf & He & _). unfold int_str.
  destruct (Z.ltb_spec z 0) as [Hneg|Hpos].
  - destruct (scan_nonneg_int (- z) rest ltac:(lia) Hr) as (ip & Hip & Hv).
    unfold scan_number. cbn [append]. cbn [Ascii.eqb Ascii.ascii_dec Bool.eqb].
    change (Ascii.eqb "-" "-") with true. cbv iota. rewrite Hip, Hf, He, Hv. f_equal. f_equal. f_equal. lia.
  - destruct (scan_nonneg_int z rest Hpos Hr) as (ip & Hip & Hv).
    destruct (Z.eq_dec z 0) as [->|Hne]; [cbn; rewrite Hf, He; reflexivity|].
    destruct (dec_string_head z ltac:(lia)) as (c & r & Hds & Hdig & H0).
    unfold scan_number. rewrite Hds in Hip |- *. cbn [append] in Hip |- *.
    replace (Ascii.eqb c "-") with false
      by (destruct c as [[] [] [] [] [] [] [] []]; try discriminate Hdig; reflexivity).
    cbv iota. rewrite Hip, Hf, He, Hv. reflexivity.
Qed.

Lemma digit_char_class c : is_digit c = true \/ c = "-"%char ->
  is_json_ws c = false /\ Ascii.eqb c "]" = false /\ Ascii.eqb c "}" = false.
Proof. destruct c as [[] [] [] [] [] [] [] []]; intros [H|H]; try discriminate H; vm_compute; auto. Qed.

(** A digit or a minus sign starts a number for the scanner. *)
Lemma scan_value_number f c r res : is_digit c = true \/ c = "-"%char ->
  scan_number (String c r) = Some res -> scan_value (S f) (String c r) = Some res.
Proof.
  destruct c as [[] [] [] [] [] [] [] []]; intros [H|H] Hs; try discriminate H;
    cbn -[scan_number]; rewrite Hs; reflexivity.
Qed.

Lemma int_str_head z : exists c r, int_str z = String c r /\ (is_digit c = true \/ c = "-"%char).
Proof.
  unfold int_str. destruct (Z.ltb_spec z 0); [do 2 eexists; split; [reflexivity|right; reflexivity]|].
  destruct (Z.eq_dec z 0) as [->|Hne]; [do 2 eexists; split; [reflexivity|left; reflexivity]|].
  destruct (dec_string_head z ltac:(lia)) as (c & r & -> & Hd & _). eauto.
Qed.

(** The text of a value starts with a character that is not white
    space and closes nothing. *)
Lemma dumps_head v : json_plain v = true -> exists c r, json_dumps v = String c r /\
  is_json_ws c = false /\ Ascii.eqb c "]" = false /\ Ascii.eqb c "}" = false.
Proof.
  intros Hp. destruct v as [|[]|z|x|s|l|d]; try discriminate Hp;
    try (do 2 eexists; split; [reflexivity|vm_compute; auto]).
  destruct (int_str_head z) as (c & r & Hz & Hc). exists c, r. split; [exact Hz|].
  exact (digit_char_class c Hc).
Qed.

Lemma skip_ws_dumps v t : json_plain v = true -> skip_ws (json_dumps v ++ t) = json_dumps v ++ t.
Proof. intros Hp. destruct (dumps_head v Hp) as (c & r & -> & Hw & _). cbn. now rewrite Hw. Qed.

Lemma dict_set_fresh (d : dict) k v : dict_has d k = false -> dict_set d k v = (d ++ [(k, v)])%list.
Proof.
  induction d as [|[k' v'] d IH]; [reflexivity|]. unfold dict_has; cbn.
  destruct (String.eqb k k'); [discriminate|]. intros H. now rewrite IH.
Qed.

Lemma dict_has_app (d e : dict) k : dict_has (d ++ e)%list k = dict_has d k || dict_has e k.
Proof.
  induction d as [|[k' v'] d IH]; [reflexivity|]. unfold dict_has in *; cbn.
  destruct (String.eqb k k'); [reflexivity|exact IH].
Qed.

Lemma fold_dict_set_distinct (acc d : dict) :
  keys_distinct d = true -> (forall k, dict_has d k = true -> dict_has acc k = false) ->
  fold_left (fun d0 kv => dict_set d0 (fst kv) (snd kv)) d acc = (acc ++ d)%list.
Proof.
  revert acc. induction d as [|[k v] d IH]; intros acc Hd Hfresh; [now rewrite app_nil_r|].
  cbn in Hd |- *. apply andb_prop in Hd as [Hk Hd].
  assert (Hacc : dict_has acc k = false)
    by (apply Hfresh; unfold dict_has; cbn; now rewrite String.eqb_refl).
  rewrite dict_set_fresh by exact Hacc. rewrite IH; [now rewrite <- app_assoc|exact Hd|].
  intros k' Hk'. rewrite dict_has_app, Hfresh; cbn.
  - unfold dict_has; cbn. destruct (String.eqb_spec k' k) as [->|]; [|reflexivity].
    apply negb_true_iff in Hk. congruence.
  - unfold dict_has in *; cbn. destruct (String.eqb k' k); [reflexivity|exact Hk'].
Qed.

Lemma dict_of_pairs_distinct d : keys_distinct d = true -> dict_of_pairs d = d.
Proof. intros Hd. unfold dict_of_pairs. rewrite fold_dict_set_distinct; auto. Qed.

(** *** White space and separators *)

Lemma append_empty_str s : s ++ "" = s.
Proof. induction s; cbn; congruence. Qed.

Lemma skip_ws_comma t : skip_ws (", " ++ t) = String "," (String " " t).
Proof. reflexivity. Qed.

Lemma skip_ws_space t : skip_ws (String " " t) = skip_ws t.
Proof. reflexivity. Qed.

Lemma skip_ws_colon t : skip_ws (": " ++ t) = String ":" (" " ++ t).
Proof. reflexivity. Qed.

Lemma skip_ws_nonws c t : is_json_ws c = false -> skip_ws (String c t) = String c t.
Proof. intros H. cbn. now rewrite H. Qed.

Lemma join_head y l : exists t, py_join ", " (map json_dumps (y :: l)) = json_dumps y ++ t.
Proof. destruct l; [exists ""; now rewrite append_empty_str|eexists; reflexivity]. Qed.

Lemma join_cons_cons (f : string * pyval -> string) a b l :
  py_join ", " (map f (a :: b :: l)) = f a ++ ", " ++ py_join ", " (map f (b :: l)).
Proof. reflexivity. Qed.

Lemma join_bound {A} (w : A -> nat) (txt : A -> string) l :
  Forall (fun a => (w a <= String.length (txt a))%nat) l ->
  (list_sum (map (fun a => S (w a)) l) <= S (String.length (py_join ", " (map txt l))))%nat.
Proof.
  induction 1 as [|a l Ha Hl IH]; cbn [map list_sum fold_right]; [lia|].
  destruct l as [|b l]; cbn [map py_join list_sum fold_right] in *; [lia|].
  rewrite !length_append. cbn [String.length]. lia.
Qed.

(** *** The scanner on the encoder's text

    Each lemma takes the induction hypothesis of the nested values as a
    [Forall] and reads the items of one array or object back. *)
Lemma scan_items_dumps l :
  Forall (fun x => json_plain x = true -> forall f rest, (json_size x <= f)%nat -> stops rest ->
                   scan_value f (json_dumps x ++ rest) = Some (x, rest)) l ->
  forallb json_plain l = true -> l <> [] ->
  forall f rest, (list_sum (map (fun x => S (json_size x)) l) <= f)%nat -> stops rest ->
  scan_items f (py_join ", " (map json_dumps l) ++ "]" ++ rest) = Some (l, rest).
Proof.
  induction 1 as [|x l Hx Hl IH]; intros Hp Hne f rest Hf Hr; [congruence|].
  cbn in Hp. apply andb_prop in Hp as [Hpx Hpl]. cbn [map list_sum fold_right] in Hf.
  destruct f as [|f]; [lia|]. cbn [scan_items].
  destruct l as [|y l']; cbn [map list_sum fold_right] in Hf.
  - cbn [map py_join]. rewrite (Hx Hpx f ("]" ++ rest)); [reflexivity|lia|cbn; auto].
  - change (py_join ", " (map json_dumps (x :: y :: l')))
      with (json_dumps x ++ ", " ++ py_join ", " (map json_dumps (y :: l'))).
    rewrite !append_assoc_str.
    rewrite (Hx Hpx f _); [|lia|cbn; auto].
    rewrite skip_ws_comma. cbv iota beta.
    change (("," =? "]")%char) with false. change (("," =? ",")%char) with true. cbv iota beta.
    rewrite skip_ws_space.
    assert (Hpy : json_plain y = true) by (cbn in Hpl; apply andb_prop in Hpl; tauto).
    destruct (join_head y l') as [t Ht]. rewrite Ht, !append_assoc_str, skip_ws_dumps by exact Hpy.
    rewrite <- !append_assoc_str, <- Ht, !append_assoc_str, IH; [reflexivity|exact Hpl|discriminate|cbn [map list_sum fold_right]; lia|exact Hr].
Qed.


Lemma scan_pairs_dumps d :
  Forall (fun kv => json_plain (snd kv) = true -> forall f rest, (json_size (snd kv) <= f)%nat -> stops rest ->
                    scan_value f (json_dumps (snd kv) ++ rest) = Some (snd kv, rest)) d ->
  forallb (fun kv => json_plain (snd kv)) d = true -> d <> [] ->
  forall f rest, (list_sum (map (fun kv => S (json_size (snd kv))) d) <= f)%nat -> stops rest ->
  exists t, py_join ", " (map pair_text d) ++ "}" ++ rest = String dq t /\ scan_pairs f t = Some (d, rest).
Proof.
  induction 1 as [|[k x] d Hx Hd IH]; intros Hp Hne f rest Hf Hr; [congruence|].
  cbn in Hp. apply andb_prop in Hp as [Hpx Hpd]. cbn [map list_sum fold_right snd] in Hf, Hx.
  destruct f as [|f]; [lia|].
  destruct d as [|y d']; cbn [map list_sum fold_right] in Hf.
  - exists (escape k ++ String dq (": " ++ json_dumps x ++ "}" ++ rest)). split.
    + unfold pair_text, json_string. cbn [fst snd py_join map append]. now rewrite !append_assoc_str.
    + cbn [scan_pairs]. rewrite scanstring_escape, skip_ws_colon. cbv iota beta.
      change (negb (":" =? ":")%char) with false. cbv iota beta.
      cbn [append]. rewrite skip_ws_space, skip_ws_dumps by exact Hpx.
      rewrite (Hx Hpx f _); [reflexivity|..]; first [lia|cbn; auto].
  - destruct (IH Hpd ltac:(discriminate) f rest) as (t & Ht & Hs); [cbn [map list_sum fold_right]; lia|exact Hr|].
    exists (escape k ++ String dq (": " ++ json_dumps x ++ ", " ++ String dq t)). split.
    + rewrite join_cons_cons, !append_assoc_str, Ht. unfold pair_text, json_string.
      cbn [fst snd append]. now rewrite !append_assoc_str.
    + cbn [scan_pairs]. rewrite scanstring_escape, skip_ws_colon. cbv iota beta.
      change (negb (":" =? ":")%char) with false. cbv iota beta.
      cbn [append]. rewrite skip_ws_space, skip_ws_dumps by exact Hpx.
      rewrite (Hx Hpx f _); [|first [lia|cbn; auto]..].
      rewrite skip_ws_nonws by reflexivity. cbv iota beta.
      change (("," =? "}")%char) with false. change (("," =? ",")%char) with true. cbv iota beta.
      rewrite skip_ws_space. cbn [skip_ws]. change (is_json_ws dq) with false. cbv iota beta.
      change ((dq =? dq)%char) with true. cbv iota beta. now rewrite Hs.
Qed.

Lemma scan_value_string f t :
  scan_value (S f) (String dq t) = match scanstring t with Some (s, r) => Some (PStr s, r) | None => None end.
Proof. reflexivity. Qed.

Lemma scan_value_list f t : scan_value (S f) (String "[" t) =
  match skip_ws t with
  | String x r' => if Ascii.eqb x "]" then Some (PList [], r')
                   else match scan_items f (String x r') with Some (l, r'') => Some (PList l, r'') | None => None end
  | EmptyString => None
  end.
Proof. reflexivity. Qed.

Lemma scan_value_dict f t : scan_value (S f) (String "{" t) =
  match skip_ws t with
  | String x r' => if Ascii.eqb x "}" then Some (PDict [], r')
                   else if Ascii.eqb x dq then
                     match scan_pairs f r' with Some (ps, r'') => Some (PDict (dict_of_pairs ps), r'') | None => None end
                   else None
  | EmptyString => None
  end.
Proof. reflexivity. Qed.

(** The scanner reads back, with enough fuel, every plain value from
    the text [json_dumps] writes for it, and stops where the text ends. *)
Lemma scan_value_dumps v : json_plain v = true ->
  forall f rest, (json_size v <= f)%nat -> stops rest -> scan_value f (json_dumps v ++ rest) = Some (v, rest).
Proof.
  induction v as [| b | z | x | s | l IH | d IH] using pyval_nested_ind;
    intros Hp f rest Hf Hr; destruct f as [|f]; cbn [json_size] in Hf; try lia.
  - destruct rest; reflexivity.
  - destruct b, rest; reflexivity.
  - destruct (int_str_head z) as (c & r & Hz & Hc). cbn [json_dumps]. rewrite Hz.
    apply (scan_value_number f c (r ++ rest)); [exact Hc|]. change (String c (r ++ rest)) with (String c r ++ rest).
    rewrite <- Hz. now apply scan_number_int.
  - discriminate Hp.
  - cbn [json_dumps json_string append]. rewrite append_assoc_str. cbn [append].
    now rewrite scan_value_string, scanstring_escape.
  - destruct l as [|y l']; [reflexivity|].
    cbn [json_dumps append]. rewrite scan_value_list.
    destruct (join_head y l') as [t Ht]. rewrite append_assoc_str, Ht, append_assoc_str.
    assert (Hpy : json_plain y = true) by (cbn in Hp; apply andb_prop in Hp; tauto).
    destruct (dumps_head y Hpy) as (c & r & Hy & Hw & Hc & _). rewrite Hy. cbn [append].
    rewrite skip_ws_nonws by exact Hw. rewrite Hc.
    replace (String c (r ++ t ++ String "]" rest)) with ((json_dumps y ++ t) ++ "]" ++ rest)
      by (rewrite Hy; cbn; now rewrite append_assoc_str).
    rewrite <- Ht, (scan_items_dumps (y :: l')); [reflexivity|exact IH|exact Hp|discriminate|lia|exact Hr].
  - destruct d as [|kv d']; [reflexivity|].
    cbn [json_plain] in Hp. apply andb_prop in Hp as [Hk Hp].
    destruct (scan_pairs_dumps (kv :: d') IH Hp ltac:(discriminate) f rest) as (t & Ht & Hs);
      [cbn [map list_sum fold_right] in Hf |- *; lia|exact Hr|].
    replace (json_dumps (PDict (kv :: d')) ++ rest)
      with (String "{" (py_join ", " (map pair_text (kv :: d')) ++ "}" ++ rest))
      by (cbn [json_dumps append]; now rewrite append_assoc_str).
    rewrite scan_value_dict, Ht. cbn [skip_ws]. change (is_json_ws dq) with false. cbv iota beta.
    change ((dq =? "}")%char) with false. change ((dq =? dq)%char) with true. cbv iota beta.
    rewrite Hs. now rewrite dict_of_pairs_distinct by exact Hk.
Qed.
Lemma json_size_le_length v : json_plain v = true -> (json_size v <= String.length (json_dumps v))%nat.
Proof.
  induction v as [| b | z | x | s | l IH | d IH] using pyval_nested_ind; intros Hp; cbn [json_size].
  - cbn; lia.
  - destruct b; cbn; lia.
  - cbn [json_dumps]. pose proof (length_int_str_pos z). lia.
  - discriminate Hp.
  - cbn [json_dumps json_string String.length]. lia.
  - cbn [json_dumps]. rewrite !length_append. cbn [String.length].
    cbn [json_plain] in Hp. pose proof (proj1 (forallb_forall _ _) Hp) as Hq; clear Hp; rename Hq into Hp.
    enough (list_sum (map (fun x => S (json_size x)) l) <= S (String.length (py_join ", " (map json_dumps l))))%nat
      by lia.
    apply join_bound. rewrite Forall_forall in IH |- *. intros x Hx. apply IH; auto.
  - cbn [json_dumps]. rewrite !length_append. cbn [String.length].
    cbn [json_plain] in Hp. apply andb_prop in Hp as [_ Hp]. pose proof (proj1 (forallb_forall _ _) Hp) as Hq; clear Hp; rename Hq into Hp.
    enough (list_sum (map (fun kv => S (json_size (snd kv))) d)
            <= S (String.length (py_join ", " (map pair_text d))))%nat by (unfold pair_text in *; lia).
    apply join_bound. rewrite Forall_forall in IH |- *. intros kv Hkv.
    unfold pair_text, json_string. rewrite !length_append. cbn [String.length].
    specialize (IH kv Hkv (Hp kv Hkv)). lia.
Qed.

(** [json.loads(json.dumps(v)) == v] for every plain value (no float,
    distinct keys): the decoder, run with one more step of fuel than the
    text has characters, reads back the value the encoder wrote, and
    nothing but white space follows it. *)
Lemma loads_dumps v : json_plain v = true -> json_loads (json_dumps v) = Some v.
Proof.
  intros Hp. unfold json_loads. rewrite <- (append_empty_str (json_dumps v)) at 2.
  rewrite skip_ws_dumps, scan_value_dumps by (exact Hp || exact I || (pose proof (json_size_le_length v Hp); lia)).
  reflexivity.
Qed.

