(* ===== verification/Protocol.v ===== *)
(** * The message protocol of [protocols/escrow_protocol.py]

    The envelope catalog [EscrowMessageTypes], the envelope constructors
    [create_*_message], the readers [parse_message_type] and
    [parse_message_data], [validate_message] and the constants of
    [EscrowProtocolConstants].  An envelope is a Python [dict]
    ([Models.dict]); the clock reading [datetime.now(timezone.utc)]
    ([isoformat()] as [ts], [int(timestamp())] as [now]) and
    [str(uuid4())] ([mid]) are arguments of each constructor. *)

From Stdlib Require Import String Ascii ZArith List Bool Lia.
From S2P Require Import Prelude PyFloat Models.
Import ListNotations.

Local Open Scope string_scope.

Module EscrowMessageTypes.

Inductive MessageType : Type :=
| CREATE_ESCROW | ESCROW_CREATED | DEPOSIT_REQUEST | DEPOSIT_CONFIRMED
| FULFILLMENT_REQUEST | FULFILLMENT_CONFIRMED | RELEASE_REQUEST | REFUND_REQUEST
| DISPUTE_RAISED | DISPUTE_RESOLVED | STATUS_UPDATE | ORACLE_VERIFICATION
| ORACLE_RESPONSE | HEARTBEAT | ERROR | SUCCESS.

(** The class attribute's string. *)
Definition value (t : MessageType) : string :=
  match t with
  | CREATE_ESCROW => "create_escrow"
  | ESCROW_CREATED => "escrow_created"
  | DEPOSIT_REQUEST => "deposit_request"
  | DEPOSIT_CONFIRMED => "deposit_confirmed"
  | FULFILLMENT_REQUEST => "fulfillment_request"
  | FULFILLMENT_CONFIRMED => "fulfillment_confirmed"
  | RELEASE_REQUEST => "release_request"
  | REFUND_REQUEST => "refund_request"
  | DISPUTE_RAISED => "dispute_raised"
  | DISPUTE_RESOLVED => "dispute_resolved"
  | STATUS_UPDATE => "status_update"
  | ORACLE_VERIFICATION => "oracle_verification"
  | ORACLE_RESPONSE => "oracle_response"
  | HEARTBEAT => "heartbeat"
  | ERROR => "error"
  | SUCCESS => "success"
  end.

End EscrowMessageTypes.

Module EscrowProtocol.
Import EscrowMessageTypes.

(** The four keys every constructor writes, in the order of the
    literals. *)
Definition envelope (type_ : string) (ts mid : string) (data : pyval) : dict :=
  [("type", PStr type_); ("timestamp", PStr ts); ("msg_id", PStr mid); ("data", data)].

Definition create_escrow_message (ts mid : string) (escrow_data : dict) : dict :=
  envelope (value CREATE_ESCROW) ts mid (PDict escrow_data).

Definition create_deposit_message (ts mid : string) (escrow_id : string) (asset_data : dict)
  (transaction_hash : string) : dict :=
  envelope (value DEPOSIT_REQUEST) ts mid
    (PDict [("escrow_id", PStr escrow_id); ("asset_data", PDict asset_data);
            ("transaction_hash", PStr transaction_hash)]).

Definition create_fulfillment_message (ts mid : string) (escrow_id : string) (fulfillment_data : dict) : dict :=
  envelope (value FULFILLMENT_REQUEST) ts mid
    (PDict [("escrow_id", PStr escrow_id); ("fulfillment_data", PDict fulfillment_data)]).

Definition create_dispute_message (ts mid : string) (escrow_id : string) (dispute_data : dict) : dict :=
  envelope (value DISPUTE_RAISED) ts mid
    (PDict [("escrow_id", PStr escrow_id); ("dispute_data", PDict dispute_data)]).

Definition create_oracle_verification_message (ts mid : string) (escrow_id : string)
  (transaction_data : dict) : dict :=
  envelope (value ORACLE_VERIFICATION) ts mid
    (PDict [("escrow_id", PStr escrow_id); ("transaction_data", PDict transaction_data)]).

Definition create_status_update_message (ts mid : string) (escrow_id old_status new_status reason : string) : dict :=
  envelope (value STATUS_UPDATE) ts mid
    (PDict [("escrow_id", PStr escrow_id); ("old_status", PStr old_status);
            ("new_status", PStr new_status); ("reason", PStr reason)]).

(** [details: str = None]. *)
Definition create_error_message (ts mid : string) (error : string) (details : option string) : dict :=
  envelope (value ERROR) ts mid
    (PDict [("error", PStr error);
            ("details", match details with Some d => PStr d | None => PNone end)]).

(** [data or {}]: [None] and the empty dict both give a fresh [{}]. *)
Definition create_success_message (ts mid : string) (message : string) (data : option dict) : dict :=
  envelope (value SUCCESS) ts mid
    (PDict [("message", PStr message);
            ("data", PDict match data with Some ((_ :: _) as d) => d | _ => [] end)]).

(** [status: str = "active"]; [now] is the second clock reading
    [int(datetime.now(timezone.utc).timestamp())]. *)
Definition create_heartbeat_message (ts mid : string) (now : Z) (agent_type status : string) : dict :=
  envelope (value HEARTBEAT) ts mid
    (PDict [("agent_type", PStr agent_type); ("status", PStr status); ("uptime", PInt now)]).

Definition create_acknowledgement_message (ts mid : string) (original_msg_id : string) : dict :=
  envelope "acknowledgement" ts mid (PDict [("acknowledged_msg_id", PStr original_msg_id)]).

Definition create_response_message (ts mid : string) (original_msg_id response_type : string)
  (response_data : dict) : dict :=
  envelope response_type ts mid
    (PDict [("original_msg_id", PStr original_msg_id); ("response_data", PDict response_data)]).

(** [message.get("type", "unknown")] and [message.get("data", {})]. *)
Definition parse_message_type (message : dict) : pyval :=
  dict_get_default message "type" (PStr "unknown").

Definition parse_message_data (message : dict) : pyval :=
  dict_get_default message "data" (PDict []).

Definition required_fields : list string := ["type"; "timestamp"; "msg_id"; "data"].

Definition validate_message (message : dict) : bool :=
  forallb (dict_has message) required_fields.

End EscrowProtocol.

Module EscrowProtocolConstants.
Import EscrowMessageTypes.

Definition PROTOCOL_VERSION : string := "1.0.0".

Definition SUPPORTED_MESSAGE_TYPES : list string :=
  map value
    [CREATE_ESCROW; ESCROW_CREATED; DEPOSIT_REQUEST; DEPOSIT_CONFIRMED;
     FULFILLMENT_REQUEST; FULFILLMENT_CONFIRMED; RELEASE_REQUEST; REFUND_REQUEST;
     DISPUTE_RAISED; DISPUTE_RESOLVED; STATUS_UPDATE; ORACLE_VERIFICATION;
     ORACLE_RESPONSE; HEARTBEAT; ERROR; SUCCESS].

Definition MESSAGE_TIMEOUT : Z := 30.
Definition HEARTBEAT_INTERVAL : Z := 60.
Definition DISPUTE_TIMEOUT : Z := 86400.
Definition MAX_RETRIES : Z := 3.
Definition RETRY_DELAY : Z := 5.

End EscrowProtocolConstants.

(** ** The protocol handlers

    [@escrow_protocol.on_message(t)] registers a handler for seven of the
    sixteen catalog types.  Each handler writes one line naming the
    sender to the agent's log ([ctx.logger.info]) and sends nothing;
    the comment in each says the work "would be in the specific agent".
    A message of another type finds no handler ([None]). *)

Module Handlers.
Import EscrowMessageTypes.

(** The text each handler logs before the sender. *)
Definition log_prefix (t : MessageType) : option string :=
  match t with
  | CREATE_ESCROW => Some "Received escrow creation request from "
  | DEPOSIT_REQUEST => Some "Received deposit request from "
  | FULFILLMENT_REQUEST => Some "Received fulfillment request from "
  | DISPUTE_RAISED => Some "Received dispute from "
  | ORACLE_VERIFICATION => Some "Received oracle verification request from "
  | STATUS_UPDATE => Some "Received status update from "
  | HEARTBEAT => Some "Received heartbeat from "
  | _ => None
  end.

(** The handler of a message of type [t] from [sender]: the log after
    it and the messages it sends. *)
Definition handle_message (t : MessageType) (sender : string) (msg : dict) (log : list string)
    : option (list string * list dict) :=
  match log_prefix t with
  | Some prefix => Some ((log ++ [(prefix ++ sender)%string])%list, [])
  | None => None
  end.

Definition all_types : list MessageType :=
  [CREATE_ESCROW; ESCROW_CREATED; DEPOSIT_REQUEST; DEPOSIT_CONFIRMED;
   FULFILLMENT_REQUEST; FULFILLMENT_CONFIRMED; RELEASE_REQUEST; REFUND_REQUEST;
   DISPUTE_RAISED; DISPUTE_RESOLVED; STATUS_UPDATE; ORACLE_VERIFICATION;
   ORACLE_RESPONSE; HEARTBEAT; ERROR; SUCCESS].

Definition handled (t : MessageType) : bool :=
  match log_prefix t with Some _ => true | None => false end.

End Handlers.

(** ** The constructors as one operation

    A call of one of the nine constructors of a catalog envelope, with
    its arguments, and the catalog type its docstring names. *)

Module Envelopes.
Import EscrowMessageTypes EscrowProtocol EscrowProtocolConstants.

Inductive Outgoing : Type :=
| OCreate (escrow_data : dict)
| ODeposit (escrow_id : string) (asset_data : dict) (transaction_hash : string)
| OFulfillment (escrow_id : string) (fulfillment_data : dict)
| ODispute (escrow_id : string) (dispute_data : dict)
| OOracleVerification (escrow_id : string) (transaction_data : dict)
| OStatusUpdate (escrow_id old_status new_status reason : string)
| OError (error : string) (details : option string)
| OSuccess (message : string) (data : option dict)
| OHeartbeat (now : Z) (agent_type status : string).

Definition build (ts mid : string) (o : Outgoing) : dict :=
  match o with
  | OCreate d => create_escrow_message ts mid d
  | ODeposit i a h => create_deposit_message ts mid i a h
  | OFulfillment i d => create_fulfillment_message ts mid i d
  | ODispute i d => create_dispute_message ts mid i d
  | OOracleVerification i d => create_oracle_verification_message ts mid i d
  | OStatusUpdate i o n r => create_status_update_message ts mid i o n r
  | OError e d => create_error_message ts mid e d
  | OSuccess m d => create_success_message ts mid m d
  | OHeartbeat now a s => create_heartbeat_message ts mid now a s
  end.

Definition out_type (o : Outgoing) : MessageType :=
  match o with
  | OCreate _ => CREATE_ESCROW
  | ODeposit _ _ _ => DEPOSIT_REQUEST
  | OFulfillment _ _ => FULFILLMENT_REQUEST
  | ODispute _ _ => DISPUTE_RAISED
  | OOracleVerification _ _ => ORACLE_VERIFICATION
  | OStatusUpdate _ _ _ _ => STATUS_UPDATE
  | OError _ _ => ERROR
  | OSuccess _ _ => SUCCESS
  | OHeartbeat _ _ _ => HEARTBEAT
  end.

(** ** Lemmas *)

Lemma envelope_fields ty ts mid data :
  validate_message (envelope ty ts mid data) = true /\
  parse_message_type (envelope ty ts mid data) = PStr ty /\
  parse_message_data (envelope ty ts mid data) = data.
Proof. repeat split. Qed.

Lemma value_supported t : In (value t) SUPPORTED_MESSAGE_TYPES.
Proof. destruct t; cbn; tauto. Qed.

Lemma value_injective t u : value t = value u -> t = u.
Proof. destruct t, u; cbn; congruence. Qed.

(** ** Properties *)

(** C17: Every envelope built by the constructors of the catalog is
    well-formed for [validate_message], and reading it back gives the
    type its constructor is for, a member of [SUPPORTED_MESSAGE_TYPES],
    and the payload it was built with. *)
Theorem build_roundtrip ts mid o :
  validate_message (build ts mid o) = true /\
  parse_message_type (build ts mid o) = PStr (value (out_type o)) /\
  In (value (out_type o)) SUPPORTED_MESSAGE_TYPES /\
  exists data, build ts mid o = envelope (value (out_type o)) ts mid data /\
               parse_message_data (build ts mid o) = data.
Proof.
  split; [|split; [|split; [apply value_supported|]]];
    destruct o; try reflexivity; eexists; split; reflexivity.
Qed.

(** [SUPPORTED_MESSAGE_TYPES] is the catalog: sixteen distinct
    strings, exactly the values of the [EscrowMessageTypes] attributes,
    and a string names at most one attribute. *)
Theorem supported_message_types_catalog :
  NoDup SUPPORTED_MESSAGE_TYPES /\ length SUPPORTED_MESSAGE_TYPES = 16%nat /\
  (forall s, In s SUPPORTED_MESSAGE_TYPES <-> exists t, value t = s) /\
  (forall t u, value t = value u -> t = u).
Proof.
  split; [|split; [reflexivity|split; [|exact value_injective]]].
  - repeat constructor; cbn; intuition discriminate.
  - intros s. split; [|intros [t <-]; apply value_supported].
    unfold SUPPORTED_MESSAGE_TYPES. rewrite in_map_iff. intros [t [H _]]. eauto.
Qed.

(** C26: The acknowledgement of a message is a well-formed envelope of
    type ["acknowledgement"] whose payload is exactly the original
    [msg_id]; that type is not among [SUPPORTED_MESSAGE_TYPES]. *)
Theorem acknowledgement_references_original ts mid original :
  validate_message (create_acknowledgement_message ts mid original) = true /\
  parse_message_type (create_acknowledgement_message ts mid original) = PStr "acknowledgement" /\
  parse_message_data (create_acknowledgement_message ts mid original) =
    PDict [("acknowledged_msg_id", PStr original)] /\
  ~ In "acknowledgement" SUPPORTED_MESSAGE_TYPES.
Proof.
  unfold create_acknowledgement_message. repeat split.
  cbn. intuition discriminate.
Qed.

End Envelopes.

