(* ===== verification/Content.v ===== *)
(** * Message content helpers of [shared/utils.py]

    The constructors of content items ([create_text_content],
    [create_metadata_content], [create_escrow_content],
    [create_dispute_content]), the extractors that scan a content list
    ([extract_*]), the flat status dictionaries ([create_error_message],
    [create_success_message], [create_status_update],
    [create_heartbeat_message], [create_agent_capabilities]) and
    [create_agent_message].  They live in [Module Utils]: [utils.py]
    reuses names of [protocols/escrow_protocol.py] for dictionaries of
    another shape, and the theorems compare the two.  Clock readings
    ([int(time.time())], [isoformat()]) and generated ids are
    arguments. *)

From Stdlib Require Import String Ascii ZArith List Bool Lia.
From S2P Require Import Prelude PyFloat Models Json Protocol.
Import ListNotations.

Local Open Scope string_scope.

Module Utils.

(** [Optional[str]] and [Optional[int]] as Python values. *)
Definition opt_str (o : option string) : pyval := match o with Some s => PStr s | None => PNone end.
Definition opt_int (o : option Z) : pyval := match o with Some z => PInt z | None => PNone end.

Definition create_agent_message (ts mid : string) (content : list dict)
  (sender recipient : option string) : AgentMessage.AgentMessage :=
  AgentMessage.mk ts mid content sender recipient.

Definition create_text_content (text : string) : dict :=
  [("type", PStr "text"); ("text", PStr text)].

Definition create_metadata_content (metadata : dict) : dict :=
  [("type", PStr "metadata"); ("metadata", PDict metadata)].

Definition create_escrow_content (e : EscrowData.EscrowData) : dict :=
  [("type", PStr "escrow_data");
   ("escrow_data", PDict
     [("escrow_id", PStr (EscrowData.escrow_id e));
      ("contract_address", opt_str (EscrowData.contract_address e));
      ("status", PInt (EscrowState_value (EscrowData.status e)));
      ("trade_type", PStr (TradeType_value (EscrowData.trade_type e)));
      ("buyer_address", PStr (EscrowData.buyer_address e));
      ("seller_address", PStr (EscrowData.seller_address e));
      ("arbiter_address", PStr (EscrowData.arbiter_address e));
      ("created_at", PInt (EscrowData.created_at e));
      ("updated_at", PInt (EscrowData.updated_at e))])].

Definition create_dispute_content (r : DisputeRecord.DisputeRecord) : dict :=
  [("type", PStr "dispute_data");
   ("dispute_data", PDict
     [("dispute_id", PStr (DisputeRecord.dispute_id r));
      ("escrow_id", PStr (DisputeRecord.escrow_id r));
      ("disputing_party", PStr (DisputeRecord.disputing_party r));
      ("reason", PStr (DisputeRecord.reason r));
      ("status", PStr (DisputeRecord.status r));
      ("arbiter_address", PStr (DisputeRecord.arbiter_address r));
      ("created_at", PInt (DisputeRecord.created_at r));
      ("resolved_at", opt_int (DisputeRecord.resolved_at r));
      ("decision", opt_str (DisputeRecord.decision r));
      ("arbiter_reasoning", opt_str (DisputeRecord.arbiter_reasoning r))])].

(** [item.get("type") == ty]: only a [str] equal to [ty] compares
    equal. *)
Definition type_is (item : dict) (ty : string) : bool :=
  match dict_get item "type" with Some (PStr s) => String.eqb s ty | _ => false end.

(** The loop shared by [extract_escrow_data], [extract_dispute_data]
    and [extract_metadata]: the first item of type [ty] answers
    [item.get(key, dflt)]; without one the result is [none]. *)
Fixpoint first_typed (ty key : string) (dflt none : pyval) (content : list dict) : pyval :=
  match content with
  | [] => none
  | item :: rest =>
      if type_is item ty then dict_get_default item key dflt
      else first_typed ty key dflt none rest
  end.

Definition extract_escrow_data (content : list dict) : pyval :=
  first_typed "escrow_data" "escrow_data" PNone PNone content.

Definition extract_dispute_data (content : list dict) : pyval :=
  first_typed "dispute_data" "dispute_data" PNone PNone content.

Definition extract_metadata (content : list dict) : pyval :=
  first_typed "metadata" "metadata" (PDict []) (PDict []) content.

Fixpoint extract_text_content (content : list dict) : list pyval :=
  match content with
  | [] => []
  | item :: rest =>
      if type_is item "text" then dict_get_default item "text" (PStr "") :: extract_text_content rest
      else extract_text_content rest
  end.

(** [if details:] and [if data:] test truthiness: the empty string and
    the empty dict are left out like [None]. *)
Definition create_error_message (error : string) (details : option string) : dict :=
  let error_data := [("type", PStr "error"); ("error", PStr error)] in
  match details with
  | Some (String _ _ as d) => dict_set error_data "details" (PStr d)
  | _ => error_data
  end.

Definition create_success_message (message : string) (data : option dict) : dict :=
  let success_data := [("type", PStr "success"); ("message", PStr message)] in
  match data with
  | Some ((_ :: _) as d) => dict_set success_data "data" (PDict d)
  | _ => success_data
  end.

Definition create_status_update (now : Z) (escrow_id old_status new_status reason : string) : dict :=
  [("type", PStr "status_update"); ("escrow_id", PStr escrow_id);
   ("old_status", PStr old_status); ("new_status", PStr new_status);
   ("reason", PStr reason); ("timestamp", PInt now)].

Definition create_agent_capabilities (now : Z) (agent_type : string)
  (supported_chains supported_assets : list string) : dict :=
  [("agent_type", PStr agent_type);
   ("supported_chains", PList (map PStr supported_chains));
   ("supported_assets", PList (map PStr supported_assets));
   ("version", PStr "1.0.0");
   ("capabilities", PList (map PStr ["escrow_management"; "dispute_resolution";
                                     "transaction_verification"; "multi_chain_support"]));
   ("last_updated", PInt now)].

(** [now] and [now'] are the two readings of [int(time.time())]. *)
Definition create_heartbeat_message (now now' : Z) (agent_type status : string) : dict :=
  [("type", PStr "heartbeat"); ("agent_type", PStr agent_type); ("status", PStr status);
   ("timestamp", PInt now); ("uptime", PInt now')].

(** [AgentMessage(...)] as Python builds it in [parse_agent_message]:
    the dataclass checks no field type, so each field holds whatever
    value the dictionary gave. *)
Record ParsedAgentMessage : Type := mkParsed {
  p_timestamp : pyval;
  p_msg_id : pyval;
  p_content : pyval;
  p_sender : pyval;
  p_recipient : pyval
}.

(** [parse_agent_message(message)]: [message.get(k, default)] for each
    field.  On a value that is not a [dict], [.get] raises
    [AttributeError], which [except (KeyError, TypeError)] does not
    catch; it escapes as [Err] with its message. *)
Definition parse_agent_message (message : pyval) : result (option ParsedAgentMessage) string :=
  match message with
  | PDict d =>
      Ok (Some (mkParsed (dict_get_default d "timestamp" (PStr ""))
                         (dict_get_default d "msg_id" (PStr ""))
                         (dict_get_default d "content" (PList []))
                         (dict_get_default d "sender" PNone)
                         (dict_get_default d "recipient" PNone)))
  | v => Err ("'" ++ type_name v ++ "' object has no attribute 'get'")
  end.

(** The dictionary [log_agent_activity] writes; [now] is the reading of
    [datetime.now(timezone.utc).isoformat()].  [details or {}] turns
    [None] and the empty dict alike into [{}]. *)
Definition log_data (now agent_type action : string) (details : option dict) : dict :=
  [("timestamp", PStr now); ("agent_type", PStr agent_type); ("action", PStr action);
   ("details", PDict (match details with Some ((_ :: _) as d) => d | _ => [] end))].

(** [log_agent_activity(agent_type, action, details)]: the line it
    prints, [AGENT_ACTIVITY: ] and the [json.dumps] text of the record. *)
Definition log_agent_activity (now agent_type action : string) (details : option dict) : string :=
  "AGENT_ACTIVITY: " ++ json_dumps (PDict (log_data now agent_type action details)).

End Utils.

(** ** Lemmas *)

Section Scan.
Import Utils.

Lemma first_typed_skip ty key dflt none pre rest :
  forallb (fun i => negb (type_is i ty)) pre = true ->
  first_typed ty key dflt none (pre ++ rest)%list = first_typed ty key dflt none rest.
Proof.
  induction pre as [|i pre IH]; cbn; [reflexivity|].
  destruct (type_is i ty); cbn; [discriminate|exact IH].
Qed.

Lemma type_is_own ty k : type_is (("type", PStr ty) :: k) ty = true.
Proof. unfold type_is. cbn. apply String.eqb_refl. Qed.

End Scan.

(** ** Properties *)

Module ContentProps.
Import Utils EscrowProtocol.

(** C23: An escrow put in a content list by [create_escrow_content] is
    found by [extract_escrow_data] behind any items of other types, and
    its id, status and trade type read back: the stored [.value]s decode
    with [EscrowState(...)] and [TradeType(...)] to the escrow's own. *)
Theorem escrow_content_roundtrip pre e rest :
  forallb (fun i => negb (type_is i "escrow_data")) pre = true ->
  exists d, extract_escrow_data (pre ++ create_escrow_content e :: rest)%list = PDict d /\
    dict_get d "escrow_id" = Some (PStr (EscrowData.escrow_id e)) /\
    (match dict_get d "status" with Some (PInt v) => EscrowState_of_value v | _ => None end)
      = Some (EscrowData.status e) /\
    (match dict_get d "trade_type" with Some (PStr v) => TradeType_of_value v | _ => None end)
      = Some (EscrowData.trade_type e).
Proof.
  intros Hpre. unfold extract_escrow_data. rewrite first_typed_skip by exact Hpre.
  cbn [first_typed]. unfold create_escrow_content at 1. rewrite type_is_own. eexists. split; [reflexivity|].
  split; [reflexivity|]. split; cbn.
  - apply EscrowState_value_roundtrip.
  - apply TradeType_value_roundtrip.
Qed.

Lemma escrow_content_roundtrip_witness :
  forallb (fun i => negb (type_is i "escrow_data")) [create_text_content "hello"] = true /\
  exists d, extract_escrow_data ([create_text_content "hello"] ++
      create_escrow_content (EscrowData.default "escrow_1700000000_ab12cd34") :: [])%list = PDict d /\
    dict_get d "escrow_id" = Some (PStr "escrow_1700000000_ab12cd34") /\
    (match dict_get d "status" with Some (PInt v) => EscrowState_of_value v | _ => None end)
      = Some AWAITING_DEPOSIT /\
    (match dict_get d "trade_type" with Some (PStr v) => TradeType_of_value v | _ => None end)
      = Some CRYPTO.
Proof.
  split; [reflexivity|].
  exact (escrow_content_roundtrip [create_text_content "hello"]
           (EscrowData.default "escrow_1700000000_ab12cd34") [] eq_refl).
Defined.

(** [extract_text_content] returns the texts of the text items, in
    order: texts put in by [create_text_content] come back unchanged,
    before those of the rest of the list. *)
Theorem extract_text_content_roundtrip texts rest :
  extract_text_content (map create_text_content texts ++ rest)%list =
  (map PStr texts ++ extract_text_content rest)%list.
Proof.
  induction texts as [|t texts IH]; [reflexivity|].
  cbn [map app extract_text_content]. unfold create_text_content at 1.
  rewrite type_is_own, IH. reflexivity.
Qed.

(** C25: The flat dictionaries that [utils.py] builds for errors,
    successes, status updates and heartbeats are never well-formed
    envelopes of the protocol: they have no [msg_id], so
    [validate_message] rejects each of them. *)
Theorem utils_messages_not_envelopes error details message data now now' escrow_id old new reason agent status :
  validate_message (Utils.create_error_message error details) = false /\
  validate_message (Utils.create_success_message message data) = false /\
  validate_message (create_status_update now escrow_id old new reason) = false /\
  validate_message (Utils.create_heartbeat_message now now' agent status) = false.
Proof.
  unfold Utils.create_error_message, Utils.create_success_message.
  destruct details as [[|c s]|], data as [[|i d]|]; repeat split.
Qed.

(** [create_error_message] of [utils.py] has a ["details"] entry
    exactly when it is given a non-empty string: [None] and [""] are
    both left out. *)
Theorem error_details_truthiness error details :
  dict_has (Utils.create_error_message error details) "details" = true <->
  exists d, details = Some d /\ d <> "".
Proof.
  destruct details as [[|c s]|]; cbn; split; try discriminate.
  - intros [d [[= <-] Hd]]. now contradiction Hd.
  - intros _. eexists; split; [reflexivity|discriminate].
  - intros _. reflexivity.
  - intros [d [Hd _]]. discriminate.
Qed.

(** C24: The line [log_agent_activity] prints is [AGENT_ACTIVITY: ]
    followed by JSON that [json.loads] reads back as the logged record,
    timestamp, agent type and action as given and the details dict (or
    [{}]), whenever the details hold no float and no repeated key. *)
Theorem log_agent_activity_parses now agent_type action details :
  (forall d, details = Some d -> json_plain (PDict d) = true) ->
  exists s, log_agent_activity now agent_type action details = ("AGENT_ACTIVITY: " ++ s)%string /\
    json_loads s = Some (PDict (log_data now agent_type action details)).
Proof.
  intros Hd. eexists. split; [reflexivity|]. apply loads_dumps.
  destruct details as [[|kv d]|]; [reflexivity| |reflexivity].
  specialize (Hd _ eq_refl). unfold log_data. remember (kv :: d) as dd eqn:Hdd. clear Hdd.
  cbn in Hd |- *. now rewrite Hd.
Qed.

Lemma log_agent_activity_parses_witness :
  exists s, log_agent_activity "2025-01-01T00:00:00+00:00" "buyer" "create_escrow"
              (Some [("escrow_id", PStr "escrow_1_ab12cd34"); ("amount", PInt 1000)]) = ("AGENT_ACTIVITY: " ++ s)%string /\
    json_loads s = Some (PDict (log_data "2025-01-01T00:00:00+00:00" "buyer" "create_escrow"
                                  (Some [("escrow_id", PStr "escrow_1_ab12cd34"); ("amount", PInt 1000)]))).
Proof. apply log_agent_activity_parses. intros d Hd; injection Hd as <-; reflexivity. Defined.

End ContentProps.
