(* ===== verification/Deploy.v ===== *)
(** * The deployment script [deployment/deploy_agents.py]

    [AgentDeployer] simulates the deployment of the four agents: it
    records a result per agent in [self.deployed_agents], writes
    [deployment_results.json] and [.env.agents], and prints its progress.
    The script is modelled in ExtLib's monad [eitherT PyExc (state DeployState)]:
    the state [DeployState] is the deployer object and the world it acts on, and a
    Python exception is an [inl] that keeps the state reached when it
    was raised (Python does not undo [self.deployed_agents[...] = ...]
    when a later statement raises); [catch] is the [try/except].

    The world holds the successive readings of [int(time.time())]
    ([clock], indexed by the number of readings taken), the lines
    printed, the files written, whether standard output is UTF-8, and
    which paths may be opened for writing.  The strings of this file are
    UTF-8 byte strings, so that the emoji of the messages are what
    [print] must encode: on a standard output that is not UTF-8 (ASCII
    or a Windows code page) they raise [UnicodeEncodeError].  The two
    dictionary shapes [deploy_agent] produces are the constructors of
    [DeployResult]. *)

From Stdlib Require Import String Ascii ZArith List Bool Lia.
From ExtLib Require Import Structures.Monad Structures.MonadState Structures.MonadExc.
From ExtLib Require Import Data.Monads.StateMonad Data.Monads.EitherMonad.
From S2P Require Import Prelude PyFloat Models.
Import ListNotations.

Local Open Scope string_scope.

(** [let* x := c in k] binds in the monad (the arrow notation of ExtLib
    would clash with the one of [Prelude]). *)
Local Notation "'let*' x ':=' c 'in' k" := (bind c (fun x => k))
  (at level 10, x pattern, c at level 100, k at level 200).

(** ** Python values of the script *)

Inductive PyExc : Type :=
| UnicodeEncodeError
| OSError (path : string).

(** [str(e)], up to the details of the exception object. *)
Definition exc_str (e : PyExc) : string :=
  match e with
  | UnicodeEncodeError => "'charmap' codec can't encode character"
  | OSError path => "Permission denied: '" ++ path ++ "'"
  end.

Definition nl : string := String (ascii_of_nat 10) EmptyString.

Definition ascii_only (s : string) : bool :=
  forallb (fun c => (nat_of_ascii c <? 128)%nat) (list_ascii_of_string s).

(** String-keyed dictionaries of any value type, in insertion order. *)
Fixpoint kv_get {V} (d : list (string * V)) (k : string) : option V :=
  match d with
  | [] => None
  | (k', v) :: d' => if String.eqb k k' then Some v else kv_get d' k
  end.

Fixpoint kv_set {V} (d : list (string * V)) (k : string) (v : V) : list (string * V) :=
  match d with
  | [] => [(k, v)]
  | (k', v') :: d' => if String.eqb k k' then (k, v) :: d' else (k', v') :: kv_set d' k v
  end.

(** The two result dictionaries of [deploy_agent]. *)
Inductive DeployResult : Type :=
| Deployed (agent_name agent_address : string) (timestamp : Z) (capabilities : dict)
| Failed (agent_name error : string) (timestamp : Z).

Definition result_status (r : DeployResult) : string :=
  match r with Deployed _ _ _ _ => "deployed" | Failed _ _ _ => "failed" end.

Definition result_dict (r : DeployResult) : dict :=
  match r with
  | Deployed n a t c =>
      [("agent_name", PStr n); ("agent_address", PStr a); ("status", PStr "deployed");
       ("timestamp", PInt t); ("capabilities", PDict c)]
  | Failed n e t =>
      [("agent_name", PStr n); ("status", PStr "failed"); ("error", PStr e); ("timestamp", PInt t)]
  end.

Inductive FileContent : Type :=
| JsonDump (v : pyval)
| Text (s : string).

(** ** State *)

Record AgentDeployer : Type := mkDeployer {
  api_token : string;
  agents : list string;
  deployed_agents : list (string * DeployResult)
}.

Record World : Type := mkWorld {
  clock : nat -> Z;
  ticks : nat;
  stdout_utf8 : bool;
  writable : string -> bool;
  stdout : list string;
  files : list (string * FileContent)
}.

Record DeployState : Type := mkS { deployer : AgentDeployer; world : World }.

Definition M := eitherT PyExc (state DeployState).

Definition set_world (f : World -> World) (s : DeployState) : DeployState := mkS (deployer s) (f (world s)).
Definition set_deployed (f : list (string * DeployResult) -> list (string * DeployResult)) (s : DeployState) : DeployState :=
  let d := deployer s in mkS (mkDeployer (api_token d) (agents d) (f (deployed_agents d))) (world s).

Definition modify_S (f : DeployState -> DeployState) : M unit := let* s := get in put (f s).

(** ** Effects *)

(** [int(time.time())]: the next reading of the clock. *)
Definition time_time : M Z :=
  let* s := get in
  let w := world s in
  let* _ := put (set_world (fun w => mkWorld (clock w) (S (ticks w)) (stdout_utf8 w) (writable w) (stdout w) (files w)) s) in
  ret (clock w (ticks w)).

Definition print (line : string) : M unit :=
  let* s := get in
  let w := world s in
  if stdout_utf8 w || ascii_only line then
    put (set_world (fun w => mkWorld (clock w) (ticks w) (stdout_utf8 w) (writable w) (stdout w ++ [line])%list (files w)) s)
  else raise UnicodeEncodeError.

(** [with open(path, 'w') as f: ...]. *)
Definition write_file (path : string) (c : FileContent) : M unit :=
  let* s := get in
  let w := world s in
  if writable w path then
    put (set_world (fun w => mkWorld (clock w) (ticks w) (stdout_utf8 w) (writable w) (stdout w) (kv_set (files w) path c)) s)
  else raise (OSError path).

(** [time.sleep(1)]: the clock readings are inputs, so waiting changes
    nothing else. *)
Definition sleep (secs : Z) : M unit := ret tt.

(** ** [AgentDeployer] *)

Definition actions (l : list string) : pyval := PList (map PStr l).

Definition get_agent_capabilities (agent_name : string) : dict :=
  let capabilities : list (string * dict) :=
    [("buyer", [("supported_actions", actions ["create_escrow"; "deposit_assets"; "confirm_fulfillment";
                                               "raise_dispute"; "refund_request"]);
                ("supported_chains", actions ["ethereum"; "polygon"; "arbitrum"]);
                ("supported_assets", actions ["ETH"; "ERC20"; "ERC721"])]);
     ("seller", [("supported_actions", actions ["fulfill_obligation"; "confirm_delivery"; "raise_dispute";
                                                "check_status"; "provide_evidence"]);
                 ("supported_chains", actions ["ethereum"; "polygon"; "arbitrum"]);
                 ("supported_assets", actions ["ETH"; "ERC20"; "ERC721"])]);
     ("oracle", [("supported_actions", actions ["verify_transaction"; "check_status"; "cross_chain_verification"]);
                 ("supported_chains", actions ["ethereum"; "polygon"; "arbitrum"; "optimism"; "bsc"]);
                 ("supported_assets", actions ["ETH"; "ERC20"; "ERC721"; "ERC1155"])]);
     ("arbiter", [("supported_actions", actions ["analyze_dispute"; "resolve_dispute"; "request_evidence";
                                                 "make_decision"; "provide_reasoning"]);
                  ("supported_chains", actions []);
                  ("supported_assets", actions [])])] in
  match kv_get capabilities agent_name with Some c => c | None => [] end.

(** [AgentDeployer(api_token)]: the four agents in the order of the
    literal, nothing deployed. *)
Definition init (api_token : string) : AgentDeployer :=
  mkDeployer api_token ["buyer"; "seller"; "oracle"; "arbiter"] [].

Definition deploy_agent (agent_name : string) : M DeployResult :=
  catch
    (let* _ := print ("Deploying " ++ agent_name ++ " agent...") in
     let* t := time_time in
     let agent_address := "agent_" ++ agent_name ++ "_" ++ int_str t in
     let* t' := time_time in
     let deployment_result := Deployed agent_name agent_address t' (get_agent_capabilities agent_name) in
     let* _ := modify_S (set_deployed (fun d => kv_set d agent_name deployment_result)) in
     let* _ := print ("✅ " ++ agent_name ++ " agent deployed successfully: " ++ agent_address) in
     ret deployment_result)
    (fun e =>
     let* _ := print ("❌ Failed to deploy " ++ agent_name ++ " agent: " ++ exc_str e) in
     let* t := time_time in
     ret (Failed agent_name (exc_str e) t)).

(** The [for] loop of [deploy_all_agents]. *)
Fixpoint deploy_each (names : list string) (deployment_results : list (string * DeployResult))
  : M (list (string * DeployResult)) :=
  match names with
  | [] => ret deployment_results
  | agent_name :: rest =>
      let* result := deploy_agent agent_name in
      let* _ := sleep 1 in
      deploy_each rest (kv_set deployment_results agent_name result)
  end.

Definition results_json (results : list (string * DeployResult)) : pyval :=
  PDict (map (fun '(n, r) => (n, PDict (result_dict r))) results).

(** [Path(__file__).parent / "deployment_results.json"] and
    [Path(__file__).parent.parent.parent / ".env.agents"]. *)
Definition results_path : string := "deployment/deployment_results.json".
Definition env_path : string := "../.env.agents".

Definition save_deployment_results (results : list (string * DeployResult)) : M unit :=
  let* _ := write_file results_path (JsonDump (results_json results)) in
  print ("📁 Deployment results saved to: " ++ results_path).

Definition deploy_all_agents : M (list (string * DeployResult)) :=
  let* _ := print "🚀 Starting deployment of all agents..." in
  let* s := get in
  let* deployment_results := deploy_each (agents (deployer s)) [] in
  let* _ := save_deployment_results deployment_results in
  let* _ := print "✅ All agents deployed successfully!" in
  ret deployment_results.

Fixpoint verify_each (l : list (string * DeployResult)) (all_deployed : bool) : M bool :=
  match l with
  | [] => ret all_deployed
  | (agent_name, result) :: rest =>
      if negb (String.eqb (result_status result) "deployed") then
        let* _ := print ("❌ " ++ agent_name ++ " agent is not deployed") in
        verify_each rest false
      else
        let* _ := print ("✅ " ++ agent_name ++ " agent is deployed and running") in
        verify_each rest all_deployed
  end.

Definition verify_deployment : M bool :=
  let* _ := print "🔍 Verifying agent deployment..." in
  let* s := get in
  verify_each (deployed_agents (deployer s)) true.

Fixpoint addresses_of (l : list (string * DeployResult)) (addresses : list (string * string))
  : list (string * string) :=
  match l with
  | [] => addresses
  | (agent_name, Deployed _ a _ _) :: rest => addresses_of rest (kv_set addresses agent_name a)
  | (_, Failed _ _ _) :: rest => addresses_of rest addresses
  end.

Definition get_agent_addresses (d : AgentDeployer) : list (string * string) :=
  addresses_of (deployed_agents d) [].

Definition address_or_empty (addresses : list (string * string)) (k : string) : string :=
  match kv_get addresses k with Some a => a | None => "" end.

Definition env_content (addresses : list (string * string)) (now : Z) : string :=
  "# Agent Addresses (Generated by deployment script)" ++ nl ++
  "REACT_APP_BUYER_AGENT_ADDRESS=" ++ address_or_empty addresses "buyer" ++ nl ++
  "REACT_APP_SELLER_AGENT_ADDRESS=" ++ address_or_empty addresses "seller" ++ nl ++
  "REACT_APP_ORACLE_AGENT_ADDRESS=" ++ address_or_empty addresses "oracle" ++ nl ++
  "REACT_APP_ARBITER_AGENT_ADDRESS=" ++ address_or_empty addresses "arbiter" ++ nl ++
  nl ++
  "# Deployment Information" ++ nl ++
  "DEPLOYMENT_TIMESTAMP=" ++ int_str now ++ nl ++
  "DEPLOYMENT_STATUS=completed" ++ nl.

Definition create_environment_file : M unit :=
  let* s := get in
  let addresses := get_agent_addresses (deployer s) in
  let* now := time_time in
  let* _ := write_file env_path (Text (env_content addresses now)) in
  print ("📁 Agent addresses saved to: " ++ env_path).

Fixpoint print_addresses (addresses : list (string * string)) : M unit :=
  match addresses with
  | [] => ret tt
  | (agent_name, address) :: rest =>
      let* _ := print ("  " ++ agent_name ++ ": " ++ address) in
      print_addresses rest
  end.

(** The body of [main()] after the token check. *)
Definition deploy_main (api_token : string) : M unit :=
  let* _ := modify_S (fun s => mkS (init api_token) (world s)) in
  let* _ := deploy_all_agents in
  let* ok := verify_deployment in
  if ok then
    let* _ := print "✅ All agents deployed and verified successfully!" in
    let* _ := create_environment_file in
    let* s := get in
    let addresses := get_agent_addresses (deployer s) in
    let* _ := print (nl ++ "📋 Deployed Agent Addresses:") in
    let* _ := print_addresses addresses in
    print (nl ++ "🎉 Deployment complete! You can now use the agents in your application.")
  else print "❌ Some agents failed to deploy. Please check the logs above.".

Definition token_missing : M unit :=
  let* _ := print "❌ AGENTVERSE_API_TOKEN environment variable not set" in
  let* _ := print "Please set your Agentverse API token:" in
  print "export AGENTVERSE_API_TOKEN=your_token_here".

(** [main()], given [os.getenv('AGENTVERSE_API_TOKEN')]; [if not
    api_token] holds for [None] and for the empty string. *)
Definition main (token : option string) : M unit :=
  match token with
  | Some api_token => if String.eqb api_token "" then token_missing else deploy_main api_token
  | None => token_missing
  end.

(** Running a computation of the script from a state. *)
Definition run {A} (c : M A) (s : DeployState) : (PyExc + A) * DeployState :=
  runState (unEitherT c) s.

(** ** A run of the script

    A fresh process: nothing printed or written yet, standard output in
    UTF-8, every path writable, and any clock starting at reading [t]. *)
Definition fresh_world (clock : nat -> Z) (t : nat) (utf8 : bool) : World :=
  mkWorld clock t utf8 (fun _ => true) [] [].

(** The addresses the four deployments get: each agent reads the clock
    twice, so the [k]-th agent's address uses reading [t + 2k]. *)
Definition expected_addresses (clock : nat -> Z) (t : nat) : list (string * string) :=
  [("buyer", "agent_buyer_" ++ int_str (clock t));
   ("seller", "agent_seller_" ++ int_str (clock (2 + t)%nat));
   ("oracle", "agent_oracle_" ++ int_str (clock (4 + t)%nat));
   ("arbiter", "agent_arbiter_" ++ int_str (clock (6 + t)%nat))].

(** ** Lemmas *)

Lemma deploy_main_run api_token d clock t :
  fst (run (deploy_main api_token) (mkS d (fresh_world clock t true))) = inr tt /\
  get_agent_addresses (deployer (snd (run (deploy_main api_token) (mkS d (fresh_world clock t true)))))
    = expected_addresses clock t /\
  kv_get (files (world (snd (run (deploy_main api_token) (mkS d (fresh_world clock t true)))))) env_path
    = Some (Text (env_content (expected_addresses clock t) (clock (8 + t)%nat))).
Proof. vm_compute. split; [reflexivity|split; reflexivity]. Qed.

Lemma main_token tok s : tok <> "" -> run (main (Some tok)) s = run (deploy_main tok) s.
Proof. intros H. unfold main. now destruct (String.eqb_spec tok ""). Qed.

Lemma string_neq_by_eqb s1 s2 : String.eqb s1 s2 = false -> s1 <> s2.
Proof. apply String.eqb_neq. Qed.

(** ** Properties *)

(** C29: With a non-empty token, a UTF-8 standard output and writable
    files, [main] runs to completion whatever the clock: the four agents
    are deployed in order with the addresses [agent_<name>_<time>] of
    their first clock reading, and [.env.agents] is written with those
    addresses and the ninth clock reading as deployment time. *)
Theorem main_deploys_all_agents tok d clock t :
  tok <> "" ->
  fst (run (main (Some tok)) (mkS d (fresh_world clock t true))) = inr tt /\
  get_agent_addresses (deployer (snd (run (main (Some tok)) (mkS d (fresh_world clock t true)))))
    = expected_addresses clock t /\
  kv_get (files (world (snd (run (main (Some tok)) (mkS d (fresh_world clock t true)))))) env_path
    = Some (Text (env_content (expected_addresses clock t) (clock (8 + t)%nat))).
Proof. intros H. rewrite !(main_token tok _ H). apply deploy_main_run. Qed.

Lemma main_deploys_all_agents_witness :
  "agentverse-token" <> "" /\
  fst (run (main (Some "agentverse-token")) (mkS (init "") (fresh_world (fun n => 1700000000 + Z.of_nat n)%Z 0 true))) = inr tt.
Proof.
  split; [discriminate|].
  exact (proj1 (main_deploys_all_agents "agentverse-token" (init "") (fun n => 1700000000 + Z.of_nat n)%Z 0
                  ltac:(discriminate))).
Defined.

(** The four addresses written by a successful run are pairwise
    distinct for every clock, even one that never advances: they differ
    in the agent name, not only in the time. *)
Theorem deployed_addresses_distinct tok d clock t :
  tok <> "" ->
  NoDup (map snd (get_agent_addresses (deployer (snd (run (main (Some tok)) (mkS d (fresh_world clock t true))))))).
Proof.
  intros H. rewrite (main_token tok _ H), (proj1 (proj2 (deploy_main_run tok d clock t))).
  unfold expected_addresses; cbn [map snd].
  repeat (apply NoDup_cons; [intros Hin; repeat destruct Hin as [Hin|Hin];
                             [revert Hin; apply string_neq_by_eqb; reflexivity ..|exact Hin] |]).
  apply NoDup_nil.
Qed.

Lemma deployed_addresses_distinct_witness :
  "agentverse-token" <> "" /\
  NoDup (map snd (get_agent_addresses (deployer (snd (run (main (Some "agentverse-token"))
    (mkS (init "") (fresh_world (fun _ => 1700000000%Z) 0 true))))))).
Proof.
  split; [discriminate|].
  exact (deployed_addresses_distinct "agentverse-token" (init "") (fun _ => 1700000000%Z) 0 ltac:(discriminate)).
Defined.

(** C30: On a standard output that cannot encode the emoji,
    [deploy_agent] records the agent as deployed and then raises
    [UnicodeEncodeError]: the success message fails to print, the
    handler's own failure message fails again, and the exception leaves
    [deploy_agent] with [self.deployed_agents] saying ["deployed"]. *)
Theorem deploy_agent_records_then_raises tok agent_name clock t :
  In agent_name (agents (init tok)) ->
  fst (run (deploy_agent agent_name) (mkS (init tok) (fresh_world clock t false))) = inl UnicodeEncodeError /\
  option_map result_status
    (kv_get (deployed_agents (deployer (snd (run (deploy_agent agent_name) (mkS (init tok) (fresh_world clock t false)))))) agent_name)
    = Some "deployed".
Proof. intros H. destruct H as [<-|[<-|[<-|[<-|[]]]]]; vm_compute; split; reflexivity. Qed.

Lemma deploy_agent_records_then_raises_witness :
  In "oracle" (agents (init "agentverse-token")) /\
  fst (run (deploy_agent "oracle") (mkS (init "agentverse-token") (fresh_world (fun _ => 0%Z) 0 false)))
    = inl UnicodeEncodeError.
Proof.
  split; [cbn; tauto|].
  exact (proj1 (deploy_agent_records_then_raises "agentverse-token" "oracle" (fun _ => 0%Z) 0
                  ltac:(cbn; tauto))).
Defined.

(** The buyer's advertised capabilities list the chains
    ["polygon"] and ["arbitrum"], which no [ChainType] member of the
    data model names, so no [Asset] can be on them. *)
Theorem capabilities_chains_outside_enum :
  dict_get (get_agent_capabilities "buyer") "supported_chains"
    = Some (PList [PStr "ethereum"; PStr "polygon"; PStr "arbitrum"]) /\
  forall c, ChainType_value c <> "polygon" /\ ChainType_value c <> "arbitrum".
Proof. split; [reflexivity|]. intros c; destruct c; split; discriminate. Qed.
