(* ===== verification/Arbiter.v ===== *)
(** * The arbiter's recommendation ([agents/arbiter_agent.py])

    [analyze_dispute] builds a Python dict in the order the source
    writes its keys and then overwrites three of them according to
    the number of evidence items, [len(dispute_data.get("evidence", []))].
    A [len] of a value without a length ([None], a number) is the
    [TypeError] the coroutine raises, the result [None]. *)

From Stdlib Require Import String Ascii ZArith List Bool Lia.
From S2P Require Import Prelude PyFloat Models.
Import ListNotations.

Local Open Scope string_scope.

(** The confidence literals of the source, as Python reads them. *)
Definition conf_0_5 : float := float_of_decimal false 5 (-1).
Definition conf_0_6 : float := float_of_decimal false 6 (-1).
Definition conf_0_8 : float := float_of_decimal false 8 (-1).

Definition required_evidence_list : pyval :=
  PList [PStr "Transaction proof"; PStr "Communication logs"; PStr "Delivery confirmation"].

Definition analyze_dispute (dispute_data : dict) : option dict :=
  let analysis : dict :=
    [("dispute_id", dict_get_default dispute_data "dispute_id" PNone);
     ("parties", PDict [("buyer", dict_get_default dispute_data "buyer_address" PNone);
                        ("seller", dict_get_default dispute_data "seller_address" PNone)]);
     ("evidence", dict_get_default dispute_data "evidence" (PList []));
     ("recommendation", PStr "REQUIRES_MORE_EVIDENCE");
     ("confidence", PFloat conf_0_5);
     ("reasoning", PStr "Insufficient evidence to make a decision");
     ("required_evidence", required_evidence_list)] in
  match py_len (dict_get_default dispute_data "evidence" (PList [])) with
  | None => None
  | Some evidence_count =>
      Some
        (if (3 <=? evidence_count)%Z then
           let a := dict_set analysis "recommendation" (PStr "RELEASE_FUNDS") in
           let a := dict_set a "confidence" (PFloat conf_0_8) in
           dict_set a "reasoning" (PStr "Sufficient evidence supports seller's claim")
         else if (1 <=? evidence_count)%Z then
           let a := dict_set analysis "recommendation" (PStr "REFUND_FUNDS") in
           let a := dict_set a "confidence" (PFloat conf_0_6) in
           dict_set a "reasoning" (PStr "Evidence supports buyer's claim")
         else analysis)
  end.

(** ** The specification's table *)

(** Recommendation and confidence by evidence count (spec 4.3). *)
Definition arbiter_table (n : Z) : string * float :=
  if (3 <=? n)%Z then ("RELEASE_FUNDS", conf_0_8)
  else if (1 <=? n)%Z then ("REFUND_FUNDS", conf_0_6)
  else ("REQUIRES_MORE_EVIDENCE", conf_0_5).

(** The evidence a dispute carries: a list under ["evidence"], or no
    such key. *)
Definition evidence_items (d : dict) (l : list pyval) : Prop :=
  dict_get d "evidence" = Some (PList l) \/ (dict_get d "evidence" = None /\ l = []).

Lemma evidence_len d l :
  evidence_items d l -> py_len (dict_get_default d "evidence" (PList [])) = Some (Z.of_nat (length l)).
Proof. unfold dict_get_default. intros [-> | [-> ->]]; reflexivity. Qed.

(** C10: For a dispute with [n] evidence items, [analyze_dispute] succeeds
    and recommends exactly what the specification's table gives for
    [n]: none gives REQUIRES_MORE_EVIDENCE at 0.5, one or two
    REFUND_FUNDS at 0.6, three or more RELEASE_FUNDS at 0.8. *)
Theorem analyze_dispute_table d l :
  evidence_items d l ->
  exists a, analyze_dispute d = Some a /\
    dict_get a "recommendation" = Some (PStr (fst (arbiter_table (Z.of_nat (length l))))) /\
    dict_get a "confidence" = Some (PFloat (snd (arbiter_table (Z.of_nat (length l))))).
Proof.
  intros Hev. unfold analyze_dispute, arbiter_table. rewrite (evidence_len d l Hev).
  eexists; split; [reflexivity|].
  destruct (3 <=? _)%Z; [|destruct (1 <=? _)%Z];
    autorewrite with dictrw; split; reflexivity.
Qed.

(** Scenario B of the specification: two evidence items. *)
Lemma analyze_dispute_table_witness :
  evidence_items [("evidence", PList [PStr "chat log"; PStr "receipt"])] [PStr "chat log"; PStr "receipt"] /\
  exists a, analyze_dispute [("evidence", PList [PStr "chat log"; PStr "receipt"])] = Some a /\
    dict_get a "recommendation" = Some (PStr "REFUND_FUNDS") /\
    dict_get a "confidence" = Some (PFloat conf_0_6).
Proof.
  split; [left; reflexivity|].
  exact (analyze_dispute_table [("evidence", PList [PStr "chat log"; PStr "receipt"])]
           [PStr "chat log"; PStr "receipt"] (or_introl eq_refl)).
Defined.

(** C28: An ["evidence"] entry that is a string is counted by its
    characters, so a single piece of evidence written as a string of
    three characters or more yields RELEASE_FUNDS at 0.8, and an entry
    holding [None] or a number makes [analyze_dispute] raise
    [TypeError]. *)
Theorem analyze_dispute_evidence_shapes d :
  (forall s, dict_get d "evidence" = Some (PStr s) -> (3 <= String.length s)%nat ->
     exists a, analyze_dispute d = Some a /\
       dict_get a "recommendation" = Some (PStr "RELEASE_FUNDS") /\
       dict_get a "confidence" = Some (PFloat conf_0_8)) /\
  ((dict_get d "evidence" = Some PNone \/ exists z, dict_get d "evidence" = Some (PInt z)) ->
     analyze_dispute d = None).
Proof.
  unfold analyze_dispute, dict_get_default. split.
  - intros s Hs Hlen. rewrite Hs. cbn [py_len].
    destruct (Z.leb_spec 3 (Z.of_nat (String.length s))); [|lia].
    eexists; split; [reflexivity|]. autorewrite with dictrw. split; reflexivity.
  - intros [Hn | [z Hz]]; [rewrite Hn | rewrite Hz]; reflexivity.
Qed.

Lemma analyze_dispute_evidence_shapes_witness :
  dict_get [("evidence", PStr "receipt.pdf")] "evidence" = Some (PStr "receipt.pdf") /\
  (3 <= String.length "receipt.pdf")%nat /\
  exists a, analyze_dispute [("evidence", PStr "receipt.pdf")] = Some a /\
    dict_get a "recommendation" = Some (PStr "RELEASE_FUNDS") /\
    dict_get a "confidence" = Some (PFloat conf_0_8).
Proof.
  split; [reflexivity|]. split; [simpl; lia|].
  exact (proj1 (analyze_dispute_evidence_shapes [("evidence", PStr "receipt.pdf")])
           "receipt.pdf" eq_refl ltac:(simpl; lia)).
Defined.
