(* ===== verification/Agents.v ===== *)
(** * The chat agents ([agents/*.py], [agent.py])

    Every agent has the same [on_chat] handler: it sends a
    [ChatAcknowledgement] for the message id, then handles the contents
    in order; a start of session sends the agent's capabilities and its
    greeting, a text goes to the agent's request handler, an end of
    session sends a farewell, and other contents are ignored.  The
    handler is written once, against the class [ChatRole] that gives an
    agent's capability metadata and its text handler; each agent is an
    instance.

    A text handler lower-cases the request and picks the first keyword
    test that holds; the handler it calls sends one fixed text.  The
    sent texts (with their emoji) are represented by the handler that
    sends them: [SentReply h]. *)

From Stdlib Require Import String Ascii ZArith List Bool Lia.
From S2P Require Import Prelude PyFloat Models.
Import ListNotations.

Local Open Scope string_scope.
Local Open Scope py_scope.

(** ** The chat protocol *)

Inductive ChatContent : Type :=
| StartSessionContent
| TextContent (text : string)
| EndSessionContent
| MetadataContent (metadata : dict).

Record ChatMessage : Type := mkChatMessage {
  cm_timestamp : string;
  cm_msg_id : string;
  cm_content : list ChatContent
}.

(** What an agent sends back to the sender. *)
Inductive Sent (H : Type) : Type :=
| ChatAcknowledgement (acknowledged_msg_id : string)
| SentMetadata (metadata : dict)
| SentReadyText
| SentReply (h : H)
| SentGoodbyeText.
Arguments ChatAcknowledgement {H} acknowledged_msg_id.
Arguments SentMetadata {H} metadata.
Arguments SentReadyText {H}.
Arguments SentReply {H} h.
Arguments SentGoodbyeText {H}.

(** The interface an agent gives the shared handler. *)
Class ChatRole (H : Type) : Type := {
  role_capabilities : dict;
  role_handle_request : string -> H
}.

Section OnChat.
Context {H : Type} `{ChatRole H}.

Definition handle_content (c : ChatContent) : list (Sent H) :=
  match c with
  | StartSessionContent => [SentMetadata role_capabilities; SentReadyText]
  | TextContent t => [SentReply (role_handle_request t)]
  | EndSessionContent => [SentGoodbyeText]
  | MetadataContent _ => []
  end.

Definition on_chat (msg : ChatMessage) : list (Sent H) :=
  ChatAcknowledgement (cm_msg_id msg) :: flat_map handle_content (cm_content msg).

Definition is_ack (s : Sent H) : bool :=
  match s with ChatAcknowledgement _ => true | _ => false end.

Definition replies (out : list (Sent H)) : list H :=
  flat_map (fun s => match s with SentReply h => [h] | _ => [] end) out.

Definition texts (cs : list ChatContent) : list string :=
  flat_map (fun c => match c with TextContent t => [t] | _ => [] end) cs.

End OnChat.

(** [_text(msg)] and [_metadata(metadata)]: a message of one content,
    with the clock reading [ts] and the fresh [uuid4()] id [mid]. *)
Definition text_message (ts mid msg : string) : ChatMessage :=
  mkChatMessage ts mid [TextContent msg].

Definition metadata_message (ts mid : string) (metadata : dict) : ChatMessage :=
  mkChatMessage ts mid [MetadataContent metadata].

(** [on_ack]: an acknowledgement is only logged. *)
Definition on_ack (sender acknowledged_msg_id : string) : string :=
  "ACK from " ++ sender ++ " for " ++ acknowledged_msg_id.

(** ** The buyer agent *)

Module Buyer.

Inductive Handler : Type :=
| handle_create_escrow
| handle_deposit_assets
| handle_confirm_fulfillment
| handle_raise_dispute
| handle_refund_request
| handle_help
| not_sure.

Definition handle_buyer_request (request : string) : Handler :=
  let r := py_lower request in
  if ("create escrow" in_str r) || ("new escrow" in_str r) then handle_create_escrow
  else if "deposit" in_str r then handle_deposit_assets
  else if ("confirm" in_str r) && ("fulfillment" in_str r) then handle_confirm_fulfillment
  else if ("dispute" in_str r) || ("raise dispute" in_str r) then handle_raise_dispute
  else if "refund" in_str r then handle_refund_request
  else if "help" in_str r then handle_help
  else not_sure.

Definition capabilities : dict :=
  [("capabilities", PStr "buyer-operations");
   ("description", PStr "Handles buyer-side escrow operations");
   ("version", PStr "1.0.0");
   ("supported_actions", PList [PStr "create_escrow"; PStr "deposit_assets";
      PStr "confirm_fulfillment"; PStr "raise_dispute"; PStr "refund_request"])].

#[export] Instance role : ChatRole Handler :=
  { role_capabilities := capabilities; role_handle_request := handle_buyer_request }.

(** This agent's [on_chat]: the shared handler with its role. *)
Definition agent_on_chat : ChatMessage -> list (Sent Handler) := on_chat.

End Buyer.

(** ** The seller agent *)

Module Seller.

Inductive Handler : Type :=
| handle_fulfill_obligation
| handle_confirm_delivery
| handle_raise_dispute
| handle_check_status
| handle_provide_evidence
| handle_help
| not_sure.

Definition handle_seller_request (request : string) : Handler :=
  let r := py_lower request in
  if ("fulfill" in_str r) || ("deliver" in_str r) then handle_fulfill_obligation
  else if ("confirm" in_str r) && ("delivery" in_str r) then handle_confirm_delivery
  else if ("dispute" in_str r) || ("raise dispute" in_str r) then handle_raise_dispute
  else if ("status" in_str r) || ("check" in_str r) then handle_check_status
  else if ("evidence" in_str r) || ("proof" in_str r) then handle_provide_evidence
  else if "help" in_str r then handle_help
  else not_sure.

Definition capabilities : dict :=
  [("capabilities", PStr "seller-operations");
   ("description", PStr "Handles seller-side escrow operations");
   ("version", PStr "1.0.0");
   ("supported_actions", PList [PStr "fulfill_obligation"; PStr "confirm_delivery";
      PStr "raise_dispute"; PStr "check_status"; PStr "provide_evidence"])].

#[export] Instance role : ChatRole Handler :=
  { role_capabilities := capabilities; role_handle_request := handle_seller_request }.

(** This agent's [on_chat]: the shared handler with its role. *)
Definition agent_on_chat : ChatMessage -> list (Sent Handler) := on_chat.

End Seller.

(** ** The oracle agent's chat handler *)

Module OracleChat.

Inductive Handler : Type :=
| handle_verify_transaction
| handle_check_status
| handle_help
| not_sure.

Definition handle_oracle_request (request : string) : Handler :=
  let r := py_lower request in
  if ("verify" in_str r) || ("check" in_str r) then handle_verify_transaction
  else if "status" in_str r then handle_check_status
  else if "help" in_str r then handle_help
  else not_sure.

Definition capabilities : dict :=
  [("capabilities", PStr "transaction-verification");
   ("description", PStr "Handles transaction verification and validation");
   ("version", PStr "1.0.0");
   ("supported_chains", PList [PStr "ethereum"; PStr "polygon"; PStr "arbitrum";
      PStr "optimism"; PStr "bsc"]);
   ("supported_assets", PList [PStr "ETH"; PStr "ERC20"; PStr "ERC721"; PStr "ERC1155"])].

#[export] Instance role : ChatRole Handler :=
  { role_capabilities := capabilities; role_handle_request := handle_oracle_request }.

(** This agent's [on_chat]: the shared handler with its role. *)
Definition agent_on_chat : ChatMessage -> list (Sent Handler) := on_chat.

End OracleChat.

(** ** The arbiter agent's chat handler *)

Module ArbiterChat.

Inductive Handler : Type :=
| handle_analyze_dispute
| handle_resolve_dispute
| handle_request_evidence
| handle_help
| not_sure.

Definition handle_arbiter_request (request : string) : Handler :=
  let r := py_lower request in
  if ("analyze" in_str r) || ("review" in_str r) then handle_analyze_dispute
  else if ("resolve" in_str r) || ("decision" in_str r) then handle_resolve_dispute
  else if "evidence" in_str r then handle_request_evidence
  else if "help" in_str r then handle_help
  else not_sure.

Definition capabilities : dict :=
  [("capabilities", PStr "dispute-resolution");
   ("description", PStr "Handles dispute resolution and arbitration");
   ("version", PStr "1.0.0");
   ("supported_actions", PList [PStr "analyze_dispute"; PStr "resolve_dispute";
      PStr "request_evidence"; PStr "make_decision"; PStr "provide_reasoning"])].

#[export] Instance role : ChatRole Handler :=
  { role_capabilities := capabilities; role_handle_request := handle_arbiter_request }.

(** This agent's [on_chat]: the shared handler with its role. *)
Definition agent_on_chat : ChatMessage -> list (Sent Handler) := on_chat.

End ArbiterChat.

Definition buyer_keywords : list string :=
  ["create escrow"; "new escrow"; "deposit"; "confirm"; "fulfillment"; "dispute";
   "raise dispute"; "refund"; "help"].

Definition free_of (keywords : list string) (args : string) : bool :=
  forallb (fun k => negb (k in_str py_lower args)) keywords.

(** ** The shared handler *)

Section OnChatProps.
Context {H : Type} `{ChatRole H}.

Lemma handle_content_no_ack c : forallb (fun s => negb (is_ack s)) (handle_content c) = true.
Proof. destruct c; reflexivity. Qed.

(** C11: Every agent's [on_chat] first sends one acknowledgement of the
    incoming message's id, and sends no other acknowledgement while it
    handles the contents. *)
Theorem on_chat_acknowledges_first (msg : ChatMessage) :
  exists rest, on_chat msg = ChatAcknowledgement (cm_msg_id msg) :: rest /\
               forallb (fun s => negb (is_ack s)) rest = true.
Proof.
  eexists; split; [reflexivity|].
  induction (cm_content msg) as [|c cs IH]; [reflexivity|].
  cbn [flat_map]. rewrite forallb_app, handle_content_no_ack. exact IH.
Qed.

(** [on_chat] answers each text content with exactly one reply, the
    agent's handler applied to that text, in the order of the
    contents. *)
Theorem on_chat_replies (msg : ChatMessage) :
  replies (on_chat msg) = map role_handle_request (texts (cm_content msg)).
Proof.
  unfold on_chat, replies, texts. cbn [flat_map app].
  induction (cm_content msg) as [|c cs IH]; [reflexivity|].
  cbn [flat_map]. rewrite !flat_map_app, IH. destruct c; reflexivity.
Qed.

End OnChatProps.

(** ** What the routers do with the agents' own command formats *)

Lemma deliver_in_delivery : ("deliver" in_str "delivery") = true.
Proof. reflexivity. Qed.

(** C27: The seller's [handle_confirm_delivery] is unreachable: a request
    that contains "delivery" contains "deliver", which the first test
    already sends to [handle_fulfill_obligation]. *)
Theorem seller_confirm_delivery_unreachable request :
  Seller.handle_seller_request request <> Seller.handle_confirm_delivery.
Proof.
  unfold Seller.handle_seller_request.
  set (r := py_lower request).
  destruct (("fulfill" in_str r) || ("deliver" in_str r)) eqn:H1; [discriminate|].
  apply orb_false_iff in H1 as [_ Hdel].
  destruct (("confirm" in_str r) && ("delivery" in_str r)) eqn:H2.
  - apply andb_prop in H2 as [_ Hdy].
    rewrite (py_contains_trans _ _ _ deliver_in_delivery Hdy) in Hdel. discriminate.
  - bool_cases; discriminate.
Qed.

(** The seller agent's own command [CONFIRM_DELIVERY: ...], which its
    help text advertises, is always routed to
    [handle_fulfill_obligation]. *)
Theorem seller_confirm_delivery_command args :
  Seller.handle_seller_request ("CONFIRM_DELIVERY: " ++ args) = Seller.handle_fulfill_obligation.
Proof.
  unfold Seller.handle_seller_request. rewrite py_lower_app.
  replace ("deliver" in_str (py_lower "CONFIRM_DELIVERY: " ++ py_lower args)) with true.
  - now rewrite orb_true_r.
  - symmetry. apply py_contains_append_l. reflexivity.
Qed.

(** Keywords absent from the command word and from the arguments are
    absent from the request, when the command word cannot start one. *)
Lemma keyword_absent (cmd args k : string) :
  suffix_overlap k (py_lower cmd) = false -> (k in_str py_lower cmd) = false ->
  (k in_str py_lower args) = false -> (k in_str py_lower (cmd ++ args)) = false.
Proof.
  intros Hov Hc Ha. rewrite py_lower_app, py_contains_app_no_overlap by exact Hov.
  now rewrite Hc, Ha.
Qed.

Ltac keywords_absent H :=
  unfold free_of, buyer_keywords in H; cbn [forallb] in H;
  repeat match type of H with
         | (_ && _)%bool = true => apply andb_prop in H as [?Hk H]
         end;
  repeat match goal with
         | Hk : negb _ = true |- _ => apply negb_true_iff in Hk
         end;
  repeat match goal with
         | Hk : (?k in_str py_lower ?a) = false |- context [?k in_str py_lower (?c ++ ?a)] =>
             rewrite (keyword_absent c a k ltac:(reflexivity) ltac:(reflexivity) Hk)
         end.

(** The buyer agent does not recognise the two command formats its
    own instructions ask for: [CREATE_ESCROW: ...] (the underscore is
    not the space of "create escrow") and [CONFIRM: ...] (which lacks
    "fulfillment") both get the "not sure" answer when the arguments
    contain none of the buyer's keywords. *)
Theorem buyer_command_formats_unrecognized args :
  free_of buyer_keywords args = true ->
  Buyer.handle_buyer_request ("CREATE_ESCROW: " ++ args) = Buyer.not_sure /\
  Buyer.handle_buyer_request ("CONFIRM: " ++ args) = Buyer.not_sure.
Proof.
  intros H. unfold Buyer.handle_buyer_request. split.
  - keywords_absent H. reflexivity.
  - keywords_absent H.
    replace ("confirm" in_str py_lower ("CONFIRM: " ++ args)) with true
      by (symmetry; rewrite py_lower_app; apply py_contains_append_l; reflexivity).
    reflexivity.
Qed.

Lemma buyer_command_formats_unrecognized_witness :
  free_of buyer_keywords "0x5aAeb6053F3E94C9b9A09f33669435E7Ef1BeAed, 1.5, 7, laptop" = true /\
  Buyer.handle_buyer_request ("CREATE_ESCROW: " ++ "0x5aAeb6053F3E94C9b9A09f33669435E7Ef1BeAed, 1.5, 7, laptop") = Buyer.not_sure /\
  Buyer.handle_buyer_request ("CONFIRM: " ++ "0x5aAeb6053F3E94C9b9A09f33669435E7Ef1BeAed, 1.5, 7, laptop") = Buyer.not_sure.
Proof.
  split; [vm_compute; reflexivity|].
  apply buyer_command_formats_unrecognized. vm_compute. reflexivity.
Defined.
