(* ===== verification/Registry.v ===== *)
(** * The escrow registry (specification, section 4.1)

    The registry owns every escrow and dispute record and enforces the
    lifecycle.  No file under [src/] implements it (the agents only print
    instructions), so its operations are modelled from the
    specification; what it composes is the code: the [EscrowData] and
    [DisputeRecord] dataclasses, the [EscrowState] enum, and the
    validators of [utils.py] through the class [EscrowValidator].

    - [transition]: the status graph as a total function on
      (status, command kind), with no default branch.
    - [step]: one command on the registry state (two [gmap]s keyed by
      id), returning the new state and a response, or an error value
      that leaves the state as it was.
    - [reachable]: the states produced by any sequence of commands from
      the empty registry; the invariants are proved by induction on it.
    The oracle verdict for a deposit is an input of the command: the
    specification runs the oracle call outside the per-escrow critical
    section, so the registry only applies its policy to the verdict. *)

From stdpp Require Import base gmap strings.
From Stdlib Require Import String ZArith List Bool Lia SpecFloat.
From S2P Require Import Prelude PyFloat Models Validation.
Import ListNotations.

Local Open Scope Z_scope.

(** ** Interfaces *)

(** What the registry needs from the validation engine. *)
Class EscrowValidator : Type := {
  validate_record : EscrowData.EscrowData -> Z -> list string;
  valid_tx_proof : string -> bool
}.

(** The code's validators implement it. *)
#[export] Instance utils_validator : EscrowValidator :=
  { validate_record := validate_escrow_data; valid_tx_proof := validate_transaction_hash }.

(** The part of an oracle [VerificationResult] the policy reads. *)
Record OracleVerdict : Type := mkVerdict {
  verdict_verified : bool;
  verdict_confidence : float
}.

(** [OracleUnavailableError] is surfaced as this verdict. *)
Definition unavailable_verdict : OracleVerdict := mkVerdict false (S754_zero false).

(** ** Commands, responses, errors *)

Inductive Decision : Type := Release | Refund.

Inductive Command : Type :=
| Create (req : CreateEscrowRequest.CreateEscrowRequest) (now : Z)
| Deposit (escrow_id : string) (asset : Asset.Asset) (proof : option string)
          (verdict : option OracleVerdict) (now : Z)
| ConfirmFulfillment (escrow_id : string) (now : Z)
| RaiseDispute (escrow_id dispute_id party reason : string)
               (evidence : list DisputeEvidence.DisputeEvidence) (now : Z)
| ResolveDispute (escrow_id : string) (decision : Decision) (reasoning : string) (now : Z)
| Cancel (escrow_id : string) (now : Z)
| Status (escrow_id : string).

(** The status-changing kinds of command, the arguments of [transition]. *)
Inductive CommandKind : Type :=
| KDeposit | KConfirm | KDispute | KResolve (d : Decision) | KCancel.

Inductive RegistryError : Type :=
| ValidationError (reasons : list string)
| InvalidStateError (current : EscrowState)
| NotFoundError (id : string)
| OracleInconclusive.

Inductive Response : Type :=
| Created (escrow_id : string)
| Moved (escrow_id : string) (new_status : EscrowState)
| StatusIs (status : EscrowState).

(** Decidable equality, for [decide] and [case_decide]. *)
#[export] Instance EscrowState_EqDecision : EqDecision EscrowState.
Proof. solve_decision. Defined.
#[export] Instance Decision_EqDecision : EqDecision Decision.
Proof. solve_decision. Defined.
#[export] Instance CommandKind_EqDecision : EqDecision CommandKind.
Proof. solve_decision. Defined.

(** ** The status graph *)

Definition transition (s : EscrowState) (k : CommandKind) : result EscrowState RegistryError :=
  match s, k with
  | AWAITING_DEPOSIT, KDeposit => Ok AWAITING_FULFILLMENT
  | AWAITING_DEPOSIT, KDispute => Ok DISPUTE_RAISED
  | AWAITING_DEPOSIT, KCancel => Ok CANCELED
  | AWAITING_FULFILLMENT, KConfirm => Ok COMPLETED
  | AWAITING_FULFILLMENT, KDispute => Ok DISPUTE_RAISED
  | DISPUTE_RAISED, KResolve Release => Ok COMPLETED
  | DISPUTE_RAISED, KResolve Refund => Ok CANCELED
  | AWAITING_DEPOSIT, (KConfirm | KResolve _)
  | AWAITING_FULFILLMENT, (KDeposit | KResolve _ | KCancel)
  | DISPUTE_RAISED, (KDeposit | KConfirm | KDispute | KCancel)
  | COMPLETED, _
  | CANCELED, _ => Err (InvalidStateError s)
  end.

Definition terminal (s : EscrowState) : bool :=
  match s with COMPLETED | CANCELED => true | _ => false end.

(** ** The registry state *)

Record Registry : Type := mkRegistry {
  escrows : gmap string EscrowData.EscrowData;
  disputes : gmap string DisputeRecord.DisputeRecord
}.

Definition empty_registry : Registry := mkRegistry ∅ ∅.

Definition on_chain (t : TradeType) : bool :=
  match t with CRYPTO | CROSS_CHAIN => true | FIAT_P2P => false end.

Section Step.
Context `{EscrowValidator}.

(** The oracle confidence below which a verdict is inconclusive. *)
Variable threshold : float.

Definition sufficient (v : OracleVerdict) : bool :=
  verdict_verified v && fleb threshold (verdict_confidence v).

(** The record [create] stores, before validation. *)
Definition escrow_of_request (req : CreateEscrowRequest.CreateEscrowRequest) (now : Z)
    : EscrowData.EscrowData :=
  EscrowData.mk (CreateEscrowRequest.escrow_id req) None AWAITING_DEPOSIT
    (CreateEscrowRequest.trade_type req) (CreateEscrowRequest.buyer_address req)
    (CreateEscrowRequest.seller_address req) (CreateEscrowRequest.arbiter_address req) ""
    (Some (CreateEscrowRequest.asset_a req)) (Some (CreateEscrowRequest.asset_b req))
    (Some (CreateEscrowRequest.terms req)) now now None None None None None None []
    (CreateEscrowRequest.frontend_callback_url req) None [].

(** A request with other platform and arbiter fee percentages. *)
Definition with_fees (req : CreateEscrowRequest.CreateEscrowRequest) (platform arbiter_fee : float)
    : CreateEscrowRequest.CreateEscrowRequest :=
  let t := CreateEscrowRequest.terms req in
  CreateEscrowRequest.mk (CreateEscrowRequest.escrow_id req) (CreateEscrowRequest.trade_type req)
    (CreateEscrowRequest.buyer_address req) (CreateEscrowRequest.seller_address req)
    (CreateEscrowRequest.arbiter_address req) (CreateEscrowRequest.asset_a req) (CreateEscrowRequest.asset_b req)
    (EscrowTerms.mk (EscrowTerms.description t) (EscrowTerms.deadline t) (EscrowTerms.auto_release_hours t)
       (EscrowTerms.dispute_window_hours t) arbiter_fee platform)
    (CreateEscrowRequest.frontend_callback_url req).

(** A record with a new status and update time, every other field kept. *)
Definition with_status (e : EscrowData.EscrowData) (s : EscrowState) (now : Z)
    : EscrowData.EscrowData :=
  EscrowData.mk (EscrowData.escrow_id e) (EscrowData.contract_address e) s
    (EscrowData.trade_type e) (EscrowData.buyer_address e) (EscrowData.seller_address e)
    (EscrowData.arbiter_address e) (EscrowData.creator_agent e) (EscrowData.asset_a e)
    (EscrowData.asset_b e) (EscrowData.terms e) (EscrowData.created_at e) now
    (EscrowData.deposit_tx_hash e) (EscrowData.fulfillment_tx_hash e)
    (EscrowData.release_tx_hash e) (EscrowData.refund_tx_hash e) (EscrowData.dispute_id e)
    (EscrowData.dispute_reason e) (EscrowData.dispute_evidence e)
    (EscrowData.frontend_callback_url e) (EscrowData.frontend_session_id e)
    (EscrowData.metadata e).

Definition with_deposit (e : EscrowData.EscrowData) (proof : option string) : EscrowData.EscrowData :=
  EscrowData.mk (EscrowData.escrow_id e) (EscrowData.contract_address e) (EscrowData.status e)
    (EscrowData.trade_type e) (EscrowData.buyer_address e) (EscrowData.seller_address e)
    (EscrowData.arbiter_address e) (EscrowData.creator_agent e) (EscrowData.asset_a e)
    (EscrowData.asset_b e) (EscrowData.terms e) (EscrowData.created_at e)
    (EscrowData.updated_at e) proof (EscrowData.fulfillment_tx_hash e)
    (EscrowData.release_tx_hash e) (EscrowData.refund_tx_hash e) (EscrowData.dispute_id e)
    (EscrowData.dispute_reason e) (EscrowData.dispute_evidence e)
    (EscrowData.frontend_callback_url e) (EscrowData.frontend_session_id e)
    (EscrowData.metadata e).

Definition with_dispute (e : EscrowData.EscrowData) (dispute_id reason : string)
    : EscrowData.EscrowData :=
  EscrowData.mk (EscrowData.escrow_id e) (EscrowData.contract_address e) (EscrowData.status e)
    (EscrowData.trade_type e) (EscrowData.buyer_address e) (EscrowData.seller_address e)
    (EscrowData.arbiter_address e) (EscrowData.creator_agent e) (EscrowData.asset_a e)
    (EscrowData.asset_b e) (EscrowData.terms e) (EscrowData.created_at e)
    (EscrowData.updated_at e) (EscrowData.deposit_tx_hash e) (EscrowData.fulfillment_tx_hash e)
    (EscrowData.release_tx_hash e) (EscrowData.refund_tx_hash e) (Some dispute_id)
    (Some reason) (EscrowData.dispute_evidence e)
    (EscrowData.frontend_callback_url e) (EscrowData.frontend_session_id e)
    (EscrowData.metadata e).

Definition open_dispute (escrow_id dispute_id party reason : string)
    (evidence : list DisputeEvidence.DisputeEvidence) (arbiter : string) (now : Z)
    : DisputeRecord.DisputeRecord :=
  DisputeRecord.mk dispute_id escrow_id party reason evidence "open" arbiter now None None None.

Definition decision_value (d : Decision) : string :=
  match d with Release => "release" | Refund => "refund" end%string.

Definition resolve_record (r : DisputeRecord.DisputeRecord) (d : Decision) (reasoning : string)
    (now : Z) : DisputeRecord.DisputeRecord :=
  DisputeRecord.mk (DisputeRecord.dispute_id r) (DisputeRecord.escrow_id r)
    (DisputeRecord.disputing_party r) (DisputeRecord.reason r) (DisputeRecord.evidence r)
    "resolved" (DisputeRecord.arbiter_address r) (DisputeRecord.created_at r) (Some now)
    (Some (decision_value d)) (Some reasoning).

Definition find (reg : Registry) (id : string) : result EscrowData.EscrowData RegistryError :=
  match escrows reg !! id with
  | Some e => Ok e
  | None => Err (NotFoundError id)
  end.

Definition put (reg : Registry) (id : string) (e : EscrowData.EscrowData) : Registry :=
  mkRegistry (<[id := e]> (escrows reg)) (disputes reg).

(** The open dispute record of an escrow. *)
Definition find_open_dispute (reg : Registry) (e : EscrowData.EscrowData)
    : result DisputeRecord.DisputeRecord RegistryError :=
  match EscrowData.dispute_id e with
  | Some d =>
      match disputes reg !! d with
      | Some r => if String.eqb (DisputeRecord.status r) "open" then Ok r
                  else Err (InvalidStateError (EscrowData.status e))
      | None => Err (InvalidStateError (EscrowData.status e))
      end
  | None => Err (InvalidStateError (EscrowData.status e))
  end.

Local Open Scope py_scope.

Definition step (reg : Registry) (c : Command) : result (Registry * Response) RegistryError :=
  match c with
  | Create req now =>
      let e := escrow_of_request req now in
      match escrows reg !! EscrowData.escrow_id e with
      | Some _ => Err (ValidationError ["Escrow ID already exists"%string])
      | None =>
          match validate_record e now with
          | [] => Ok (put reg (EscrowData.escrow_id e) e, Created (EscrowData.escrow_id e))
          | errs => Err (ValidationError errs)
          end
      end
  | Deposit id _ proof verdict now =>
      e <- find reg id ;;
      s' <- transition (EscrowData.status e) KDeposit ;;
      if on_chain (EscrowData.trade_type e) then
        match proof with
        | Some h =>
            if valid_tx_proof h then
              if sufficient (match verdict with Some v => v | None => unavailable_verdict end)
              then Ok (put reg id (with_status (with_deposit e proof) s' now), Moved id s')
              else Err OracleInconclusive
            else Err (ValidationError ["Invalid transaction hash"%string])
        | None => Err (ValidationError ["Transaction proof is required"%string])
        end
      else Ok (put reg id (with_status (with_deposit e proof) s' now), Moved id s')
  | ConfirmFulfillment id now =>
      e <- find reg id ;;
      s' <- transition (EscrowData.status e) KConfirm ;;
      Ok (put reg id (with_status e s' now), Moved id s')
  | RaiseDispute id did party reason evidence now =>
      e <- find reg id ;;
      s' <- transition (EscrowData.status e) KDispute ;;
      match disputes reg !! did with
      | Some _ => Err (ValidationError ["Dispute ID already exists"%string])
      | None =>
          let r := open_dispute id did party reason evidence (EscrowData.arbiter_address e) now in
          Ok (mkRegistry (<[id := with_status (with_dispute e did reason) s' now]> (escrows reg))
                         (<[did := r]> (disputes reg)),
              Moved id s')
      end
  | ResolveDispute id d reasoning now =>
      e <- find reg id ;;
      s' <- transition (EscrowData.status e) (KResolve d) ;;
      r <- find_open_dispute reg e ;;
      Ok (mkRegistry (<[id := with_status e s' now]> (escrows reg))
                     (<[DisputeRecord.dispute_id r := resolve_record r d reasoning now]> (disputes reg)),
          Moved id s')
  | Cancel id now =>
      e <- find reg id ;;
      s' <- transition (EscrowData.status e) KCancel ;;
      Ok (put reg id (with_status e s' now), Moved id s')
  | Status id =>
      e <- find reg id ;;
      Ok (reg, StatusIs (EscrowData.status e))
  end.

(** The registry after a command: an error leaves it as it was. *)
Definition handle (reg : Registry) (c : Command) : Registry * result Response RegistryError :=
  match step reg c with
  | Ok (reg', resp) => (reg', Ok resp)
  | Err e => (reg, Err e)
  end.

(** The states any sequence of commands reaches from the empty registry. *)
(** One successful command. *)
Definition registry_step (reg reg' : Registry) : Prop :=
  exists c resp, step reg c = Ok (reg', resp).

Inductive reachable : Registry -> Prop :=
| reachable_empty : reachable empty_registry
| reachable_step reg c reg' resp :
    reachable reg -> step reg c = Ok (reg', resp) -> reachable reg'.

End Step.

(** ** The lifecycle graph of the specification *)

Inductive edge : EscrowState -> EscrowState -> Prop :=
| edge_deposit : edge AWAITING_DEPOSIT AWAITING_FULFILLMENT
| edge_fulfil : edge AWAITING_FULFILLMENT COMPLETED
| edge_dispute_deposit : edge AWAITING_DEPOSIT DISPUTE_RAISED
| edge_dispute_fulfilment : edge AWAITING_FULFILLMENT DISPUTE_RAISED
| edge_release : edge DISPUTE_RAISED COMPLETED
| edge_refund : edge DISPUTE_RAISED CANCELED
| edge_cancel : edge AWAITING_DEPOSIT CANCELED.

#[export] Hint Constructors edge : core.

(** The escrow a status-changing command targets, and its kind. *)
Definition command_target (c : Command) : option (string * CommandKind) :=
  match c with
  | Deposit id _ _ _ _ => Some (id, KDeposit)
  | ConfirmFulfillment id _ => Some (id, KConfirm)
  | RaiseDispute id _ _ _ _ _ => Some (id, KDispute)
  | ResolveDispute id d _ _ => Some (id, KResolve d)
  | Cancel id _ => Some (id, KCancel)
  | Create _ _ | Status _ => None
  end.

(** How an escrow evolves in one successful step, without changing
    anyone else's. *)
Definition escrow_moves (before after : option EscrowData.EscrowData) : Prop :=
  after = before \/
  (exists e', after = Some e' /\
     ((before = None /\ EscrowData.status e' = AWAITING_DEPOSIT) \/
      (exists e, before = Some e /\ edge (EscrowData.status e) (EscrowData.status e') /\
                 terminal (EscrowData.status e) = false))).

(** Every dispute record is stored under its own id, and is either open
    or resolved with a release or refund decision. *)
Definition disputes_wf (reg : Registry) : Prop :=
  forall d r, disputes reg !! d = Some r ->
    DisputeRecord.dispute_id r = d /\
    (DisputeRecord.status r = "open"%string \/
     (DisputeRecord.status r = "resolved"%string /\ exists dec, DisputeRecord.decision r = Some (decision_value dec))).

(** The escrows and the dispute records agree: a DISPUTE_RAISED escrow
    names an open record that belongs to it, and every open record
    belongs to a DISPUTE_RAISED escrow that names it. *)
Definition dispute_consistent (reg : Registry) : Prop :=
  (forall k e, escrows reg !! k = Some e -> EscrowData.status e = DISPUTE_RAISED ->
     exists d r, EscrowData.dispute_id e = Some d /\ disputes reg !! d = Some r /\
       DisputeRecord.status r = "open"%string /\ DisputeRecord.escrow_id r = k) /\
  (forall d r, disputes reg !! d = Some r -> DisputeRecord.status r = "open"%string ->
     exists e, escrows reg !! DisputeRecord.escrow_id r = Some e /\
       EscrowData.status e = DISPUTE_RAISED /\ EscrowData.dispute_id e = Some d).

(** The status a resolution moves a disputed escrow to. *)
Definition resolved_status (d : Decision) : EscrowState :=
  match d with Release => COMPLETED | Refund => CANCELED end.

(** ** Scenarios, with the validators of [utils.py] *)

Section Scenarios.
Local Open Scope string_scope.

Definition buyer0 : string := "0x5aAeb6053F3E94C9b9A09f33669435E7Ef1BeAed".
Definition seller0 : string := "0xfB6916095ca1df60bB79Ce92cE3Ea74c37c5d359".
Definition arbiter0 : string := "0xdbF03B407c01E7cD3CBea99509d93f8DDDC8C6FB".
Definition id0 : string := "escrow_1700000000_3f2a9c1b".
Definition now0 : Z := 1700000000.
Definition threshold0 : float := float_of_decimal false 5 (-1).

Definition request0 (platform arbiter_fee : float) : CreateEscrowRequest.CreateEscrowRequest :=
  CreateEscrowRequest.mk id0 CRYPTO buyer0 seller0 arbiter0
    (Asset.mk ETH None "1.5" ETHEREUM (Some "ETH") 18 None)
    (Asset.mk FIAT None "3000" ETHEREUM (Some "USD") 2 None)
    (EscrowTerms.mk "laptop" (now0 + 86400) None 24 arbiter_fee platform)
    None.

Definition fees0 : float * float := (float_of_decimal false 5 (-1), float_of_decimal false 10 (-1)).

Definition escrow0 : EscrowData.EscrowData := escrow_of_request (request0 (fst fees0) (snd fees0)) now0.

Definition registry0 : Registry := put empty_registry id0 escrow0.

Definition tx0 : string := "0x88df016429689c079f3b2f6ad39fa052532c56795b733da78a91ebe6a713944b".

Definition verdict0 : OracleVerdict := mkVerdict true (float_of_decimal false 9 (-1)).

(** A dispute raised on [escrow0] and resolved by a refund. *)
Definition state_after (reg : Registry) (c : Command) : Registry :=
  match step threshold0 reg c with Ok (r, _) => r | Err _ => reg end.

Definition dispute0 : string := "dispute_1700000100_77ab01cd".
Definition raise0 : Command := RaiseDispute id0 dispute0 buyer0 "item not delivered" [] (now0 + 100).
Definition resolve0 : Command := ResolveDispute id0 Refund "no delivery proof" (now0 + 200).
Definition registry1 : Registry := state_after registry0 raise0.
Definition registry2 : Registry := state_after registry1 resolve0.

(** [escrow0] once the dispute is raised. *)
Definition escrow1 : EscrowData.EscrowData :=
  with_status (with_dispute escrow0 dispute0 "item not delivered") DISPUTE_RAISED (now0 + 100).

End Scenarios.

Lemma transition_edge s k s' : transition s k = Ok s' -> edge s s'.
Proof. destruct s, k as [| | |[]|]; cbn; intros [= <-]; auto. Qed.

Lemma transition_error s k e : transition s k = Err e -> e = InvalidStateError s.
Proof. destruct s, k as [| | |[]|]; cbn; congruence. Qed.

Lemma transition_terminal s k : terminal s = true -> exists e, transition s k = Err e.
Proof. destruct s; try discriminate; destruct k as [| | |[]|]; eexists; reflexivity. Qed.

Lemma bind_err {A B E} (r : result A E) (k : A -> result B E) e :
  r = Err e -> result_bind r k = Err e.
Proof. now intros ->. Qed.

Lemma bind_ok_inv {A B E} (r : result A E) (k : A -> result B E) b :
  result_bind r k = Ok b -> exists a, r = Ok a /\ k a = Ok b.
Proof. destruct r; cbn; [eauto|discriminate]. Qed.

Lemma find_some reg id e : escrows reg !! id = Some e -> find reg id = Ok e.
Proof. unfold find. now intros ->. Qed.

Section Properties.
Context `{EscrowValidator}.
Variable threshold : float.

(** C1: A status-changing command that the target's current status does
    not allow is rejected with [InvalidStateError] carrying that status,
    and [handle] leaves the registry exactly as it was: no transition is
    ever a silent no-op or a partial update. *)
Theorem illegal_command_rejected reg c id k e err :
  command_target c = Some (id, k) -> escrows reg !! id = Some e ->
  transition (EscrowData.status e) k = Err err ->
  err = InvalidStateError (EscrowData.status e) /\
  step threshold reg c = Err err /\ handle threshold reg c = (reg, Err err).
Proof.
  intros Hc Hid Ht. split; [now apply transition_error in Ht|].
  assert (Hs : step threshold reg c = Err err).
  { destruct c; cbn in Hc; inversion Hc; subst; cbn;
      rewrite (find_some _ _ _ Hid); cbn; now rewrite Ht. }
  split; [exact Hs|]. unfold handle. now rewrite Hs.
Qed.

End Properties.

(** ** What one step does to the escrows *)

Lemma find_ok reg id e : find reg id = Ok e -> escrows reg !! id = Some e.
Proof. unfold find. destruct (escrows reg !! id); congruence. Qed.

Ltac bind_inv H :=
  repeat match type of H with
         | result_bind _ _ = Ok _ =>
             let a := fresh "a" in let Ha := fresh "Ha" in
             apply bind_ok_inv in H as (a & Ha & H)
         end.

Lemma lookup_insert_cases {A} (m : gmap string A) i x j y :
  <[i:=x]> m !! j = Some y -> (i = j /\ x = y) \/ (i <> j /\ m !! j = Some y).
Proof.
  destruct (decide (i = j)) as [<-|Hne].
  - rewrite lookup_insert_eq. intros [= <-]. auto.
  - rewrite lookup_insert_ne by exact Hne. auto.
Qed.

Lemma escrow_moves_insert (m : gmap string EscrowData.EscrowData) id e e' j :
  m !! id = Some e -> edge (EscrowData.status e) (EscrowData.status e') ->
  terminal (EscrowData.status e) = false ->
  escrow_moves (m !! j) (<[id := e']> m !! j).
Proof.
  intros Hid Hedge Hterm. destruct (decide (id = j)) as [<-|Hne].
  - rewrite lookup_insert_eq. right. exists e'. split; [reflexivity|]. right. eauto.
  - rewrite lookup_insert_ne by exact Hne. now left.
Qed.

Lemma transition_not_terminal s k s' : transition s k = Ok s' -> terminal s = false.
Proof. destruct s; [reflexivity..| |]; destruct k as [| | |[]|]; discriminate. Qed.

(** Case on every [if] and option [match] of a hypothesis. *)
Ltac cases_in H :=
  repeat match type of H with
         | context [if ?b then _ else _] => destruct b eqn:?
         | context [match ?x with Some _ => _ | None => _ end] => destruct x eqn:?
         end.

Section StepFacts.
Context `{EscrowValidator}.
Variable threshold : float.

Ltac finish_move :=
  match goal with
  | Hf : find _ _ = Ok ?e, Ht : transition _ _ = Ok _ |- _ =>
      apply find_ok in Hf;
      eapply escrow_moves_insert;
      [exact Hf | cbn; eapply transition_edge; exact Ht | eapply transition_not_terminal; exact Ht]
  end.

Lemma step_escrow_moves reg c reg' resp j :
  step threshold reg c = Ok (reg', resp) -> escrow_moves (escrows reg !! j) (escrows reg' !! j).
Proof.
  intros Hs. destruct c; cbn in Hs.
  - destruct (escrows reg !! _) eqn:Hfresh; [discriminate|].
    destruct (validate_record _ _); [|discriminate]. injection Hs as <- <-. cbn.
    destruct (decide (CreateEscrowRequest.escrow_id req = j)) as [<-|Hne].
    + rewrite lookup_insert_eq, Hfresh. right. eexists; split; [reflexivity|]. left; auto.
    + rewrite lookup_insert_ne by exact Hne. now left.
  - bind_inv Hs. cases_in Hs; try discriminate; injection Hs as <- <-; finish_move.
  - bind_inv Hs. injection Hs as <- <-. finish_move.
  - bind_inv Hs. cases_in Hs; try discriminate; injection Hs as <- <-; finish_move.
  - bind_inv Hs. injection Hs as <- <-. finish_move.
  - bind_inv Hs. injection Hs as <- <-. finish_move.
  - bind_inv Hs. injection Hs as <- <-. now left.
Qed.

End StepFacts.

Section Lifecycle.
Context `{EscrowValidator}.
Variable threshold : float.

(** C2: Along any sequence of commands an escrow is never removed, its
    status only moves along the specification's lifecycle graph, and
    once COMPLETED or CANCELED the whole record never changes again. *)
Theorem lifecycle_follows_graph reg reg' id e :
  star (registry_step threshold) reg reg' -> escrows reg !! id = Some e ->
  exists e', escrows reg' !! id = Some e' /\
    star edge (EscrowData.status e) (EscrowData.status e') /\
    (terminal (EscrowData.status e) = true -> e' = e).
Proof.
  intros Hs. revert e. induction Hs as [r|r1 r2 r3 [c [resp Hstep]] _ IH]; intros e He.
  - exists e. split; [exact He|]. split; [constructor|auto].
  - pose proof (step_escrow_moves threshold r1 c r2 resp id Hstep) as Hm.
    rewrite He in Hm. destruct Hm as [Hsame | (e1 & He1 & [[[=] _] | (e0 & [= <-] & Hedge & Hnt)])].
    + destruct (IH e Hsame) as (e' & He' & Hstar & Hterm). eauto.
    + destruct (IH e1 He1) as (e' & He' & Hstar & Hterm).
      exists e'. split; [exact He'|]. split; [eapply star_step; eauto|].
      intros Ht. congruence.
Qed.

(** C3: [create] succeeds exactly when no escrow has the request's id and
    the validator reports no error on the record built from the request;
    the registry then stores that record, at status AWAITING_DEPOSIT,
    under its id, and nothing else changes. *)
Theorem create_spec reg req now reg' resp :
  step threshold reg (Create req now) = Ok (reg', resp) <->
  escrows reg !! CreateEscrowRequest.escrow_id req = None /\
  validate_record (escrow_of_request req now) now = [] /\
  reg' = put reg (CreateEscrowRequest.escrow_id req) (escrow_of_request req now) /\
  resp = Created (CreateEscrowRequest.escrow_id req) /\
  EscrowData.status (escrow_of_request req now) = AWAITING_DEPOSIT.
Proof.
  cbn. split.
  - destruct (escrows reg !! _) eqn:Hfresh; [discriminate|].
    destruct (validate_record _ _) eqn:Hv; [|discriminate]. intros [= <- <-]. auto.
  - intros (-> & -> & -> & -> & _). reflexivity.
Qed.

(** C4: A deposit on an on-chain trade (crypto or cross-chain) is
    confirmed only with a well-formed transaction proof and an oracle
    verdict that is verified with a confidence at or above the
    threshold; a missing (unavailable) verdict never confirms it. *)
Theorem deposit_requires_sufficient_verdict reg id a proof v now reg' resp e :
  escrows reg !! id = Some e -> on_chain (EscrowData.trade_type e) = true ->
  step threshold reg (Deposit id a proof v now) = Ok (reg', resp) ->
  exists h ver, proof = Some h /\ valid_tx_proof h = true /\ v = Some ver /\
    verdict_verified ver = true /\ fleb threshold (verdict_confidence ver) = true.
Proof.
  intros He Hchain Hs. cbn in Hs. rewrite (find_some _ _ _ He) in Hs. cbn in Hs.
  destruct (transition _ KDeposit); cbn in Hs; [|discriminate].
  rewrite Hchain in Hs.
  destruct proof as [h|]; [|discriminate].
  destruct (valid_tx_proof h) eqn:Hp; [|discriminate].
  destruct v as [ver|]; cbn in Hs; [|discriminate].
  unfold sufficient in Hs. destruct (verdict_verified ver) eqn:Hver; [|discriminate].
  destruct (fleb threshold (verdict_confidence ver)) eqn:Hc; [|discriminate].
  eauto 10.
Qed.

End Lifecycle.


(** Scenario C of the specification: confirming fulfillment of an escrow
    still awaiting its deposit. *)
Lemma illegal_command_rejected_witness :
  command_target (ConfirmFulfillment id0 (now0 + 60)) = Some (id0, KConfirm) /\
  escrows registry0 !! id0 = Some escrow0 /\
  transition (EscrowData.status escrow0) KConfirm = Err (InvalidStateError AWAITING_DEPOSIT) /\
  (InvalidStateError AWAITING_DEPOSIT = InvalidStateError (EscrowData.status escrow0) /\
   step threshold0 registry0 (ConfirmFulfillment id0 (now0 + 60)) = Err (InvalidStateError AWAITING_DEPOSIT) /\
   handle threshold0 registry0 (ConfirmFulfillment id0 (now0 + 60)) =
     (registry0, Err (InvalidStateError AWAITING_DEPOSIT))).
Proof.
  assert (Hid : escrows registry0 !! id0 = Some escrow0) by apply lookup_insert_eq.
  split; [reflexivity|]. split; [exact Hid|]. split; [reflexivity|].
  exact (illegal_command_rejected threshold0 registry0 (ConfirmFulfillment id0 (now0 + 60))
           id0 KConfirm escrow0 _ eq_refl Hid eq_refl).
Defined.

Lemma create0 : step threshold0 empty_registry (Create (request0 (fst fees0) (snd fees0)) now0)
                = Ok (registry0, Created id0).
Proof. vm_compute. reflexivity. Qed.

Lemma lifecycle_follows_graph_witness :
  star (registry_step threshold0) empty_registry registry0 /\
  escrows registry0 !! id0 = Some escrow0 /\
  exists e', escrows registry0 !! id0 = Some e' /\
    star edge (EscrowData.status escrow0) (EscrowData.status e') /\
    (terminal (EscrowData.status escrow0) = true -> e' = escrow0).
Proof.
  assert (Hs : star (registry_step threshold0) empty_registry registry0).
  { eapply star_step; [exists (Create (request0 (fst fees0) (snd fees0)) now0), (Created id0);
                       exact create0 | apply star_refl]. }
  assert (Hid : escrows registry0 !! id0 = Some escrow0) by apply lookup_insert_eq.
  split; [exact Hs|]. split; [exact Hid|].
  exact (lifecycle_follows_graph threshold0 registry0 registry0 id0 escrow0 (star_refl _ _) Hid).
Defined.

Lemma deposit_requires_sufficient_verdict_witness :
  escrows registry0 !! id0 = Some escrow0 /\
  on_chain (EscrowData.trade_type escrow0) = true /\
  step threshold0 registry0 (Deposit id0 (Asset.default ETH) (Some tx0) (Some verdict0) (now0 + 60)) =
    Ok (put registry0 id0 (with_status (with_deposit escrow0 (Some tx0)) AWAITING_FULFILLMENT (now0 + 60)),
        Moved id0 AWAITING_FULFILLMENT) /\
  exists h ver, Some tx0 = Some h /\ valid_tx_proof h = true /\ Some verdict0 = Some ver /\
    verdict_verified ver = true /\ fleb threshold0 (verdict_confidence ver) = true.
Proof.
  assert (Hid : escrows registry0 !! id0 = Some escrow0) by apply lookup_insert_eq.
  assert (Hs : step threshold0 registry0 (Deposit id0 (Asset.default ETH) (Some tx0) (Some verdict0) (now0 + 60)) =
    Ok (put registry0 id0 (with_status (with_deposit escrow0 (Some tx0)) AWAITING_FULFILLMENT (now0 + 60)),
        Moved id0 AWAITING_FULFILLMENT)).
  { cbn. rewrite (find_some _ _ _ Hid). vm_compute. reflexivity. }
  split; [exact Hid|]. split; [reflexivity|]. split; [exact Hs|].
  exact (deposit_requires_sufficient_verdict threshold0 registry0 id0 _ _ _ _ _ _ escrow0 Hid eq_refl Hs).
Defined.

(** Scenario D of the specification: a verified verdict at confidence
    0.2 leaves the deposit unconfirmed. *)
Lemma deposit_low_confidence_inconclusive :
  handle threshold0 registry0
    (Deposit id0 (Asset.default ETH) (Some tx0) (Some (mkVerdict true (float_of_decimal false 2 (-1)))) (now0 + 60))
  = (registry0, Err OracleInconclusive).
Proof.
  unfold handle. cbn. rewrite (find_some registry0 id0 escrow0 (lookup_insert_eq _ _ _)).
  vm_compute. reflexivity.
Qed.

(** The validators of [utils.py] read no fee of a record. *)
Lemma validate_escrow_data_fees req now platform arbiter_fee :
  validate_escrow_data (escrow_of_request (with_fees req platform arbiter_fee) now) now =
  validate_escrow_data (escrow_of_request req now) now.
Proof. reflexivity. Qed.

(** C20: With the validators of [utils.py], whether the registry
    accepts an escrow does not depend on its fees: for every registry,
    request and pair of fee percentages (a sum of 100% or more, a
    negative fee or a NaN included), creating the escrow with those
    fees fails with exactly the errors the same request fails with, and
    succeeds when it succeeds, although the specification requires the
    fees to stay below 100%: [validate_escrow_data] checks no fee. *)
Theorem create_ignores_fees threshold reg req now platform arbiter_fee e :
  step threshold reg (Create (with_fees req platform arbiter_fee) now) = Err e <->
  step threshold reg (Create req now) = Err e.
Proof.
  cbn [step]. change (EscrowData.escrow_id (escrow_of_request (with_fees req platform arbiter_fee) now))
    with (EscrowData.escrow_id (escrow_of_request req now)).
  rewrite validate_escrow_data_fees.
  destruct (escrows reg !! _); [reflexivity|]. change (@validate_record utils_validator) with validate_escrow_data.
  destruct (validate_escrow_data _ _); [split; intros H; discriminate H|reflexivity].
Qed.

(** ** Dispute records *)

Section Disputes.
Context `{EscrowValidator}.
Variable threshold : float.
Local Open Scope string_scope.

(** What one step does to the dispute records: nothing, a fresh open
    record, or the resolution of an open one. *)
Lemma step_disputes reg c reg' resp :
  step threshold reg c = Ok (reg', resp) ->
  disputes reg' = disputes reg \/
  (exists did r, disputes reg !! did = None /\ disputes reg' = <[did := r]> (disputes reg) /\
     DisputeRecord.dispute_id r = did /\ DisputeRecord.status r = "open") \/
  (exists d r dec reasoning now, disputes reg !! d = Some r /\ DisputeRecord.status r = "open" /\
     disputes reg' = <[DisputeRecord.dispute_id r := resolve_record r dec reasoning now]> (disputes reg)).
Proof.
  intros Hs. destruct c; cbn in Hs.
  - cases_in Hs; try discriminate; destruct (validate_record _ _); try discriminate.
    injection Hs as <- <-. now left.
  - bind_inv Hs. cases_in Hs; try discriminate; injection Hs as <- <-; now left.
  - bind_inv Hs. injection Hs as <- <-. now left.
  - bind_inv Hs. cases_in Hs; try discriminate. injection Hs as <- <-.
    right; left. do 2 eexists. eauto.
  - bind_inv Hs. injection Hs as <- <-. right; right.
    unfold find_open_dispute in Ha1. cases_in Ha1; try discriminate.
    injection Ha1 as <-. apply String.eqb_eq in Heqb. do 5 eexists. eauto.
  - bind_inv Hs. injection Hs as <- <-. now left.
  - bind_inv Hs. injection Hs as <- <-. now left.
Qed.

Lemma disputes_wf_step reg c reg' resp :
  disputes_wf reg -> step threshold reg c = Ok (reg', resp) -> disputes_wf reg'.
Proof.
  intros Hwf Hs d r Hd.
  destruct (step_disputes reg c reg' resp Hs)
    as [Heq | [(did & r0 & Hfresh & Heq & Hid & Hopen) | (d0 & r0 & dec & rs & t & Hd0 & Hopen & Heq)]];
    rewrite Heq in Hd.
  - now apply Hwf.
  - apply lookup_insert_cases in Hd as [[<- <-] | [_ Hd]]; [auto | now apply Hwf].
  - apply lookup_insert_cases in Hd as [[<- <-] | [_ Hd]]; [|now apply Hwf].
    split; [reflexivity|]. right. split; [reflexivity|]. eauto.
Qed.

Lemma reachable_disputes_wf reg : reachable threshold reg -> disputes_wf reg.
Proof.
  induction 1 as [|reg c reg' resp _ IH Hs].
  - intros d r Hd. discriminate.
  - eapply disputes_wf_step; eauto.
Qed.

Lemma reachable_star reg reg' :
  reachable threshold reg -> star (registry_step threshold) reg reg' -> reachable threshold reg'.
Proof.
  intros Hr Hs. induction Hs as [|a b c' [cmd [resp Hstep]] _ IH]; [exact Hr|].
  apply IH. econstructor; eauto.
Qed.

(** C5: Once a dispute record is resolved it never changes again: in any
    state the registry can reach, a later sequence of commands keeps it
    as it is. *)
Theorem resolved_dispute_immutable reg reg' d r :
  reachable threshold reg -> disputes reg !! d = Some r -> DisputeRecord.status r = "resolved" ->
  star (registry_step threshold) reg reg' -> disputes reg' !! d = Some r.
Proof.
  intros Hr Hd Hres Hs. revert Hr Hd.
  induction Hs as [|a b c' [cmd [resp Hstep]] _ IH]; intros Hr Hd; [exact Hd|].
  apply IH; [econstructor; eauto|].
  destruct (step_disputes a cmd b resp Hstep)
    as [Heq | [(did & r0 & Hfresh & Heq & _ & _) | (d0 & r0 & dec & rs & t & Hd0 & Hopen & Heq)]];
    rewrite Heq.
  - exact Hd.
  - rewrite lookup_insert_ne; [exact Hd|]. intros ->. congruence.
  - rewrite lookup_insert_ne; [exact Hd|].
    destruct (reachable_disputes_wf a Hr d0 r0 Hd0) as [Hid _]. rewrite Hid.
    intros ->. rewrite Hd in Hd0. injection Hd0 as ->. congruence.
Qed.

End Disputes.

Lemma registry1_reachable : reachable threshold0 registry1.
Proof.
  apply (reachable_step _ registry0 raise0 registry1 (Moved id0 DISPUTE_RAISED)); [|vm_compute; reflexivity].
  apply (reachable_step _ empty_registry (Create (request0 (fst fees0) (snd fees0)) now0) registry0 (Created id0));
    [constructor|exact create0].
Qed.

Lemma registry2_reachable : reachable threshold0 registry2.
Proof.
  apply (reachable_step _ registry1 resolve0 registry2 (Moved id0 CANCELED)); [|vm_compute; reflexivity].
  exact registry1_reachable.
Qed.

Lemma resolved_dispute_immutable_witness :
  reachable threshold0 registry2 /\
  (exists r, disputes registry2 !! dispute0 = Some r /\ DisputeRecord.status r = "resolved"%string /\
     disputes registry2 !! dispute0 = Some r).
Proof.
  assert (H2 : reachable threshold0 registry2) by exact registry2_reachable.
  split; [exact H2|].
  destruct (disputes registry2 !! dispute0) as [r|] eqn:Hr; [|vm_compute in Hr; discriminate].
  exists r. assert (Hst : DisputeRecord.status r = "resolved"%string)
    by (vm_compute in Hr; injection Hr as <-; reflexivity).
  split; [reflexivity|]. split; [exact Hst|].
  exact (eq_trans (eq_sym Hr)
    (resolved_dispute_immutable threshold0 registry2 registry2 dispute0 r H2 Hr Hst (star_refl _ _))).
Defined.

(** ** Escrows and dispute records agree *)

Lemma transition_quiet s k s' :
  transition s k = Ok s' -> k = KDeposit \/ k = KConfirm \/ k = KCancel ->
  s <> DISPUTE_RAISED /\ s' <> DISPUTE_RAISED.
Proof.
  intros Ht Hk. destruct s, k as [| | |[]|]; cbn in Ht; try discriminate;
    try (destruct Hk as [?|[?|?]]; discriminate); injection Ht as <-; split; discriminate.
Qed.

Lemma transition_resolve s d s' :
  transition s (KResolve d) = Ok s' -> s = DISPUTE_RAISED /\ s' = resolved_status d.
Proof. destruct s, d; cbn; intros H; try discriminate; injection H as <-; auto. Qed.

Lemma find_open_dispute_ok reg e r :
  find_open_dispute reg e = Ok r ->
  exists d, EscrowData.dispute_id e = Some d /\ disputes reg !! d = Some r /\
            DisputeRecord.status r = "open"%string.
Proof.
  unfold find_open_dispute. intros H. cases_in H; try discriminate.
  injection H as <-. apply String.eqb_eq in Heqb. eauto.
Qed.

(** Storing a record that is not disputed over one that was not. *)
Lemma consistent_put reg id e' :
  (forall e, escrows reg !! id = Some e -> EscrowData.status e <> DISPUTE_RAISED) ->
  EscrowData.status e' <> DISPUTE_RAISED ->
  dispute_consistent reg -> dispute_consistent (put reg id e').
Proof.
  intros Hold Hnew [HA HB]. split; cbn.
  - intros k x Hk Hx. apply lookup_insert_cases in Hk as [[<- <-]|[_ Hk]]; [contradiction|].
    exact (HA k x Hk Hx).
  - intros d r Hd Ho. destruct (HB d r Hd Ho) as (x & Hx & Hs & Hdi).
    exists x. rewrite lookup_insert_ne; [auto|]. intros ->. exact (Hold x Hx Hs).
Qed.

Lemma consistent_raise reg id e e' did r0 :
  escrows reg !! id = Some e -> EscrowData.status e <> DISPUTE_RAISED ->
  disputes reg !! did = None ->
  EscrowData.status e' = DISPUTE_RAISED -> EscrowData.dispute_id e' = Some did ->
  DisputeRecord.status r0 = "open"%string -> DisputeRecord.escrow_id r0 = id ->
  dispute_consistent reg ->
  dispute_consistent (mkRegistry (<[id := e']> (escrows reg)) (<[did := r0]> (disputes reg))).
Proof.
  intros He Hs Hfresh Hs' Hd' Ho0 Hi0 [HA HB]. split; cbn.
  - intros k x Hk Hx. apply lookup_insert_cases in Hk as [[<- <-]|[Hne Hk]].
    + exists did, r0. rewrite lookup_insert_eq. auto.
    + destruct (HA k x Hk Hx) as (d & r & Hdi & Hd & Ho & Hi).
      exists d, r. rewrite lookup_insert_ne; [auto|]. intros ->. congruence.
  - intros d r Hd Ho. apply lookup_insert_cases in Hd as [[<- <-]|[Hne Hd]].
    + exists e'. rewrite Hi0, lookup_insert_eq. auto.
    + destruct (HB d r Hd Ho) as (x & Hx & Hxs & Hdi).
      exists x. rewrite lookup_insert_ne; [auto|]. intros Heq. rewrite <- Heq in Hx. congruence.
Qed.

Lemma consistent_resolve reg id e e' r r' :
  disputes_wf reg -> escrows reg !! id = Some e -> EscrowData.status e = DISPUTE_RAISED ->
  find_open_dispute reg e = Ok r ->
  EscrowData.status e' <> DISPUTE_RAISED -> DisputeRecord.status r' <> "open"%string ->
  dispute_consistent reg ->
  dispute_consistent (mkRegistry (<[id := e']> (escrows reg))
                                 (<[DisputeRecord.dispute_id r := r']> (disputes reg))).
Proof.
  intros Hwf He Hs Hf Hs' Ho' [HA HB].
  destruct (find_open_dispute_ok _ _ _ Hf) as (d & Hdi & Hd & Ho).
  destruct (Hwf d r Hd) as [Hkey _]. rewrite Hkey.
  destruct (HA id e He Hs) as (d1 & r1 & Hdi1 & Hd1 & _ & Hi1).
  rewrite Hdi in Hdi1. injection Hdi1 as <-. rewrite Hd in Hd1. injection Hd1 as <-.
  split; cbn.
  - intros k x Hk Hx. apply lookup_insert_cases in Hk as [[<- <-]|[Hne Hk]]; [contradiction|].
    destruct (HA k x Hk Hx) as (dk & rk & Hdik & Hdk & Hok & Hik).
    exists dk, rk. rewrite lookup_insert_ne; [auto|]. intros <-. congruence.
  - intros d' r'' Hd' Ho''. apply lookup_insert_cases in Hd' as [[<- <-]|[Hne Hd']]; [contradiction|].
    destruct (HB d' r'' Hd' Ho'') as (x & Hx & Hxs & Hdix).
    exists x. rewrite lookup_insert_ne; [auto|]. intros Heq. rewrite <- Heq in Hx. congruence.
Qed.

Section Consistency.
Context `{EscrowValidator}.
Variable threshold : float.

Ltac quiet_kind :=
  first [exact (or_introl eq_refl) | exact (or_intror (or_introl eq_refl))
        | exact (or_intror (or_intror eq_refl))].

Ltac quiet_put :=
  match goal with
  | Hf : find _ _ = Ok ?e, Ht : transition _ _ = Ok _ |- _ =>
      apply find_ok in Hf;
      destruct (transition_quiet _ _ _ Ht ltac:(quiet_kind)) as [Hq Hq'];
      apply consistent_put; [intros x Hx; rewrite Hf in Hx; injection Hx as <-; exact Hq | exact Hq' | assumption]
  end.

Lemma consistent_step reg c reg' resp :
  disputes_wf reg -> dispute_consistent reg -> step threshold reg c = Ok (reg', resp) ->
  dispute_consistent reg'.
Proof.
  intros Hwf Hc Hs. destruct c; cbn in Hs.
  - destruct (escrows reg !! _) eqn:Hfresh; [discriminate|].
    destruct (validate_record _ _); [|discriminate]. injection Hs as <- <-.
    apply consistent_put; [intros x Hx; congruence | cbn; discriminate | exact Hc].
  - bind_inv Hs. cases_in Hs; try discriminate; injection Hs as <- <-; quiet_put.
  - bind_inv Hs. injection Hs as <- <-. quiet_put.
  - bind_inv Hs. apply find_ok in Ha.
    assert (Hq : EscrowData.status a <> DISPUTE_RAISED /\ a0 = DISPUTE_RAISED)
      by (destruct (EscrowData.status a); cbn in Ha0; try discriminate; injection Ha0 as <-; split; first [discriminate | reflexivity]).
    destruct Hq as [Hq ->]. cases_in Hs; try discriminate. injection Hs as <- <-.
    eapply consistent_raise; eauto; reflexivity.
  - bind_inv Hs. apply find_ok in Ha. injection Hs as <- <-.
    destruct (transition_resolve _ _ _ Ha0) as [Hr ->].
    eapply consistent_resolve; [exact Hwf | exact Ha | exact Hr | exact Ha1 | cbn; match goal with |- context [resolved_status ?x] => destruct x end; discriminate | discriminate | exact Hc].
  - bind_inv Hs. injection Hs as <- <-. quiet_put.
  - bind_inv Hs. injection Hs as <- <-. exact Hc.
Qed.

Lemma reachable_consistent reg : reachable threshold reg -> dispute_consistent reg.
Proof.
  induction 1 as [|reg c reg' resp Hr IH Hs].
  - split; intros ? ? Hl; discriminate Hl.
  - eapply consistent_step; eauto. eapply reachable_disputes_wf; eauto.
Qed.

(** C6: In every state the registry can reach, an escrow is
    DISPUTE_RAISED exactly when its [dispute_id] names an open dispute
    record, and that record belongs to the escrow. *)
Theorem raised_iff_open_record reg k e :
  reachable threshold reg -> escrows reg !! k = Some e ->
  (EscrowData.status e = DISPUTE_RAISED <->
   exists d r, EscrowData.dispute_id e = Some d /\ disputes reg !! d = Some r /\
     DisputeRecord.status r = "open"%string /\ DisputeRecord.escrow_id r = k).
Proof.
  intros Hr He. destruct (reachable_consistent reg Hr) as [HA HB]. split; [exact (HA k e He)|].
  intros (d & r & Hdi & Hd & Ho & Hi). destruct (HB d r Hd Ho) as (x & Hx & Hs & _).
  rewrite Hi, He in Hx. congruence.
Qed.

(** C7: A raised dispute never gets stuck: in every reachable state,
    a DISPUTE_RAISED escrow can be resolved by either decision, which
    moves it to COMPLETED (release) or CANCELED (refund). *)
Theorem raised_dispute_resolvable reg id e dec reasoning now :
  reachable threshold reg -> escrows reg !! id = Some e -> EscrowData.status e = DISPUTE_RAISED ->
  exists reg', step threshold reg (ResolveDispute id dec reasoning now) = Ok (reg', Moved id (resolved_status dec)).
Proof.
  intros Hr He Hs. destruct (reachable_consistent reg Hr) as [HA _].
  destruct (HA id e He Hs) as (d & r & Hdi & Hd & Ho & _).
  destruct dec; eexists; cbn; rewrite (find_some _ _ _ He); cbn; rewrite Hs;
    unfold find_open_dispute; rewrite Hdi, Hd, Ho; reflexivity.
Qed.

End Consistency.

Lemma raised_iff_open_record_witness :
  reachable threshold0 registry1 /\ escrows registry1 !! id0 = Some escrow1 /\
  (EscrowData.status escrow1 = DISPUTE_RAISED <->
   exists d r, EscrowData.dispute_id escrow1 = Some d /\ disputes registry1 !! d = Some r /\
     DisputeRecord.status r = "open"%string /\ DisputeRecord.escrow_id r = id0).
Proof.
  assert (He : escrows registry1 !! id0 = Some escrow1) by (vm_compute; reflexivity).
  split; [exact registry1_reachable|]. split; [exact He|].
  exact (raised_iff_open_record threshold0 registry1 id0 escrow1 registry1_reachable He).
Defined.

Lemma raised_dispute_resolvable_witness :
  reachable threshold0 registry1 /\ escrows registry1 !! id0 = Some escrow1 /\
  EscrowData.status escrow1 = DISPUTE_RAISED /\
  exists reg', step threshold0 registry1 (ResolveDispute id0 Release "delivery confirmed" (now0 + 300)) =
               Ok (reg', Moved id0 (resolved_status Release)).
Proof.
  assert (He : escrows registry1 !! id0 = Some escrow1) by (vm_compute; reflexivity).
  split; [exact registry1_reachable|]. split; [exact He|]. split; [reflexivity|].
  exact (raised_dispute_resolvable threshold0 registry1 id0 escrow1 Release "delivery confirmed" (now0 + 300)
           registry1_reachable He eq_refl).
Defined.
