(* ===== verification/Oracle.v ===== *)
(** * The oracle's transaction verification ([agents/oracle_agent.py])

    [verify_transaction_with_ai] asks an external completion service to
    judge a transaction and returns the service's JSON answer, or a
    fallback dictionary [{"verified": False, "confidence": 0.0,
    "error": ...}].  Its effects are inputs here:

    - [api_key] is [ASI_ONE_API_KEY] ([os.getenv], [None] when unset);
    - [HttpOutcome] is what [requests.post(...)], [raise_for_status()]
      and [response.json()] give: the decoded body, or an exception with
      its [str(e)];
    - [json_loads] is [json.loads] on a [str], [None] being the
      [JSONDecodeError]; it is a variable of the section, so every
      theorem holds for any JSON parser.

    The walk [result['choices'][0]['message']['content']] is written
    out with the messages of the [KeyError], [IndexError] and
    [TypeError] that Python raises on the way, which the outer [except]
    turns into the ["error"] entry.  The prompt and request headers are
    not modelled: the service's answer is an input whatever they are. *)

From stdpp Require Import base gmap strings.
From Stdlib Require Import String ZArith List Bool Lia SpecFloat.
From S2P Require Import Prelude PyFloat Models Validation Json Registry.
Import ListNotations.

Local Open Scope string_scope.
Local Open Scope py_scope.

Inductive HttpOutcome : Type :=
| HttpResponse (json : pyval)
| HttpException (message : string).

Definition not_subscriptable (v : pyval) : string :=
  "'" ++ type_name v ++ "' object is not subscriptable".

(** The exceptions of a subscript, with [str(e)]. *)
Inductive LookupError : Type :=
| KeyError (message : string)
| IndexError (message : string)
| TypeError (message : string).

Definition exc_message (e : LookupError) : string :=
  match e with KeyError m | IndexError m | TypeError m => m end.

(** [v[k]] for a [str] key. *)
Definition subscript_str (v : pyval) (k : string) : result pyval LookupError :=
  match v with
  | PDict d => match dict_get d k with Some x => Ok x | None => Err (KeyError ("'" ++ k ++ "'")) end
  | PList _ => Err (TypeError "list indices must be integers or slices, not str")
  | PStr _ => Err (TypeError "string indices must be integers, not 'str'")
  | _ => Err (TypeError (not_subscriptable v))
  end.

(** [v[0]]. *)
Definition subscript_zero (v : pyval) : result pyval LookupError :=
  match v with
  | PList (x :: _) => Ok x
  | PList [] => Err (IndexError "list index out of range")
  | PDict _ => Err (KeyError "0")
  | PStr (String c _) => Ok (PStr (String c EmptyString))
  | PStr EmptyString => Err (IndexError "string index out of range")
  | _ => Err (TypeError (not_subscriptable v))
  end.

(** [result['choices'][0]['message']['content']]. *)
Definition ai_content (r : pyval) : result pyval LookupError :=
  choices <- subscript_str r "choices" ;;
  first <- subscript_zero choices ;;
  message <- subscript_str first "message" ;;
  subscript_str message "content".

Definition fallback (error : string) : pyval :=
  PDict [("verified", PBool false); ("confidence", PFloat (S754_zero false)); ("error", PStr error)].

(** [if not ASI_ONE_API_KEY]: [None] and [""] are not configured. *)
Definition api_key_set (api_key : option string) : bool :=
  match api_key with Some (String _ _) => true | _ => false end.

Section Verify.
Variable json_loads : string -> option pyval.

Definition verify_transaction_with_ai (api_key : option string) (post : HttpOutcome) : pyval :=
  if negb (api_key_set api_key) then fallback "AI service not configured"
  else
    match post with
    | HttpException msg => fallback msg
    | HttpResponse r =>
        match ai_content r with
        | Err e => fallback (exc_message e)
        | Ok (PStr ai_response) =>
            match json_loads ai_response with
            | Some verification_result => verification_result
            | None => fallback "Failed to parse AI response"
            end
        | Ok v => fallback ("the JSON object must be str, bytes or bytearray, not " ++ type_name v)
        end
    end.

End Verify.

(** ** Reading the answer as a verdict

    How the registry reads a verification result ([Registry.OracleVerdict]):
    a dictionary whose ["verified"] is a [bool] and whose
    ["confidence"] is a [float]; anything else is no verdict. *)
Definition verdict_of (r : pyval) : option OracleVerdict :=
  match r with
  | PDict d =>
      match dict_get d "verified", dict_get d "confidence" with
      | Some (PBool b), Some (PFloat c) => Some (mkVerdict b c)
      | _, _ => None
      end
  | _ => None
  end.

(** ** The service's answer *)

Definition service_response (content : string) : pyval :=
  PDict [("choices", PList [PDict [("message", PDict [("role", PStr "assistant"); ("content", PStr content)])]])].

(** A plain value the service writes as its content. *)
Definition plain_answer : pyval := PDict [("verified", PBool true); ("reason", PStr "tx 0xab confirmed")].

(** ** Lemmas *)

Lemma verdict_of_fallback msg : verdict_of (fallback msg) = Some unavailable_verdict.
Proof. reflexivity. Qed.

Lemma unavailable_insufficient threshold : sufficient threshold unavailable_verdict = false.
Proof. reflexivity. Qed.

Lemma fallback_unavailable threshold msg v :
  verdict_of (fallback msg) = Some v -> sufficient threshold v = false.
Proof. intros [= <-]. apply unavailable_insufficient. Qed.

(** ** Properties *)

(** C15: [verify_transaction_with_ai] has two kinds of outcome: with a
    key set and an answer whose [choices[0].message.content] is a string
    that parses, the parsed JSON value itself; on every other path (no
    key, an exception of the request, a malformed answer, content that
    is not a string or does not parse) the fallback dictionary, which
    reads as the unavailable verdict and never satisfies the deposit
    policy, whatever its threshold. *)
Theorem verify_outcomes json_loads api_key post :
  (api_key_set api_key = true /\ exists r s, post = HttpResponse r /\
    ai_content r = Ok (PStr s) /\ json_loads s = Some (verify_transaction_with_ai json_loads api_key post)) \/
  (exists msg, verify_transaction_with_ai json_loads api_key post = fallback msg /\
    verdict_of (fallback msg) = Some unavailable_verdict /\
    forall threshold v, verdict_of (fallback msg) = Some v -> sufficient threshold v = false).
Proof.
  assert (Hf : forall msg, exists m, fallback msg = fallback m /\
    verdict_of (fallback m) = Some unavailable_verdict /\
    forall threshold v, verdict_of (fallback m) = Some v -> sufficient threshold v = false)
    by (intros msg; exists msg; split; [reflexivity|split; [reflexivity|intros t v; apply fallback_unavailable]]).
  unfold verify_transaction_with_ai.
  destruct (api_key_set api_key) eqn:Hk; cbn [negb]; [|right; apply Hf].
  destruct post as [r|msg]; [|right; apply Hf].
  destruct (ai_content r) as [v|e] eqn:Hc; [|right; apply Hf].
  destruct v as [| | | |s| |]; try (right; apply Hf).
  destruct (json_loads s) as [res|] eqn:Hj; [|right; apply Hf].
  left. split; [reflexivity|]. exists r, s. auto.
Qed.

(** C16: Composed with the JSON decoder of [Json], the oracle returns
    the service's answer itself: with a key set and a response whose
    [choices[0].message.content] is the text [json.dumps] writes for a
    plain value [v], [verify_transaction_with_ai] gives [v]. *)
Theorem verify_reads_service_json api_key v :
  api_key_set api_key = true -> json_plain v = true ->
  verify_transaction_with_ai json_loads api_key (HttpResponse (service_response (json_dumps v))) = v.
Proof.
  intros Hk Hp. unfold verify_transaction_with_ai. rewrite Hk. cbv [negb].
  change (ai_content (service_response (json_dumps v))) with (@Ok pyval LookupError (PStr (json_dumps v))).
  cbv iota beta. now rewrite loads_dumps.
Qed.

Lemma verify_reads_service_json_witness :
  api_key_set (Some "sk-test") = true /\ json_plain plain_answer = true /\
  verify_transaction_with_ai json_loads (Some "sk-test") (HttpResponse (service_response (json_dumps plain_answer)))
    = plain_answer.
Proof. split; [reflexivity|split; [reflexivity|apply verify_reads_service_json; reflexivity]]. Defined.
