(* ===== verification/Supercar.v ===== *)
(** * The supercar expert agent of [agent.py]

    [agent.py] is a fifth chat agent with the same [on_chat] handler as
    the escrow agents: an acknowledgement, then metadata and a welcome
    text at the start of a session, one reply per text, a farewell at
    the end.  It is one more instance of [Agents.ChatRole], whose text
    handler is [get_supercar_expert_response]: a request to the same
    completion service as the oracle, answered with the service's
    content or with one of three apologies, by the kind of exception.

    As in [Oracle], the API key and the service's answer to each query
    ([service q], the outcome of [requests.post], [raise_for_status()]
    and [response.json()]) are inputs.  Every failure of those three
    calls is a [requests.exceptions.RequestException] (the JSON decoding
    error of [response.json()] is one since requests 2.27). *)

From stdpp Require Import base gmap strings.
From Stdlib Require Import String ZArith List Bool Lia.
From S2P Require Import Prelude PyFloat Models Agents Registry Oracle.
Import ListNotations.

Local Open Scope string_scope.

Definition not_configured : string :=
  "I'm sorry, but I'm not properly configured to access my supercar knowledge base. Please ensure the ASI_ONE_API_KEY is set.".

Definition get_supercar_expert_response (api_key : option string) (post : HttpOutcome) : pyval :=
  if negb (api_key_set api_key) then PStr not_configured
  else
    match post with
    | HttpException msg =>
        PStr ("I encountered an issue accessing my supercar knowledge base: " ++ msg)
    | HttpResponse r =>
        match ai_content r with
        | Ok content => content
        | Err (KeyError msg) =>
            PStr ("I received an unexpected response format from my knowledge base: " ++ msg)
        | Err e => PStr ("An unexpected error occurred: " ++ exc_message e)
        end
    end.

Definition supercar_capabilities : dict :=
  [("capabilities", PStr "supercar-expert");
   ("description", PStr "Expert assistant specializing in supercars, hypercars, and exotic vehicles");
   ("version", PStr "1.0")].

(** The agent, for a key and a service. *)
Definition supercar_role (api_key : option string) (service : string -> HttpOutcome) : ChatRole pyval :=
  {| role_capabilities := supercar_capabilities;
     role_handle_request q := get_supercar_expert_response api_key (service q) |}.

(** A service answer whose message content is JSON [null]. *)
Definition null_content_response : pyval :=
  PDict [("choices", PList [PDict [("message", PDict [("role", PStr "assistant"); ("content", PNone)])]])].

(** ** Properties *)

(** Every reply of the supercar agent to a text is the service's
    content when the key is set and the walk to
    [choices[0].message.content] succeeds; otherwise it is a string: the
    configuration apology exactly when the key is unset, else an apology
    naming the request failure, the missing key, or the unexpected
    error. *)
Theorem supercar_reply_cases (api_key : option string) (service : string -> HttpOutcome) (q : string) :
  let reply := get_supercar_expert_response api_key (service q) in
  (api_key_set api_key = false /\ reply = PStr not_configured) \/
  (api_key_set api_key = true /\
    ((exists r, service q = HttpResponse r /\ ai_content r = Ok reply) \/
     (exists msg, service q = HttpException msg /\
        reply = PStr ("I encountered an issue accessing my supercar knowledge base: " ++ msg)) \/
     (exists r msg, service q = HttpResponse r /\ ai_content r = Err (KeyError msg) /\
        reply = PStr ("I received an unexpected response format from my knowledge base: " ++ msg)) \/
     (exists r e, service q = HttpResponse r /\ ai_content r = Err e /\
        (forall m, e <> KeyError m) /\ reply = PStr ("An unexpected error occurred: " ++ exc_message e)))).
Proof.
  cbn zeta. unfold get_supercar_expert_response.
  destruct (api_key_set api_key) eqn:Hk; cbn [negb]; [right; split; [reflexivity|]|left; auto].
  destruct (service q) as [r|msg]; [|right; left; eauto].
  destruct (ai_content r) as [v|[m|m|m]] eqn:Hc; [left; eauto|right; right; left; eauto| |];
    right; right; right; exists r; eexists; repeat split; eauto; discriminate.
Qed.

(** The supercar agent can answer a text with a value that is not a
    string: a service answer with a [null] content is passed on as
    [None], and an empty [choices] list becomes the unexpected-error
    apology rather than the response-format one. *)
Theorem supercar_reply_not_always_text :
  get_supercar_expert_response (Some "asi-key") (HttpResponse null_content_response) = PNone /\
  get_supercar_expert_response (Some "asi-key") (HttpResponse (PDict [("choices", PList [])])) =
    PStr "An unexpected error occurred: list index out of range".
Proof. split; reflexivity. Qed.
